(** * Invoice pipeline: a shallow embedding of the agents and the orchestrator

    The Python sources embedded here are
      - agents/validation_agent.py     (ValidationAgent)
      - agents/tool_decision_agent.py  (ToolDecisionAgent)
      - agents/extraction_agent.py     (ExtractionAgent)
      - tools/database_tool.py         (DatabaseTool)
      - orchestrator.py                (InvoiceProcessingOrchestrator)
      - app.py                         (the two button handlers of main)
      - agents/document_ingestion_agent.py (DocumentIngestionAgent)

    Python dictionaries are finite maps with string keys, exceptions are an
    explicit error monad, floats are IEEE-754 binary64 values given by their
    specification ([spec_float]), and the mock database file is a piece of
    state threaded through the calls that touch it. *)

From Stdlib Require Import ZArith String Ascii List Bool Lia Sorted.
From Stdlib Require Import Floats.SpecFloat.
From Stdlib Require Import DecimalString.
From stdpp Require Import gmap strings list fin_maps.

Set Warnings "-register-all".
Local Open Scope string_scope.
Local Open Scope Z_scope.

(** ** Exceptions *)

(** The exception classes that the sources name in an [except] clause or that
    the modelled built-ins raise. Every class derives from [Exception];
    [OtherError] stands for any further subclass of it (an HTTP error of the
    API client, an [IndexError], an [UnboundLocalError], ...).
    [UnicodeDecodeError] is what reading a text file raises on bytes that
    are not text in its encoding, [UnicodeEncodeError] what [print] raises
    on a character that the output stream cannot encode, [RecursionError]
    what [json.load] raises on a nesting deeper than the interpreter
    allows. *)
Inductive exn_class : Type :=
| Exception
| ValueError
| JSONDecodeError
| UnicodeDecodeError
| UnicodeEncodeError
| TypeError
| OverflowError
| RecursionError
| AttributeError
| KeyError
| OSError
| FileNotFoundError
| OtherError.

Definition same_class (c d : exn_class) : bool :=
  match c, d with
  | Exception, Exception
  | ValueError, ValueError
  | JSONDecodeError, JSONDecodeError
  | UnicodeDecodeError, UnicodeDecodeError
  | UnicodeEncodeError, UnicodeEncodeError
  | TypeError, TypeError
  | OverflowError, OverflowError
  | RecursionError, RecursionError
  | AttributeError, AttributeError
  | KeyError, KeyError
  | OSError, OSError
  | FileNotFoundError, FileNotFoundError
  | OtherError, OtherError => true
  | _, _ => false
  end.

(** An exception value: its class and the text [str(e)] gives. *)
Record exn : Type := Exn { exn_cls : exn_class; exn_msg : string }.

(** [subclass c d]: class [c] is [d] or derives from it.
    [json.JSONDecodeError] and the two Unicode errors derive from
    [ValueError], [FileNotFoundError] from [OSError]. *)
Definition subclass (c d : exn_class) : bool :=
  match c, d with
  | _, Exception => true
  | JSONDecodeError, ValueError => true
  | UnicodeDecodeError, ValueError => true
  | UnicodeEncodeError, ValueError => true
  | FileNotFoundError, OSError => true
  | _, _ => same_class c d
  end.

(** [isinstance e cs]: what [except (c1, ..., cn)] tests. *)
Definition isinstance (e : exn) (cs : list exn_class) : bool :=
  existsb (subclass (exn_cls e)) cs.

(** A computation that returns a value or raises. *)
Inductive result (A : Type) : Type :=
| Ok (a : A)
| Raise (e : exn).
Arguments Ok {A} a.
Arguments Raise {A} e.

(** Sequencing: the first exception raised ends the block. *)
Definition bind {A B} (m : result A) (f : A -> result B) : result B :=
  match m with
  | Ok a => f a
  | Raise e => Raise e
  end.

Notation "'let*' x ':=' m 'in' k" := (bind m (fun x => k))
  (at level 10, x name, m at level 100, k at level 200).
Notation "'do*' m 'in' k" := (bind m (fun _ => k))
  (at level 10, m at level 100, k at level 200).

Definition raise {A} (c : exn_class) (msg : string) : result A :=
  Raise (Exn c msg).

(** [try: body except cs1: h1 e ... except csn: hn e]: the first clause whose
    classes match handles the exception; with no match it propagates. A bare
    [except:] is the clause [[Exception]]. *)
Fixpoint handle {A} (e : exn)
    (clauses : list (list exn_class * (exn -> result A))) : result A :=
  match clauses with
  | [] => Raise e
  | (cs, handler) :: rest =>
      if isinstance e cs then handler e else handle e rest
  end.

Definition try_except {A} (body : result A)
    (clauses : list (list exn_class * (exn -> result A))) : result A :=
  match body with
  | Ok a => Ok a
  | Raise e => handle e clauses
  end.

(** ** Python values *)

(** The values that reach the agents: what [json.loads] builds ([None],
    booleans, integers, floats, strings, lists, dictionaries with string
    keys), and [PObject] for any other object a caller of type [Any] may
    pass (a [datetime.date], a [set], ...): it has no [__float__], no
    [__len__], no [read] and no JSON encoding. *)
Inductive pyvalue : Type :=
| PNone
| PBool (b : bool)
| PInt (z : Z)
| PFloat (f : spec_float)
| PStr (s : string)
| PList (l : list pyvalue)
| PDict (d : gmap string pyvalue)
| PObject (type_name : string).

Definition type_name_of (v : pyvalue) : string :=
  match v with
  | PNone => "NoneType"
  | PBool _ => "bool"
  | PInt _ => "int"
  | PFloat _ => "float"
  | PStr _ => "str"
  | PList _ => "list"
  | PDict _ => "dict"
  | PObject n => n
  end.

Definition is_none (v : pyvalue) : bool :=
  match v with
  | PNone => true
  | _ => false
  end.

(** ** Strings

    A Python [str] is modelled by a [string] whose characters are the code
    points below 256. *)

(** [str.isspace] on one character, for code points below 256. *)
Definition py_isspace (c : ascii) : bool :=
  let n := N_of_ascii c in
  ((9 <=? n) && (n <=? 13) || (28 <=? n) && (n <=? 32)
   || (n =? 133) || (n =? 160))%N.

Fixpoint lstrip (s : string) : string :=
  match s with
  | EmptyString => EmptyString
  | String c s' => if py_isspace c then lstrip s' else s
  end.

(** [s.rstrip()]: a trailing character is dropped when it is white space and
    everything after it has been dropped. *)
Fixpoint rstrip (s : string) : string :=
  match s with
  | EmptyString => EmptyString
  | String c s' =>
      match rstrip s' with
      | EmptyString => if py_isspace c then EmptyString else String c EmptyString
      | r => String c r
      end
  end.

(** [s.strip()] *)
Definition strip (s : string) : string := rstrip (lstrip s).

(** [bool(s)]: a string is true when it is not empty. *)
Definition truthy_str (s : string) : bool :=
  match s with
  | EmptyString => false
  | String _ _ => true
  end.

(** [len(s)] *)
Definition len_str (s : string) : Z := Z.of_nat (String.length s).

(** [sub in s] *)
Fixpoint contains (sub s : string) : bool :=
  String.prefix sub s ||
  match s with
  | EmptyString => false
  | String _ s' => contains sub s'
  end.

(** [s.find(c)] for a one-character needle: the first index, or -1. *)
Fixpoint find_char (c : ascii) (s : string) : Z :=
  match s with
  | EmptyString => -1
  | String a s' =>
      if Ascii.eqb a c then 0
      else let i := find_char c s' in if i <? 0 then -1 else i + 1
  end.

(** [s.rfind(c)]: the last index, or -1. *)
Fixpoint rfind_char (c : ascii) (s : string) : Z :=
  match s with
  | EmptyString => -1
  | String a s' =>
      let i := rfind_char c s' in
      if 0 <=? i then i + 1 else if Ascii.eqb a c then 0 else -1
  end.

(** [s[i:j]] for [0 <= i] and [0 <= j] (out-of-range bounds are clipped). *)
Definition slice (i j : Z) (s : string) : string :=
  String.substring (Z.to_nat i) (Z.to_nat (j - i))
    (String.substring 0 (Z.to_nat j) s).

(** [str.lower] on one character, for code points below 256. *)
Definition lower_char (c : ascii) : ascii :=
  let n := N_of_ascii c in
  if ((65 <=? n) && (n <=? 90)
      || (192 <=? n) && (n <=? 222) && negb (n =? 215))%N
  then ascii_of_N (n + 32) else c.

Fixpoint lower (s : string) : string :=
  match s with
  | EmptyString => EmptyString
  | String c s' => String (lower_char c) (lower s')
  end.

(** [s.replace(old, new)] for a non-empty [old]: the occurrences of [old] are
    replaced from left to right, without overlap. [fuel] bounds the scan and
    [String.length s] is always enough. *)
Fixpoint replace_from (fuel : nat) (old new s : string) : string :=
  match fuel with
  | O => s
  | S fuel' =>
      if String.prefix old s
      then new ++ replace_from fuel' old new
                    (String.substring (String.length old) (String.length s) s)
      else match s with
           | EmptyString => EmptyString
           | String c s' => String c (replace_from fuel' old new s')
           end
  end.

Definition replace (old new s : string) : string :=
  replace_from (S (String.length s)) old new s.

(** [sep.join(items)] *)
Definition join (sep : string) (items : list string) : string :=
  String.concat sep items.

(** ** Library functions that are not part of the repository

    [float_of_str s] is [float(s)] on a string ([None]: it raises
    [ValueError]); [dateutil_parse v] is [dateutil.parser.parse(v)], kept for
    its effect only (it returns or raises); [json_loads s] is [json.loads(s)]
    on a string; [print_notice] is the call of [print] in
    [ExtractionAgent.extract], on the notice that the fallback model is
    tried: the notice starts with a warning sign, and [print] raises
    [UnicodeEncodeError] when the output stream cannot encode it. *)
Record pylib : Type := PyLib {
  float_of_str : string -> option spec_float;
  dateutil_parse : pyvalue -> result unit;
  json_loads : string -> result pyvalue;
  print_notice : result unit
}.

(** ** Built-in operations on values *)

(** The binary64 value nearest to an integer (ties to even); an integer
    beyond the range gives an infinity here. *)
Definition float_of_Z (z : Z) : spec_float := binary_normalize 53 1024 z 0 false.

Definition float_zero : spec_float := S754_zero false.

(** [float(v)] *)
Definition py_float (L : pylib) (v : pyvalue) : result spec_float :=
  match v with
  | PBool b => Ok (float_of_Z (if b then 1 else 0))
  | PInt z =>
      match float_of_Z z with
      | S754_infinity _ => raise OverflowError "int too large to convert to float"
      | f => Ok f
      end
  | PFloat f => Ok f
  | PStr s =>
      match float_of_str L s with
      | Some f => Ok f
      | None => raise ValueError ("could not convert string to float: " ++ s)
      end
  | _ => raise TypeError
           ("float() argument must be a string or a real number, not '"
              ++ type_name_of v ++ "'")
  end.

(** [key in c] for a string [key] *)
Definition py_in (key : string) (c : pyvalue) : result bool :=
  match c with
  | PDict d =>
      Ok (match d !! key with
          | Some _ => true
          | None => false
          end)
  | PList l =>
      Ok (existsb (fun x => match x with
                            | PStr s => String.eqb s key
                            | _ => false
                            end) l)
  | PStr s => Ok (contains key s)
  | _ => raise TypeError
           ("argument of type '" ++ type_name_of c ++ "' is not iterable")
  end.

(** [c[key]] for a string [key] *)
Definition py_getitem (c : pyvalue) (key : string) : result pyvalue :=
  match c with
  | PDict d =>
      match d !! key with
      | Some v => Ok v
      | None => raise KeyError key
      end
  | PList _ => raise TypeError "list indices must be integers or slices, not str"
  | PStr _ => raise TypeError "string indices must be integers, not 'str'"
  | _ => raise TypeError
           ("'" ++ type_name_of c ++ "' object is not subscriptable")
  end.

(** [d.get(key, default)] on a dictionary *)
Definition dict_get (d : gmap string pyvalue) (key : string)
    (default : pyvalue) : pyvalue :=
  match d !! key with
  | Some v => v
  | None => default
  end.

(** ** agents/validation_agent.py *)

(** The dictionary [{"status": ..., "errors": ...}]; a key may be absent,
    which [ToolDecisionAgent.decide] allows for with [.get]. *)
Record verdict : Type := Verdict {
  v_status : option string;
  v_errors : option (list string)
}.

Definition required_fields : list string := ["biller_name"; "total_amount"].

(** [field not in extracted_data or extracted_data[field] is None] *)
Definition field_missing (extracted_data : pyvalue) (field : string)
    : result bool :=
  let* present := py_in field extracted_data in
  if negb present then Ok true
  else let* v := py_getitem extracted_data field in Ok (is_none v).

(** [field in extracted_data and extracted_data[field] is not None] *)
Definition field_given (extracted_data : pyvalue) (field : string)
    : result bool :=
  let* present := py_in field extracted_data in
  if present then let* v := py_getitem extracted_data field in Ok (negb (is_none v))
  else Ok false.

(** The loop over [required_fields]. *)
Fixpoint check_required (extracted_data : pyvalue) (fields : list string)
    (errors : list string) : result (list string) :=
  match fields with
  | [] => Ok errors
  | field :: rest =>
      let* missing := field_missing extracted_data field in
      check_required extracted_data rest
        (if missing
         then (errors ++ [("Missing required field: " ++ field)%string])%list
         else errors)
  end.

(** [ValidationAgent._is_valid_date] *)
Definition _is_valid_date (L : pylib) (date_str : pyvalue) : result bool :=
  try_except (do* dateutil_parse L date_str in Ok true)
    [([ValueError; TypeError], fun _ => Ok false)].

(** The [try] block around [float(extracted_data["total_amount"])]. *)
Definition check_amount (L : pylib) (extracted_data : pyvalue)
    (errors : list string) : result (list string) :=
  try_except
    (let* v := py_getitem extracted_data "total_amount" in
     let* amount := py_float L v in
     Ok (if SFleb amount float_zero
         then (errors ++ ["total_amount must be a positive number"])%list
         else errors))
    [([ValueError; TypeError],
      fun _ => Ok (errors ++ ["total_amount must be a valid number"])%list)].

Definition check_due_date (L : pylib) (extracted_data : pyvalue)
    (errors : list string) : result (list string) :=
  let* v := py_getitem extracted_data "due_date" in
  let* ok := _is_valid_date L v in
  Ok (if ok then errors
      else (errors ++ ["due_date must be a valid date format"])%list).

(** [ValidationAgent.validate] *)
Definition validate (L : pylib) (extracted_data : pyvalue) : result verdict :=
  let* errors := check_required extracted_data required_fields [] in
  let* has_amount := field_given extracted_data "total_amount" in
  let* errors := (if has_amount then check_amount L extracted_data errors
            else Ok errors) in
  let* has_date := field_given extracted_data "due_date" in
  let* errors := (if has_date then check_due_date L extracted_data errors
            else Ok errors) in
  Ok (if (length errors =? 0)%nat
      then Verdict (Some "valid") (Some [])
      else Verdict (Some "incomplete") (Some errors)).

(** ** agents/tool_decision_agent.py *)

(** The dictionary [{"should_write", "reason", "data_to_write"}];
    [data_to_write] is [PNone] for [None]. *)
Record decision : Type := Decision {
  should_write : bool;
  reason : string;
  data_to_write : pyvalue
}.

(** [ToolDecisionAgent.decide] *)
Definition decide (validation_result : verdict) (extracted_data : pyvalue)
    : decision :=
  let status := default "incomplete" (v_status validation_result) in
  if String.eqb status "valid"
  then Decision true "Invoice validation passed" extracted_data
  else Decision false
         ("Validation failed: "
            ++ join ", " (default [] (v_errors validation_result)))
         PNone.

(** ** State and exceptions together

    A block that may raise while it mutates a store of type [S]; what was
    written before the exception stays written. *)
Definition st (S A : Type) : Type := S -> result A * S.

Definition st_ret {S A} (a : A) : st S A := fun s => (Ok a, s).

Definition st_bind {S A B} (m : st S A) (f : A -> st S B) : st S B :=
  fun s =>
    match m s with
    | (Ok a, s') => f a s'
    | (Raise e, s') => (Raise e, s')
    end.

Definition st_lift {S A} (r : result A) : st S A := fun s => (r, s).

Definition st_modify {S} (f : S -> S) : st S unit := fun s => (Ok tt, f s).

(** [try: body except Exception as e: handler e], the handler a plain
    [return]. *)
Definition st_catch_all {S A} (body : st S A) (handler : exn -> A) : st S A :=
  fun s =>
    match body s with
    | (Ok a, s') => (Ok a, s')
    | (Raise e, s') =>
        if isinstance e [Exception] then (Ok (handler e), s')
        else (Raise e, s')
    end.

Notation "'let!' x ':=' m 'in' k" := (st_bind m (fun x => k))
  (at level 10, x name, m at level 100, k at level 200).
Notation "'do!' m 'in' k" := (st_bind m (fun _ => k))
  (at level 10, m at level 100, k at level 200).

(** ** tools/database_tool.py *)

(** What the file at [db_path] holds, up to JSON encoding: nothing; a text
    that is not JSON ([json.load] raises [JSONDecodeError]); bytes that are
    not text in the encoding of the file ([json.load] raises
    [UnicodeDecodeError], with the message [msg], when it reads them); a
    nesting of brackets deeper than the interpreter allows ([json.load]
    raises [RecursionError]); or the encoding of a value ([json.load] of
    what [json.dump] wrote gives the value back). *)
Inductive db_file : Type :=
| FileMissing
| FileInvalid
| FileUndecodable (msg : string)
| FileTooDeep (msg : string)
| FileJson (v : pyvalue).

(** What the operating system may refuse during one call, with the text of
    the [OSError] it raises: opening the file for reading (a permission, not
    a missing file: that is [FileMissing]), opening it for writing, or a
    write after it was opened (a full disk). *)
Inductive io_fault : Type :=
| NoFault
| ReadFails (msg : string)
| OpenForWriteFails (msg : string)
| WriteFails (msg : string).

(** The values [json.dump] encodes; on any other object it raises
    [TypeError]. *)
Fixpoint json_serializable (v : pyvalue) : bool :=
  match v with
  | PObject _ => false
  | PList l => forallb json_serializable l
  | PDict d => map_fold (fun _ x acc => json_serializable x && acc) true d
  | _ => true
  end.

(** The dictionary [{"success", "message", "invoice_id"}]; [invoice_id] is
    [PNone] for [None]. *)
Record db_result : Type := DbResult {
  success : bool;
  message : string;
  invoice_id : pyvalue
}.

(** [len(v)] *)
Definition py_len (v : pyvalue) : result Z :=
  match v with
  | PStr s => Ok (len_str s)
  | PList l => Ok (Z.of_nat (length l))
  | PDict d => Ok (Z.of_nat (size d))
  | _ => raise TypeError
           ("object of type '" ++ type_name_of v ++ "' has no len()")
  end.

(** [v.append(x)], giving the list after the call *)
Definition py_append (v x : pyvalue) : result pyvalue :=
  match v with
  | PList l => Ok (PList (l ++ [x]))
  | _ => raise AttributeError
           ("'" ++ type_name_of v ++ "' object has no attribute 'append'")
  end.

(** The mapping unpacked by [**v] in a dictionary display *)
Definition py_unpack (v : pyvalue) : result (gmap string pyvalue) :=
  match v with
  | PDict d => Ok d
  | _ => raise TypeError ("'" ++ type_name_of v ++ "' object is not a mapping")
  end.

(** [with open(self.db_path, 'r') as f: return json.load(f)] *)
Definition read_json (fault : io_fault) (file : db_file) : result pyvalue :=
  match fault with
  | ReadFails msg => raise OSError msg
  | _ =>
      match file with
      | FileMissing =>
          raise FileNotFoundError "[Errno 2] No such file or directory"
      | FileInvalid => raise JSONDecodeError "Expecting value"
      | FileUndecodable msg => raise UnicodeDecodeError msg
      | FileTooDeep msg => raise RecursionError msg
      | FileJson v => Ok v
      end
  end.

(** [DatabaseTool._load_invoices] *)
Definition _load_invoices (fault : io_fault) : st db_file pyvalue :=
  fun file =>
    (try_except (read_json fault file)
       [([FileNotFoundError], fun _ => Ok (PList []));
        ([JSONDecodeError], fun _ => Ok (PList []))],
     file).

(** [DatabaseTool._save_invoices]: [open(self.db_path, 'w')] empties the
    file, then [json.dump] writes the encoding piece by piece. When a write
    is refused, or an object without an encoding is reached, the file is left
    with a proper prefix of the encoding of a list, which is not JSON. *)
Definition _save_invoices (fault : io_fault) (invoices : pyvalue)
    : st db_file unit :=
  fun file =>
    match fault with
    | OpenForWriteFails msg => (raise OSError msg, file)
    | WriteFails msg => (raise OSError msg, FileInvalid)
    | _ =>
        if json_serializable invoices then (Ok tt, FileJson invoices)
        else (raise TypeError "Object is not JSON serializable", FileInvalid)
    end.

(** [DatabaseTool._ensure_db_exists], called by [__init__] *)
Definition _ensure_db_exists (fault : io_fault) : st db_file unit :=
  fun file =>
    match file with
    | FileMissing => _save_invoices fault (PList []) file
    | _ => (Ok tt, file)
    end.

(** [DatabaseTool.write_invoice_to_db]; [now] is
    [datetime.now().isoformat()]. *)
Definition write_invoice_to_db (now : string) (fault : io_fault)
    (invoice_data : pyvalue) : st db_file db_result :=
  st_catch_all
    (let! invoices := _load_invoices fault in
     let! fields := st_lift (py_unpack invoice_data) in
     let! n := st_lift (py_len invoices) in
     let invoice_record :=
       <["status" := PStr "stored"]>
         (<["created_at" := PStr now]>
            (<["id" := PInt (n + 1)]> fields)) in
     let! invoices := st_lift (py_append invoices (PDict invoice_record)) in
     do! _save_invoices fault invoices in
     let! new_id := st_lift (py_getitem (PDict invoice_record) "id") in
     st_ret (DbResult true "Invoice successfully written to database" new_id))
    (fun e =>
       DbResult false ("Error writing to database: " ++ exn_msg e) PNone).

(** ** agents/extraction_agent.py *)

(** The external services: [document_process] is
    [DocumentIngestionAgent.process] (PDF reader and OCR engines), and
    [chat_create model system user] is
    [client.chat.completions.create] with the given model and the two
    messages (temperature, token limit and response format are constants of
    the call); it raises or answers with the [message.content] of each
    choice ([None] when a choice carries no text). *)
Record services : Type := Services {
  document_process : string -> result (gmap string pyvalue);
  chat_create : string -> string -> string -> result (list (option string))
}.

(** The attributes set by [ExtractionAgent.__init__]. *)
Record ExtractionAgent : Type := {
  model : string;
  prompt_template : string
}.

(** The dictionary returned when nothing could be extracted. *)
Definition null_fields (err : string) : pyvalue :=
  PDict (<["biller_name" := PNone]>
           (<["biller_address" := PNone]>
              (<["total_amount" := PNone]>
                 (<["due_date" := PNone]>
                    (<["error" := PStr err]> ∅))))).

(** [response.choices[0].message.content] *)
Definition first_content (choices : list (option string))
    : result (option string) :=
  match choices with
  | [] => raise OtherError "list index out of range"
  | content :: _ => Ok content
  end.

(** [json.loads(text)], where [text] may be [None] *)
Definition loads (L : pylib) (text : option string) : result pyvalue :=
  match text with
  | Some s => json_loads L s
  | None => raise TypeError
              "the JSON object must be str, bytes or bytearray, not NoneType"
  end.

(** The [try] block of [_parse_json_from_text]: [Some v] when it returned
    [v], [None] when control left the block without a [return]. *)
Definition parse_json_block (L : pylib) (text : option string)
    : result (option pyvalue) :=
  match text with
  | None => raise AttributeError "'NoneType' object has no attribute 'find'"
  | Some t =>
      let start_idx := find_char "{" t in
      let end_idx := rfind_char "}" t + 1 in
      if negb (start_idx =? -1) && (end_idx >? start_idx)
      then let json_str := slice start_idx end_idx t in
           let* v := json_loads L json_str in Ok (Some v)
      else Ok None
  end.

(** [ExtractionAgent._parse_json_from_text] *)
Definition _parse_json_from_text (L : pylib) (text : option string)
    : result pyvalue :=
  let* returned :=
    try_except (parse_json_block L text) [([Exception], fun _ => Ok None)] in
  match returned with
  | Some v => Ok v
  | None => Ok (null_fields "Failed to parse JSON")
  end.

Definition primary_system_message : string :=
  "You are a precise JSON extraction agent specialized in Arabic and multilingual invoices. Return only valid JSON.".

Definition fallback_system_message : string :=
  "You are a precise JSON extraction agent. Return only valid JSON.".

(** [ExtractionAgent.extract] *)
Definition extract (L : pylib) (Sv : services) (self : ExtractionAgent)
    (raw_text : pyvalue) : result pyvalue :=
  let* text :=
    match raw_text with
    | PStr s => Ok s
    | _ => raise TypeError
             ("replace() argument 2 must be str, not " ++ type_name_of raw_text)
    end in
  let prompt := replace "{raw_text}" text (prompt_template self) in
  let response := chat_create Sv (model self) primary_system_message prompt in
  try_except
    (let* choices := response in
     let* result_text := first_content choices in
     loads L result_text)
    [([JSONDecodeError], fun _ =>
        try_except
          (let* choices :=
             match response with
             | Ok choices => Ok choices
             | Raise _ =>
                 raise OtherError
                   "cannot access local variable 'response' where it is not associated with a value"
             end in
           let* result_text := first_content choices in
           _parse_json_from_text L result_text)
          [([Exception], fun _ =>
              Ok (null_fields "Failed to parse JSON response"))]);
     ([Exception], fun e =>
        if contains "402" (exn_msg e) || contains "credits" (lower (exn_msg e))
        then
          try_except
            (do* print_notice L in
             let* choices :=
               chat_create Sv "openai/gpt-4o-mini" fallback_system_message
                 prompt in
             let* result_text := first_content choices in
             loads L result_text)
            [([Exception], fun ex =>
                Ok (null_fields ("Fallback failed: " ++ exn_msg ex)))]
        else Ok (null_fields (exn_msg e)))].

(** ** orchestrator.py *)

(** One entry of [pipeline_results["steps"]]: the keys [agent], [status] and
    [output] are always there, [input], [error] and [reason] only when the
    code sets them. *)
Record step : Type := Step {
  s_agent : string;
  s_status : string;
  s_input : option pyvalue;
  s_output : pyvalue;
  s_error : option string;
  s_reason : option string
}.

(** The dictionary [pipeline_results]; [overall_status] and [error] are keys
    that are absent until the code sets them. *)
Record pipeline_results : Type := PipelineResults {
  pr_system_prompt : string;
  pr_steps : gmap string step;
  pr_overall_status : option string;
  pr_error : option string
}.

(** The attributes set by [InvoiceProcessingOrchestrator.__init__] that
    carry data: the agents without state are the functions above, the
    document agent is [document_process], the database tool is the file. *)
Record Orchestrator : Type := {
  extraction_agent : ExtractionAgent;
  system_prompt : string
}.

(** [pipeline_results["steps"][name] = s] *)
Definition set_step (name : string) (s : step) (r : pipeline_results)
    : pipeline_results :=
  PipelineResults (pr_system_prompt r) (<[name := s]> (pr_steps r))
    (pr_overall_status r) (pr_error r).

(** [pipeline_results["steps"][name]["output"] = v] *)
Definition set_output (name : string) (v : pyvalue) (r : pipeline_results)
    : pipeline_results :=
  PipelineResults (pr_system_prompt r)
    (alter (fun s => Step (s_agent s) (s_status s) (s_input s) v
                       (s_error s) (s_reason s)) name (pr_steps r))
    (pr_overall_status r) (pr_error r).

(** [pipeline_results["steps"][name]["status"] = status] *)
Definition set_status (name status : string) (r : pipeline_results)
    : pipeline_results :=
  PipelineResults (pr_system_prompt r)
    (alter (fun s => Step (s_agent s) status (s_input s) (s_output s)
                       (s_error s) (s_reason s)) name (pr_steps r))
    (pr_overall_status r) (pr_error r).

(** [pipeline_results["steps"][name]["error"] = msg] *)
Definition set_step_error (name msg : string) (r : pipeline_results)
    : pipeline_results :=
  PipelineResults (pr_system_prompt r)
    (alter (fun s => Step (s_agent s) (s_status s) (s_input s) (s_output s)
                       (Some msg) (s_reason s)) name (pr_steps r))
    (pr_overall_status r) (pr_error r).

(** [pipeline_results["overall_status"] = status] *)
Definition set_overall_status (status : string) (r : pipeline_results)
    : pipeline_results :=
  PipelineResults (pr_system_prompt r) (pr_steps r) (Some status) (pr_error r).

(** [pipeline_results["error"] = msg] *)
Definition set_error (msg : string) (r : pipeline_results)
    : pipeline_results :=
  PipelineResults (pr_system_prompt r) (pr_steps r) (pr_overall_status r)
    (Some msg).

(** The dictionaries of the agents as values, for the [output] of a step. *)
Definition opt_insert (key : string) (o : option pyvalue)
    (d : gmap string pyvalue) : gmap string pyvalue :=
  match o with
  | Some v => <[key := v]> d
  | None => d
  end.

Definition verdict_value (v : verdict) : pyvalue :=
  PDict (opt_insert "status" (PStr <$> v_status v)
           (opt_insert "errors" ((fun l => PList (PStr <$> l)) <$> v_errors v)
              ∅)).

Definition decision_value (d : decision) : pyvalue :=
  PDict (<["should_write" := PBool (should_write d)]>
           (<["reason" := PStr (reason d)]>
              (<["data_to_write" := data_to_write d]> ∅))).

Definition db_result_value (r : db_result) : pyvalue :=
  PDict (<["success" := PBool (success r)]>
           (<["message" := PStr (message r)]>
              (<["invoice_id" := invoice_id r]> ∅))).

(** [validation_result["status"]] *)
Definition verdict_status (v : verdict) : result string :=
  match v_status v with
  | Some s => Ok s
  | None => raise KeyError "status"
  end.

(** The receiver of [raw_text.strip()] *)
Definition strip_receiver (v : pyvalue) : result string :=
  match v with
  | PStr s => Ok s
  | _ => raise AttributeError
           ("'" ++ type_name_of v ++ "' object has no attribute 'strip'")
  end.

(** The store of one run: the results being filled in and the database
    file. *)
Definition run_state : Type := pipeline_results * db_file.

Definition on_results (f : pipeline_results -> pipeline_results)
    : st run_state unit :=
  st_modify (fun s => (f (fst s), snd s)).

Definition on_db {A} (m : st db_file A) : st run_state A :=
  fun s => let (r, file) := m (snd s) in (r, (fst s, file)).

(** The [try] block of [process_invoice]; the [return] inside it is the end
    of the first branch. *)
Definition process_invoice_try (L : pylib) (Sv : services)
    (self : Orchestrator) (now : string) (fault : io_fault)
    (file_path : string) : st run_state unit :=
  (* Step 1: Document Ingestion *)
  do! on_results (set_step "document_ingestion"
        (Step "Document Ingestion Agent" "processing"
           (Some (PDict {[ "file_path" := PStr file_path ]})) PNone None None)) in
  let! ingestion_result := st_lift (document_process Sv file_path) in
  do! on_results (set_output "document_ingestion" (PDict ingestion_result)) in
  do! on_results (set_status "document_ingestion" "success") in
  let raw_text := dict_get ingestion_result "raw_text" (PStr "") in
  let! text := st_lift (strip_receiver raw_text) in
  if negb (truthy_str (strip text)) then
    do! on_results (set_status "document_ingestion" "error") in
    on_results (set_step_error "document_ingestion"
                  "No text extracted from document")
  else
    (* Step 2: Information Extraction *)
    do! on_results (set_step "extraction"
          (Step "Information Extraction Agent" "processing"
             (Some (PDict {[ "raw_text_length" := PInt (len_str text) ]}))
             PNone None None)) in
    let! extracted_data :=
      st_lift (extract L Sv (extraction_agent self) raw_text) in
    do! on_results (set_output "extraction" extracted_data) in
    do! on_results (set_status "extraction" "success") in
    (* Step 3: Validation *)
    do! on_results (set_step "validation"
          (Step "Validation Agent" "processing" (Some extracted_data)
             PNone None None)) in
    let! validation_result := st_lift (validate L extracted_data) in
    do! on_results (set_output "validation" (verdict_value validation_result)) in
    let! status := st_lift (verdict_status validation_result) in
    do! on_results (set_status "validation"
          (if String.eqb status "valid" then "success" else "failed")) in
    (* Step 4: Tool Decision *)
    let! status := st_lift (verdict_status validation_result) in
    do! on_results (set_step "tool_decision"
          (Step "Tool Decision Agent" "processing"
             (Some (PDict (<["validation_status" := PStr status]>
                             (<["extracted_data" := extracted_data]> ∅))))
             PNone None None)) in
    let decision_result := decide validation_result extracted_data in
    do! on_results (set_output "tool_decision" (decision_value decision_result)) in
    do! on_results (set_status "tool_decision" "success") in
    (* Step 5: Database Write (if decision is to write) *)
    do! (if should_write decision_result then
           do! on_results (set_step "database_write"
                 (Step "Database Tool" "processing"
                    (Some (data_to_write decision_result)) PNone None None)) in
           let! db_result :=
             on_db (write_invoice_to_db now fault
                      (data_to_write decision_result)) in
           do! on_results (set_output "database_write"
                             (db_result_value db_result)) in
           on_results (set_status "database_write"
                         (if success db_result then "success" else "error"))
         else
           on_results (set_step "database_write"
             (Step "Database Tool" "skipped" None PNone None
                (Some (reason decision_result))))) in
    let! status := st_lift (verdict_status validation_result) in
    on_results (set_overall_status
                  (if String.eqb status "valid" then "success" else "incomplete")).

(** [InvoiceProcessingOrchestrator.process_invoice]: the run and the
    database file it leaves. *)
Definition process_invoice (L : pylib) (Sv : services) (self : Orchestrator)
    (now : string) (fault : io_fault) (file_path : string) (file : db_file)
    : pipeline_results * db_file :=
  let pipeline_results := PipelineResults (system_prompt self) ∅ None None in
  match process_invoice_try L Sv self now fault file_path
          (pipeline_results, file) with
  | (Ok _, s) => s
  | (Raise e, (r, file')) =>
      (* except Exception as e: every class here derives from Exception *)
      (set_error (exn_msg e) (set_overall_status "error" r), file')
  end.

(** ** app.py: the two button handlers of [main] *)

(** [bool(v)] *)
Definition py_truthy (v : pyvalue) : bool :=
  match v with
  | PNone => false
  | PBool b => b
  | PInt z => negb (z =? 0)
  | PFloat f => negb (SFeqb f float_zero)
  | PStr s => truthy_str s
  | PList l => negb (length l =? 0)%nat
  | PDict d => negb (size d =? 0)%nat
  | PObject _ => true
  end.

(** What [final_results] holds after approval; [f_db] is [None] when the
    database tool was not called. *)
Record final_results : Type := FinalResults {
  f_validation : verdict;
  f_decision : decision;
  f_db : option db_result
}.

(** The keys of [st.session_state] that the handlers use. *)
Record session_state : Type := SessionState {
  ss_ingestion_result : option (gmap string pyvalue);
  ss_extraction_result : option pyvalue;
  ss_processing_complete : bool;
  ss_final_results : option final_results
}.

Definition ui_state : Type := session_state * db_file.

Definition on_session (f : session_state -> session_state) : st ui_state unit :=
  st_modify (fun s => (f (fst s), snd s)).

Definition on_ui_db {A} (m : st db_file A) : st ui_state A :=
  fun s => let (r, file) := m (snd s) in (r, (fst s, file)).

(** The handler of the "Analyze Invoice" button: ingestion and extraction,
    kept in the session for the review form. *)
Definition main_analyze (L : pylib) (Sv : services) (self : Orchestrator)
    (file_path : string) : st ui_state unit :=
  let! ingest_res := st_lift (document_process Sv file_path) in
  do! on_session (fun ss =>
        SessionState (Some ingest_res) (ss_extraction_result ss)
          (ss_processing_complete ss) (ss_final_results ss)) in
  if py_truthy (dict_get ingest_res "raw_text" PNone) then
    let! raw_text := st_lift (py_getitem (PDict ingest_res) "raw_text") in
    let! extract_res :=
      st_lift (extract L Sv (extraction_agent self) raw_text) in
    do! on_session (fun ss =>
          SessionState (ss_ingestion_result ss) (Some extract_res)
            (ss_processing_complete ss) (ss_final_results ss)) in
    on_session (fun ss =>
      SessionState (ss_ingestion_result ss) (ss_extraction_result ss)
        false (ss_final_results ss))
  else st_ret tt.

(** The dictionary built from the four text inputs of the review form. *)
Definition edited_data (L : pylib) (biller amount address date : string)
    : result pyvalue :=
  let* total :=
    if truthy_str amount && negb (String.eqb amount "None")
    then let* f := py_float L (PStr amount) in Ok (PFloat f)
    else Ok (PInt 0) in
  Ok (PDict (<["biller_name" := PStr biller]>
               (<["biller_address" := PStr address]>
                  (<["total_amount" := total]>
                     (<["due_date" := PStr date]> ∅))))).

(** The handler of the "Approve & Save" button: validation, decision and the
    database write on the reviewed fields. *)
Definition main_approve (L : pylib) (now : string) (fault : io_fault)
    (biller amount address date : string) : st ui_state unit :=
  let! data := st_lift (edited_data L biller amount address date) in
  let! val_res := st_lift (validate L data) in
  let dec_res := decide val_res data in
  let! db_res :=
    (if should_write dec_res
     then let! r := on_ui_db (write_invoice_to_db now fault
                                (data_to_write dec_res)) in
          st_ret (Some r)
     else st_ret None) in
  do! on_session (fun ss =>
        SessionState (ss_ingestion_result ss) (ss_extraction_result ss)
          (ss_processing_complete ss)
          (Some (FinalResults val_res dec_res db_res))) in
  on_session (fun ss =>
    SessionState (ss_ingestion_result ss) (ss_extraction_result ss)
      true (ss_final_results ss)).

(** ** agents/document_ingestion_agent.py

    The PDF readers (PyMuPDF, PyPDF2), the image library and the two OCR
    engines are outside the repository: what they return or raise on a file
    is given by a record [doclib]. The messages written with [print] are
    left out. *)

(** The line feed. *)
Definition nl : string := String "010"%char EmptyString.

(** [str(n)] for a page number. *)
Definition str_of_nat (n : nat) : string :=
  NilZero.string_of_uint (Nat.to_uint n).

(** The machine on which an agent is built: whether [shutil.which] finds
    tesseract, what [platform.system()] returns, whether [import easyocr]
    succeeded, and what [easyocr.Reader(['ar', 'en'], ...)] does. *)
Record host : Type := Host {
  tesseract_on_path : bool;
  platform_system : string;
  easyocr_installed : bool;
  reader_init : result unit
}.

(** [check_tesseract_installed] *)
Definition check_tesseract_installed (H : host) : bool * string :=
  if tesseract_on_path H then (true, "")
  else
    let system := platform_system H in
    let error_msg :=
      if String.eqb system "Windows" then
        "Tesseract OCR is not installed or not in your PATH." ++ nl ++ nl
        ++ "To install Tesseract on Windows:" ++ nl
        ++ "1. Download from: https://github.com/UB-Mannheim/tesseract/wiki" ++ nl
        ++ "2. Install the executable" ++ nl
        ++ "3. Add Tesseract to your PATH:" ++ nl
        ++ "   - Add 'C:\Program Files\Tesseract-OCR' to your system PATH" ++ nl
        ++ "   - Or set TESSDATA_PREFIX environment variable" ++ nl
        ++ "4. Restart your terminal/IDE" ++ nl ++ nl
        ++ "Alternative: Enable EasyOCR in the UI (works without Tesseract)"
      else if String.eqb system "Darwin" then
        "Tesseract OCR is not installed or not in your PATH." ++ nl ++ nl
        ++ "To install Tesseract on macOS:" ++ nl
        ++ "1. Install Homebrew if not already installed" ++ nl
        ++ "2. Run: brew install tesseract" ++ nl
        ++ "3. For Arabic support: brew install tesseract-lang" ++ nl ++ nl
        ++ "Alternative: Enable EasyOCR in the UI (works without Tesseract)"
      else
        "Tesseract OCR is not installed or not in your PATH." ++ nl ++ nl
        ++ "To install Tesseract on Linux:" ++ nl
        ++ "1. Run: sudo apt-get update" ++ nl
        ++ "2. Run: sudo apt-get install tesseract-ocr" ++ nl
        ++ "3. For Arabic support: sudo apt-get install tesseract-ocr-ara" ++ nl ++ nl
        ++ "Alternative: Enable EasyOCR in the UI (works without Tesseract)" in
    (false, error_msg).

(** The attributes of a [DocumentIngestionAgent] that [process] reads;
    [easyocr_reader] tells whether the attribute holds a reader ([None]
    otherwise). *)
Record DocumentIngestionAgent : Type := {
  use_easyocr : bool;
  easyocr_reader : bool;
  tesseract_available : bool;
  tesseract_error : string
}.

Definition set_use_easyocr (b : bool) (self : DocumentIngestionAgent)
    : DocumentIngestionAgent :=
  {| use_easyocr := b;
     easyocr_reader := easyocr_reader self;
     tesseract_available := tesseract_available self;
     tesseract_error := tesseract_error self |}.

Definition set_easyocr_reader (b : bool) (self : DocumentIngestionAgent)
    : DocumentIngestionAgent :=
  {| use_easyocr := use_easyocr self;
     easyocr_reader := b;
     tesseract_available := tesseract_available self;
     tesseract_error := tesseract_error self |}.

(** [DocumentIngestionAgent.__init__] *)
Definition DocumentIngestionAgent_init (H : host) (use_easyocr_arg : bool)
    : DocumentIngestionAgent :=
  let self :=
    {| use_easyocr := use_easyocr_arg;
       easyocr_reader := false;
       tesseract_available := fst (check_tesseract_installed H);
       tesseract_error := snd (check_tesseract_installed H) |} in
  (* If Tesseract not available and EasyOCR not enabled *)
  let self :=
    if negb (tesseract_available self) && negb use_easyocr_arg then
      if easyocr_installed H then
        match reader_init H with
        | Ok _ => set_use_easyocr true (set_easyocr_reader true self)
        | Raise _ => self
        end
      else self
    else self in
  (* Initialize EasyOCR if explicitly requested *)
  if use_easyocr_arg then
    if negb (easyocr_installed H) then set_use_easyocr false self
    else
      match reader_init H with
      | Ok _ => set_easyocr_reader true self
      | Raise _ => set_use_easyocr false self
      end
  else self.

(** An image object of the image library. *)
Inductive image : Type := Image (name : string).

(** What [pytesseract.image_to_string] does: it returns a text, it raises
    [TesseractNotFoundError] (with the text of that exception), or it raises
    another exception. *)
Inductive tess_outcome : Type :=
| TessText (text : string)
| TessNotFound (msg : string)
| TessError (e : exn).

(** A page of a document opened with PyMuPDF: what [page.get_text()] gives,
    and the image that rendering the page and loading the picture gives. *)
Record fitz_page : Type := FitzPage {
  get_text : result string;
  page_image : result image
}.

(** The libraries on the files at hand: [path_suffix] is
    [Path(file_path).suffix], [image_open] is [Image.open], [readtext_file]
    and [readtext_image] give the texts [result[1]] of
    [easyocr_reader.readtext] on a path and on the pixels of an image,
    [image_to_string image lang] is [pytesseract.image_to_string],
    [fitz_open] gives the pages of [fitz.open(file_path)], and
    [pypdf2_pages] gives [page.extract_text()] for the pages of
    [PyPDF2.PdfReader]. The two pictographs that open some messages are
    outside the range of the string model and are kept as they are in
    [cross_mark] and [light_bulb]. *)
Record doclib : Type := DocLib {
  path_suffix : string -> string;
  image_open : string -> result image;
  readtext_file : string -> result (list string);
  readtext_image : image -> result (list string);
  image_to_string : image -> string -> tess_outcome;
  fitz_open : string -> result (list fitz_page);
  pypdf2_pages : string -> result (list (result string));
  cross_mark : string;
  light_bulb : string
}.

(** The message on a missing Tesseract; [what] is [images] or [PDFs]. *)
Definition tesseract_missing_message (W : doclib)
    (self : DocumentIngestionAgent) (what : string) : string :=
  cross_mark W ++ " Tesseract OCR is not installed or not in PATH." ++ nl ++ nl
  ++ tesseract_error self ++ nl ++ nl
  ++ light_bulb W ++ " Tip: Enable 'Use EasyOCR' option in the UI to process "
  ++ what ++ " without Tesseract.".

Definition no_engine_message (W : doclib) (self : DocumentIngestionAgent)
    : string :=
  cross_mark W ++ " No OCR engine available." ++ nl ++ nl
  ++ tesseract_error self ++ nl ++ nl
  ++ light_bulb W ++ " Tip: Enable 'Use EasyOCR' option in the UI.".

(** The EasyOCR part of [_extract_from_image]: [Some text] when it returned
    [text], [None] when control went on to the Tesseract part. *)
Definition easyocr_image_block (W : doclib) (self : DocumentIngestionAgent)
    (file_path : string) : result (option string) :=
  if use_easyocr self && easyocr_reader self then
    try_except
      (let* text_parts := readtext_file W file_path in
       let extracted_text := join nl text_parts in
       if truthy_str (strip extracted_text) then Ok (Some extracted_text)
       else Ok (Some "[EasyOCR: No text detected in image]"))
      [([Exception], fun e =>
          if negb (tesseract_available self)
          then Ok (Some ("EasyOCR Error: " ++ exn_msg e ++ nl ++ nl
                           ++ tesseract_error self))
          else Ok None)]
  else Ok None.

(** The Tesseract part of [_extract_from_image]: [None] when the text was
    blank and control left the [try] statement. *)
Definition tesseract_image_block (W : doclib) (self : DocumentIngestionAgent)
    (img : image) : option string :=
  match image_to_string W img "ara+eng" with
  | TessText text => if truthy_str (strip text) then Some text else None
  | TessNotFound _ => Some (tesseract_missing_message W self "images")
  | TessError e =>
      if contains "ara" (lower (exn_msg e))
         || contains "language" (lower (exn_msg e))
      then
        match image_to_string W img "eng" with
        | TessText text =>
            Some (text ++ nl ++ nl
                    ++ "[Note: Arabic OCR language pack not available. Install Arabic language pack for better results with Arabic invoices.]")
        | TessNotFound msg2 =>
            Some ("Error: " ++ msg2 ++ nl ++ nl
                    ++ "Original error: " ++ exn_msg e)
        | TessError e2 =>
            Some ("Error: " ++ exn_msg e2 ++ nl ++ nl
                    ++ "Original error: " ++ exn_msg e)
        end
      else Some ("Tesseract Error: " ++ exn_msg e)
  end.

(** [DocumentIngestionAgent._extract_from_image] *)
Definition _extract_from_image (W : doclib) (self : DocumentIngestionAgent)
    (file_path : string) : result string :=
  try_except
    (let* img := image_open W file_path in
     let* returned := easyocr_image_block W self file_path in
     match returned with
     | Some text => Ok text
     | None =>
         if negb (tesseract_available self)
         then Ok (tesseract_missing_message W self "images")
         else
           match tesseract_image_block W self img with
           | Some text => Ok text
           | None => Ok "[No text extracted from image]"
           end
     end)
    [([Exception], fun e =>
        let error_msg := "Error extracting text from image: " ++ exn_msg e in
        Ok (if negb (tesseract_available self)
               && negb (use_easyocr self && easyocr_reader self)
            then error_msg ++ nl ++ nl ++ tesseract_error self
            else error_msg))].

(** How one turn of the loop of [_ocr_pdf] ends: a text is appended to
    [text_parts], the turn is left with [continue], or the function
    returns. *)
Inductive page_step : Type :=
| Append (text : string)
| Continue
| Return (text : string).

(** The body of the loop of [_ocr_pdf] for the page [page_num]. *)
Definition ocr_page (W : doclib) (self : DocumentIngestionAgent)
    (page_num : nat) (page : fitz_page) : result page_step :=
  try_except
    (let* img := page_image page in
     let* ended :=
       (if use_easyocr self && easyocr_reader self then
          try_except
            (let* results := readtext_image W img in
             let page_text := join nl results in
             Ok (Some (Append page_text)))
            [([Exception], fun _ =>
                if negb (tesseract_available self) then Ok (Some Continue)
                else Ok None)]
        else Ok None) in
     match ended with
     | Some s => Ok s
     | None =>
         if negb (tesseract_available self) then Ok Continue
         else
           match image_to_string W img "ara+eng" with
           | TessText text => Ok (Append text)
           | TessNotFound _ =>
               Ok (Return (tesseract_missing_message W self "PDFs"))
           | TessError e =>
               match image_to_string W img "eng" with
               | TessText text => Ok (Append text)
               | _ => Ok (Append ("[Page " ++ str_of_nat page_num
                                    ++ " OCR Error: " ++ exn_msg e ++ "]"))
               end
           end
     end)
    [([Exception], fun e =>
        Ok (Append ("[Page " ++ str_of_nat page_num ++ " Processing Error: "
                      ++ exn_msg e ++ "]")))].

(** The loop of [_ocr_pdf] from the page [page_num] on: the text that a
    turn returned, or [text_parts] at the end. *)
Fixpoint ocr_pages (W : doclib) (self : DocumentIngestionAgent)
    (page_num : nat) (pages : list fitz_page) (text_parts : list string)
    : result (string + list string) :=
  match pages with
  | [] => Ok (inr text_parts)
  | page :: rest =>
      let* ended := ocr_page W self page_num page in
      match ended with
      | Append text =>
          ocr_pages W self (S page_num) rest (text_parts ++ [text])%list
      | Continue => ocr_pages W self (S page_num) rest text_parts
      | Return text => Ok (inl text)
      end
  end.

(** [DocumentIngestionAgent._ocr_pdf] *)
Definition _ocr_pdf (W : doclib) (self : DocumentIngestionAgent)
    (file_path : string) : result string :=
  try_except
    (let* doc := fitz_open W file_path in
     let* looped := ocr_pages W self 0 doc [] in
     match looped with
     | inl text => Ok text
     | inr text_parts =>
         if negb (length text_parts =? 0)%nat
         then
           let result := join nl text_parts in
           Ok (if negb (tesseract_available self) && use_easyocr self
               then result ++ nl ++ nl
                      ++ "[Note: Using EasyOCR - Arabic language pack not available]"
               else result)
         else Ok (no_engine_message W self)
     end)
    [([Exception], fun e =>
        let error_msg := "Error performing OCR on PDF: " ++ exn_msg e in
        Ok (if negb (tesseract_available self)
               && negb (use_easyocr self && easyocr_reader self)
            then error_msg ++ nl ++ nl ++ tesseract_error self
            else error_msg))].

(** The loops of [_extract_from_pdf] over the texts of the pages: a text
    that is not blank is appended to [text_parts]. *)
Fixpoint nonblank_texts (texts : list (result string))
    (text_parts : list string) : result (list string) :=
  match texts with
  | [] => Ok text_parts
  | page_text :: rest =>
      let* text := page_text in
      nonblank_texts rest
        (if truthy_str (strip text) then (text_parts ++ [text])%list
         else text_parts)
  end.

(** [DocumentIngestionAgent._extract_from_pdf] *)
Definition _extract_from_pdf (W : doclib) (self : DocumentIngestionAgent)
    (file_path : string) : result string :=
  try_except
    (let* doc := fitz_open W file_path in
     let* text_parts := nonblank_texts (map get_text doc) [] in
     let extracted_text := join nl text_parts in
     if negb (truthy_str (strip extracted_text))
     then _ocr_pdf W self file_path
     else Ok extracted_text)
    [([Exception], fun _ =>
        (* Fallback 1: Try PyPDF2 *)
        let* returned :=
          try_except
            (let* pages := pypdf2_pages W file_path in
             let* text_parts := nonblank_texts pages [] in
             let extracted_text := join nl text_parts in
             if truthy_str (strip extracted_text)
             then Ok (Some extracted_text)
             else Ok None)
            [([Exception], fun _ => Ok None)] in
        match returned with
        | Some text => Ok text
        | None =>
            (* Fallback 2: Use OCR *)
            _ocr_pdf W self file_path
        end)].

(** [DocumentIngestionAgent.process]; [document_id] is the text of the
    identifier that [uuid.uuid4()] draws. *)
Definition process (W : doclib) (self : DocumentIngestionAgent)
    (document_id file_path : string) : result (gmap string pyvalue) :=
  let* extracted :=
    (if String.eqb (lower (path_suffix W file_path)) ".pdf"
     then let* raw_text := _extract_from_pdf W self file_path in
          Ok (raw_text, "pdf")
     else let* raw_text := _extract_from_image W self file_path in
          Ok (raw_text, "image")) in
  Ok (<["document_id" := PStr document_id]>
        (<["raw_text" := PStr (fst extracted)]>
           (<["source_type" := PStr (snd extracted)]> ∅))).

(** ** Notions used to state the properties *)

(** *** The database as a sequence of writes *)

(** The records a write finds: what [_load_invoices] returns when the file
    can be read, if that is a list. *)
Definition stored_records (file : db_file) : option (list pyvalue) :=
  match file with
  | FileMissing | FileInvalid => Some []
  | FileJson (PList l) => Some l
  | FileJson _ | FileUndecodable _ | FileTooDeep _ => None
  end.

(** A file holds text, so a value read from it has an encoding. *)
Definition store_wf (file : db_file) : bool :=
  match file with
  | FileJson v => json_serializable v
  | _ => true
  end.

(** One call of [write_invoice_to_db]: the clock, what the operating system
    refuses, and the argument. *)
Record write_request : Type := WriteRequest {
  w_now : string;
  w_fault : io_fault;
  w_data : pyvalue
}.

Definition is_write_fault (fault : io_fault) : bool :=
  match fault with
  | WriteFails _ => true
  | _ => false
  end.

(** The rewrite of the file cannot be cut short: no write is refused and
    every value of the argument has an encoding. *)
Definition rewrite_safe (q : write_request) : bool :=
  negb (is_write_fault (w_fault q)) && json_serializable (w_data q).

(** Calls made one after the other on the same file: for each, the file
    before, what the call gave, and the file after. *)
Fixpoint write_trace (reqs : list write_request) (file : db_file)
    : list (db_file * result db_result * db_file) :=
  match reqs with
  | [] => []
  | q :: rest =>
      let (r, file') :=
        write_invoice_to_db (w_now q) (w_fault q) (w_data q) file in
      (file, r, file') :: write_trace rest file'
  end.

(** The identifier a call reported, when it reported success. *)
Definition reported_id (r : result db_result) : option Z :=
  match r with
  | Ok (DbResult true _ (PInt z)) => Some z
  | _ => None
  end.

Fixpoint successful_ids (trace : list (db_file * result db_result * db_file))
    : list Z :=
  match trace with
  | [] => []
  | (_, r, _) :: rest =>
      match reported_id r with
      | Some z => z :: successful_ids rest
      | None => successful_ids rest
      end
  end.

(** The record that a write at time [now] stores for [fields] when [n]
    records exist. *)
Definition stored_record (now : string) (n : nat)
    (fields : gmap string pyvalue) : pyvalue :=
  PDict (<["status" := PStr "stored"]>
           (<["created_at" := PStr now]>
              (<["id" := PInt (Z.of_nat n + 1)]> fields))).

(** What one call of [write_invoice_to_db] can give, and the file it
    leaves: the record is stored; the call is refused with the file as it
    was; or the rewrite is cut short and the file is no longer JSON. *)
Inductive write_outcome (now : string) (fault : io_fault) (data : pyvalue)
    (file : db_file) : result db_result -> db_file -> Prop :=
| WriteStored l d :
    stored_records file = Some l ->
    data = PDict d ->
    write_outcome now fault data file
      (Ok (DbResult true "Invoice successfully written to database"
             (PInt (Z.of_nat (length l) + 1))))
      (FileJson (PList (l ++ [stored_record now (length l) d])))
| WriteRefused msg :
    write_outcome now fault data file
      (Ok (DbResult false ("Error writing to database: " ++ msg) PNone))
      file
| WriteCut msg :
    is_write_fault fault = true \/ json_serializable data = false
      \/ store_wf file = false ->
    write_outcome now fault data file
      (Ok (DbResult false ("Error writing to database: " ++ msg) PNone))
      FileInvalid.

(** The number of records a write finds. *)
Definition record_count (file : db_file) : Z :=
  match stored_records file with
  | Some l => Z.of_nat (length l)
  | None => 0
  end.

(** One entry of a trace is in order: a call that reports success found a
    list of [n] records, reported [n + 1] and left the list with one more
    record; a call that reports a failure has a null identifier and left the
    file as it was. *)
Definition step_in_order (t : db_file * result db_result * db_file) : Prop :=
  let '(before, r, after) := t in
  match r with
  | Ok (DbResult true _ id) =>
      exists l rec,
        stored_records before = Some l /\
        id = PInt (Z.of_nat (length l) + 1) /\
        after = FileJson (PList (l ++ [rec]))
  | Ok (DbResult false _ id) => id = PNone /\ after = before
  | Raise _ => False
  end.

(** *** The rules of the validator, as the specification words them *)

(** A field is missing: the key is absent or its value is null. *)
Definition is_missing (d : gmap string pyvalue) (key : string) : bool :=
  match d !! key with
  | Some v => is_none v
  | None => true
  end.

Definition is_nan (f : spec_float) : bool :=
  match f with
  | S754_nan => true
  | _ => false
  end.

(** Rule 1: [biller_name] is present and not null. *)
Definition biller_name_violation (d : gmap string pyvalue) : list string :=
  if is_missing d "biller_name"
  then ["Missing required field: biller_name"] else [].

(** Rule 2: [total_amount] is present, not null, coercible to a number and
    strictly positive. *)
Definition total_amount_violation (L : pylib) (d : gmap string pyvalue)
    : list string :=
  if is_missing d "total_amount"
  then ["Missing required field: total_amount"]
  else match py_float L (dict_get d "total_amount" PNone) with
       | Ok f => if SFltb float_zero f then []
                 else ["total_amount must be a positive number"]
       | Raise _ => ["total_amount must be a valid number"]
       end.

(** Rule 3: [due_date] is absent, null, or parses as a date. *)
Definition due_date_violation (L : pylib) (d : gmap string pyvalue)
    : list string :=
  if is_missing d "due_date" then []
  else match dateutil_parse L (dict_get d "due_date" PNone) with
       | Ok _ => []
       | Raise _ => ["due_date must be a valid date format"]
       end.

(** One message for each rule that is violated, in the order of the rules. *)
Definition violations (L : pylib) (d : gmap string pyvalue) : list string :=
  (biller_name_violation d ++ total_amount_violation L d
     ++ due_date_violation L d)%list.

(** The verdict for a list of violations. *)
Definition verdict_of (errors : list string) : verdict :=
  match errors with
  | [] => Verdict (Some "valid") (Some [])
  | _ => Verdict (Some "incomplete") (Some errors)
  end.

(** The amount is an ordinary one: it is missing, or [float] returns a
    number that is not NaN, or [float] raises [ValueError] or [TypeError]. *)
Definition ordinary_amount (L : pylib) (d : gmap string pyvalue) : bool :=
  is_missing d "total_amount" ||
  match py_float L (dict_get d "total_amount" PNone) with
  | Ok f => negb (is_nan f)
  | Raise e => isinstance e [ValueError; TypeError]
  end.

(** The date is an ordinary one: it is missing, or the date parser returns,
    or it raises [ValueError] or [TypeError]. *)
Definition ordinary_date (L : pylib) (d : gmap string pyvalue) : bool :=
  is_missing d "due_date" ||
  match dateutil_parse L (dict_get d "due_date" PNone) with
  | Ok _ => true
  | Raise e => isinstance e [ValueError; TypeError]
  end.

(** *** The field extractor, as the specification words it *)




(** What [_parse_json_from_text] hands to [json.loads]: the text from its
    first opening brace to its last closing brace. *)
Definition brace_slice (t : string) : string :=
  slice (find_char "{" t) (rfind_char "}" t + 1) t.

(** The text of the first choice of an answer, when there is one. *)
Definition first_text (response : result (list (option string)))
    : option string :=
  match response with
  | Ok (Some t :: _) => Some t
  | _ => None
  end.

(** The prompt sent for a raw text. *)
Definition prompt_for (self : ExtractionAgent) (raw_text : string) : string :=
  replace "{raw_text}" raw_text (prompt_template self).

(** *** The steps of a complete run *)

Definition verdict_is_valid (v : verdict) : bool :=
  match v_status v with
  | Some s => String.eqb s "valid"
  | None => false
  end.

Definition ingestion_step (file_path : string) (ing : gmap string pyvalue)
    : step :=
  Step "Document Ingestion Agent" "success"
    (Some (PDict {[ "file_path" := PStr file_path ]})) (PDict ing) None None.

Definition extraction_step (text : string) (extracted : pyvalue) : step :=
  Step "Information Extraction Agent" "success"
    (Some (PDict {[ "raw_text_length" := PInt (len_str text) ]}))
    extracted None None.

Definition validation_step (extracted : pyvalue) (v : verdict) : step :=
  Step "Validation Agent"
    (if verdict_is_valid v then "success" else "failed")
    (Some extracted) (verdict_value v) None None.

Definition decision_step (status : string) (extracted : pyvalue)
    (v : verdict) : step :=
  Step "Tool Decision Agent" "success"
    (Some (PDict (<["validation_status" := PStr status]>
                    (<["extracted_data" := extracted]> ∅))))
    (decision_value (decide v extracted)) None None.

Definition written_step (data : pyvalue) (r : db_result) : step :=
  Step "Database Tool" (if success r then "success" else "error")
    (Some data) (db_result_value r) None None.

Definition skipped_step (why : string) : step :=
  Step "Database Tool" "skipped" None PNone None (Some why).

(** The steps of a run that went through the five stages, the last one
    being [db_step]. *)
Definition full_run_steps (file_path : string) (ing : gmap string pyvalue)
    (text status : string) (extracted : pyvalue) (v : verdict)
    (db_step : step) : gmap string step :=
  <["database_write" := db_step]>
    (<["tool_decision" := decision_step status extracted v]>
       (<["validation" := validation_step extracted v]>
          (<["extraction" := extraction_step text extracted]>
             (<["document_ingestion" := ingestion_step file_path ing]> ∅)))).

Definition stage_names : gset string :=
  {[ "document_ingestion"; "extraction"; "validation"; "tool_decision";
     "database_write" ]}.

(** *** Sample data for the examples *)

(** The fields of the invoice "Acme Co. Total: 150.00 Due: 2025-03-01". *)
Definition acme_fields : gmap string pyvalue :=
  <["biller_name" := PStr "Acme Co."]>
    (<["biller_address" := PNone]>
       (<["total_amount" := PFloat (float_of_Z 150)]>
          (<["due_date" := PStr "2025-03-01"]> ∅))).

(** The double-quote character (code 34) as a string. *)
Definition dquote : string := String "034"%char EmptyString.

(** The JSON text
    [{"biller_name": "Acme Co.", "biller_address": null,
      "total_amount": 150.0, "due_date": "2025-03-01"}]. *)
Definition acme_json : string :=
  "{" ++ dquote ++ "biller_name" ++ dquote ++ ": "
      ++ dquote ++ "Acme Co." ++ dquote ++ ", "
      ++ dquote ++ "biller_address" ++ dquote ++ ": null, "
      ++ dquote ++ "total_amount" ++ dquote ++ ": 150.0, "
      ++ dquote ++ "due_date" ++ dquote ++ ": "
      ++ dquote ++ "2025-03-01" ++ dquote ++ "}".

(** The JSON text
    [{"biller_name": null, "total_amount": -5, "due_date": "not-a-date"}]. *)
Definition rejected_json : string :=
  "{" ++ dquote ++ "biller_name" ++ dquote ++ ": null, "
      ++ dquote ++ "total_amount" ++ dquote ++ ": -5, "
      ++ dquote ++ "due_date" ++ dquote ++ ": "
      ++ dquote ++ "not-a-date" ++ dquote ++ "}".

(** No biller, a negative total and a due date that is no date. *)
Definition rejected_fields : gmap string pyvalue :=
  <["biller_name" := PNone]>
    (<["total_amount" := PInt (-5)]>
       (<["due_date" := PStr "not-a-date"]> ∅)).

(** The library functions on the texts that the examples use: there they
    agree with [float], [dateutil.parser.parse] and [json.loads]; any other
    text is refused. *)
Definition sample_lib : pylib :=
  PyLib
    (fun s =>
       if String.eqb s "150.00" then Some (float_of_Z 150)
       else if String.eqb s "-5" then Some (float_of_Z (-5))
       else None)
    (fun v =>
       match v with
       | PStr s =>
           if String.eqb s "2025-03-01" then Ok tt
           else raise ValueError ("Unknown string format: " ++ s)
       | _ => raise TypeError "Parser must be a string or character stream"
       end)
    (fun s =>
       if String.eqb s "{}" then Ok (PDict ∅)
       else if String.eqb s acme_json then Ok (PDict acme_fields)
       else if String.eqb s rejected_json then Ok (PDict rejected_fields)
       else raise JSONDecodeError "Expecting value")
    (Ok tt).

(** A biller and a total that is the float NaN (what [json.loads] builds
    from the literal NaN, and [float] from the text nan). *)
Definition nan_amount_fields : gmap string pyvalue :=
  <["biller_name" := PStr "Acme Co."]>
    (<["total_amount" := PFloat S754_nan]> ∅).

(** A biller and a total that is the integer 2^1024 (a JSON integer of 309
    digits). *)
Definition huge_amount_fields : gmap string pyvalue :=
  <["biller_name" := PStr "Acme Co."]>
    (<["total_amount" := PInt (2 ^ 1024)]> ∅).

(** A biller and the total [True]. *)
Definition true_amount_fields : gmap string pyvalue :=
  <["biller_name" := PStr "Acme Co."]>
    (<["total_amount" := PBool true]> ∅).

(** The Acme invoice with a list as total. *)
Definition list_amount_fields : gmap string pyvalue :=
  <["total_amount" := PList []]> acme_fields.

Definition sample_agent : ExtractionAgent :=
  {| model := "openai/gpt-4o"; prompt_template := "Invoice text: {raw_text}" |}.

Definition sample_orchestrator : Orchestrator :=
  {| extraction_agent := sample_agent;
     system_prompt := "You are an Agentic AI system for invoice processing." |}.

Definition acme_text : string := "Acme Co. Total: 150.00 Due: 2025-03-01".

(** What the document agent returns for the Acme invoice. *)
Definition acme_ingestion : gmap string pyvalue :=
  <["document_id" := PStr "doc-1"]>
    (<["raw_text" := PStr acme_text]>
       (<["source_type" := PStr "image"]> ∅)).

(** A scan on which the OCR engine finds only white space. *)
Definition blank_ingestion : gmap string pyvalue :=
  <["document_id" := PStr "doc-2"]>
    (<["raw_text" := PStr "   "]>
       (<["source_type" := PStr "image"]> ∅)).

(** Services whose model answers every request with [answer]. *)
Definition answering (ingestion : gmap string pyvalue) (answer : string)
    : services :=
  Services (fun _ => Ok ingestion) (fun _ _ _ => Ok [Some answer]).

(** Services whose main model is out of credits while the fallback model
    answers with the Acme fields. *)
Definition out_of_credits : services :=
  Services (fun _ => Ok acme_ingestion)
    (fun model _ _ =>
       if String.eqb model "openai/gpt-4o-mini" then Ok [Some acme_json]
       else raise OtherError "Error code: 402 - Insufficient credits").

(** A verdict with two messages. *)
Definition two_errors : verdict :=
  Verdict (Some "incomplete")
    (Some ["Missing required field: biller_name";
           "total_amount must be a positive number"]).

(** The same invoice with the due date as a [datetime.date] object. *)
Definition acme_fields_date_object : gmap string pyvalue :=
  <["due_date" := PObject "date"]> acme_fields.

Definition sample_now : string := "2025-02-01T09:30:00".

(** Four calls in a row; the third one carries the date object. *)
Definition writes_with_date_object : list write_request :=
  [ WriteRequest sample_now NoFault (PDict acme_fields);
    WriteRequest sample_now NoFault (PDict acme_fields);
    WriteRequest sample_now NoFault (PDict acme_fields_date_object);
    WriteRequest sample_now NoFault (PDict acme_fields) ].

(** Three calls in a row; the second one cannot open the file for writing. *)
Definition writes_with_refused_open : list write_request :=
  [ WriteRequest sample_now NoFault (PDict acme_fields);
    WriteRequest sample_now (OpenForWriteFails "[Errno 13] Permission denied")
      (PDict acme_fields);
    WriteRequest sample_now NoFault (PDict acme_fields) ].

(** A database file of bytes that are not UTF-8 text. *)
Definition undecodable_file : db_file :=
  FileUndecodable
    "'utf-8' codec can't decode byte 0xff in position 0: invalid start byte".

(** A database file with one stored record. *)
Definition one_record_file : db_file :=
  FileJson (PList [stored_record sample_now 0 acme_fields]).

(** The run of [process_invoice] on the Acme invoice, with a model that
    answers with the Acme fields and an empty database. *)
Definition acme_run : pipeline_results * db_file :=
  process_invoice sample_lib (answering acme_ingestion acme_json)
    sample_orchestrator sample_now NoFault "invoice.png" (FileJson (PList [])).

(** The run on an invoice for which the model answers with the rejected
    fields, with one record in the database. *)
Definition rejected_run : pipeline_results * db_file :=
  process_invoice sample_lib (answering acme_ingestion rejected_json)
    sample_orchestrator sample_now NoFault "invoice.png" one_record_file.

(** The same run when the disk is full. *)
Definition acme_run_disk_full : pipeline_results * db_file :=
  process_invoice sample_lib (answering acme_ingestion acme_json)
    sample_orchestrator sample_now
    (WriteFails "[Errno 28] No space left on device") "invoice.png"
    (FileJson (PList [])).

(** *** Further notions on the database *)

(** The file after calls made one after the other. *)
Fixpoint write_all (reqs : list write_request) (file : db_file) : db_file :=
  match reqs with
  | [] => file
  | q :: rest =>
      write_all rest
        (snd (write_invoice_to_db (w_now q) (w_fault q) (w_data q) file))
  end.

(** The record at each position of a list carries that position, counted
    from 1, as its [id]. *)
Definition ids_are_positions (l : list pyvalue) : Prop :=
  forall (i : nat) (rec : pyvalue),
    l !! i = Some rec -> py_getitem rec "id" = Ok (PInt (Z.of_nat i + 1)).

Definition is_list (v : pyvalue) : bool :=
  match v with
  | PList _ => true
  | _ => false
  end.

Definition is_dict (v : pyvalue) : bool :=
  match v with
  | PDict _ => true
  | _ => false
  end.

(** The keys that [write_invoice_to_db] sets itself. *)
Definition reserved_keys : list string := ["id"; "created_at"; "status"].

(** *** Further notions on the validator *)

(** The keys that [validate] reads. *)
Definition validated_keys : list string :=
  ["biller_name"; "total_amount"; "due_date"].

(** A value in which [in] and indexing by a string make sense at all. *)
Definition is_container (v : pyvalue) : bool :=
  match v with
  | PDict _ | PList _ | PStr _ => true
  | _ => false
  end.

(** No element of the list is one of the names that [validate] looks for. *)
Definition names_no_field (l : list pyvalue) : bool :=
  forallb (fun x => match x with
                    | PStr s => negb (existsb (String.eqb s) validated_keys)
                    | _ => true
                    end) l.

(** *** Further notions on the orchestrator *)

(** The step of a stage that was started and did not return. *)
Definition started_step (agent : string) (input : pyvalue) : step :=
  Step agent "processing" (Some input) PNone None None.

(** The steps of a run whose document agent raised. *)
Definition steps_ingestion_raised (file_path : string) : gmap string step :=
  {[ "document_ingestion" :=
       started_step "Document Ingestion Agent"
         (PDict {[ "file_path" := PStr file_path ]}) ]}.

(** The steps of a run whose ingested [raw_text] is not a string. *)
Definition steps_text_unusable (file_path : string)
    (ing : gmap string pyvalue) : gmap string step :=
  {[ "document_ingestion" := ingestion_step file_path ing ]}.

(** The steps of a run whose ingested text is blank. *)
Definition steps_text_blank (file_path : string)
    (ing : gmap string pyvalue) : gmap string step :=
  {[ "document_ingestion" :=
       Step "Document Ingestion Agent" "error"
         (Some (PDict {[ "file_path" := PStr file_path ]}))
         (PDict ing) (Some "No text extracted from document") None ]}.

(** The steps of a run whose validator raised. *)
Definition steps_validation_raised (file_path : string)
    (ing : gmap string pyvalue) (text : string) (extracted : pyvalue)
    : gmap string step :=
  <["validation" := started_step "Validation Agent" extracted]>
    (<["extraction" := extraction_step text extracted]>
       (<["document_ingestion" := ingestion_step file_path ing]> ∅)).

(** The status of each step of a run. *)
Definition step_statuses (r : pipeline_results) : gmap string string :=
  s_status <$> pr_steps r.

(** The sample library on an output stream that cannot encode the warning
    sign of the notice. *)
Definition cp1252_lib : pylib :=
  PyLib (float_of_str sample_lib) (dateutil_parse sample_lib)
    (json_loads sample_lib)
    (raise UnicodeEncodeError
       "'charmap' codec can't encode characters in position 0-1: character maps to <undefined>").

(** The sample library with the JSON text null added. *)
Definition null_answer_lib : pylib :=
  PyLib (float_of_str sample_lib) (dateutil_parse sample_lib)
    (fun s => if String.eqb s "null" then Ok PNone
              else json_loads sample_lib s)
    (print_notice sample_lib).

(** *** Further notions on the review form *)

(** The dictionary that the second handler builds once the total is
    known. *)
Definition form_fields (biller address : string) (total : pyvalue)
    (date : string) : gmap string pyvalue :=
  <["biller_name" := PStr biller]>
    (<["biller_address" := PStr address]>
       (<["total_amount" := total]>
          (<["due_date" := PStr date]> ∅))).

(** The message of rule 3 for the text of the date field. *)
Definition form_date_violation (L : pylib) (date : string) : list string :=
  match dateutil_parse L (PStr date) with
  | Ok _ => []
  | Raise _ => ["due_date must be a valid date format"]
  end.

(** *** Further notions on the document agent *)

(** Every character of the string is white space. *)
Fixpoint all_space (s : string) : bool :=
  match s with
  | EmptyString => true
  | String c s' => py_isspace c && all_space s'
  end.

(** The texts of a list that are not blank. *)
Definition nonblank (texts : list string) : list string :=
  filter (fun text => truthy_str (strip text) = true) texts.

(** The dictionary that [process] returns. *)
Definition ingestion_of (document_id raw_text source_type : string)
    : gmap string pyvalue :=
  <["document_id" := PStr document_id]>
    (<["raw_text" := PStr raw_text]>
       (<["source_type" := PStr source_type]> ∅)).

(** Tesseract reads the page as [text]: the page is rendered and the first
    call of the engine returns. *)
Definition page_read_as (W : doclib) (page : fitz_page) (text : string)
    : Prop :=
  exists img,
    page_image page = Ok img /\
    image_to_string W img "ara+eng" = TessText text.

(** The document has no text layer: [get_text] returns a blank text on
    every page. *)
Definition no_text_layer (doc : list fitz_page) : Prop :=
  Forall (fun page => exists text,
            get_text page = Ok text /\ truthy_str (strip text) = false) doc.

(** Every page of the document can be rendered. *)
Definition pages_render (doc : list fitz_page) : Prop :=
  Forall (fun page => exists img, page_image page = Ok img) doc.

(** The services of a run: the document agent [agent] on the libraries [W],
    and a chat client. *)
Definition services_of (W : doclib) (agent : DocumentIngestionAgent)
    (document_id : string)
    (chat : string -> string -> string -> result (list (option string)))
    : services :=
  Services (process W agent document_id) chat.

(** A machine without Tesseract and without EasyOCR, and one with
    Tesseract. *)
Definition bare_host : host := Host false "Linux" false (Ok tt).
Definition tesseract_host : host := Host true "Linux" false (Ok tt).

(** Libraries for the examples: every path but [invoice.pdf] and
    [scan.pdf] is an image that Tesseract reads as the Acme text;
    [invoice.pdf] has a text layer on its first page and a blank second
    page; [scan.pdf] has two pages without a text layer, which Tesseract
    reads as the Acme text and as an empty text. The pictographs are given
    by their UTF-8 bytes. *)
Definition sample_doclib : doclib :=
  DocLib
    (fun p => if String.eqb p "invoice.pdf" || String.eqb p "scan.pdf"
              then ".pdf" else ".png")
    (fun p => Ok (Image p))
    (fun _ => Ok [])
    (fun _ => Ok [])
    (fun img _ =>
       match img with
       | Image name =>
           if String.eqb name "scan.pdf#1" then TessText ""
           else TessText acme_text
       end)
    (fun p =>
       if String.eqb p "invoice.pdf"
       then Ok [FitzPage (Ok acme_text) (Ok (Image "invoice.pdf#0"));
                FitzPage (Ok "  ") (Ok (Image "invoice.pdf#1"))]
       else if String.eqb p "scan.pdf"
       then Ok [FitzPage (Ok "") (Ok (Image "scan.pdf#0"));
                FitzPage (Ok "") (Ok (Image "scan.pdf#1"))]
       else raise OtherError "Failed to open file")
    (fun _ => raise OtherError "EOF marker not found")
    (String "226" (String "157" (String "140" EmptyString)))
    (String "240" (String "159" (String "146" (String "161" EmptyString)))).

(** * Properties *)

(** ** Values with an encoding *)

Lemma json_serializable_dict (d : gmap string pyvalue) :
  json_serializable (PDict d) = true <->
  map_Forall (fun _ v => json_serializable v = true) d.
Proof.
  change (json_serializable (PDict d))
    with (map_fold (fun (_ : string) x acc => json_serializable x && acc) true d).
  apply (map_fold_weak_ind
           (fun b m => b = true <->
                       map_Forall (fun _ v => json_serializable v = true) m)).
  - split; [intros _; apply map_Forall_empty | reflexivity].
  - intros i x m r Hi IH. rewrite andb_true_iff, IH.
    rewrite map_Forall_insert by exact Hi. tauto.
Qed.

Lemma json_serializable_insert (d : gmap string pyvalue) k v :
  json_serializable v = true ->
  json_serializable (PDict d) = true ->
  json_serializable (PDict (<[k := v]> d)) = true.
Proof.
  rewrite !json_serializable_dict. intros Hv Hd.
  apply map_Forall_insert_2; assumption.
Qed.

Lemma json_serializable_stored_record now n d :
  json_serializable (PDict d) = true ->
  json_serializable (stored_record now n d) = true.
Proof.
  intros Hd. unfold stored_record.
  repeat apply json_serializable_insert; auto.
Qed.

Lemma json_serializable_snoc l v :
  json_serializable (PList (l ++ [v])) =
  json_serializable (PList l) && json_serializable v.
Proof.
  cbn [json_serializable]. rewrite forallb_app. cbn [forallb].
  rewrite andb_true_r. reflexivity.
Qed.

(** ** The database tool *)

Lemma stored_record_not_serializable now n d :
  json_serializable (stored_record now n d) = false ->
  json_serializable (PDict d) = false.
Proof.
  intros H. destruct (json_serializable (PDict d)) eqn:E; [|reflexivity].
  rewrite (json_serializable_stored_record now n d E) in H. discriminate.
Qed.

Lemma isinstance_Exception e : isinstance e [Exception] = true.
Proof. destruct e as [[] msg]; reflexivity. Qed.

Lemma _load_invoices_eq fault file :
  _load_invoices fault file =
  (match fault with
   | ReadFails msg => raise OSError msg
   | _ => match file with
          | FileJson v => Ok v
          | FileUndecodable msg => raise UnicodeDecodeError msg
          | FileTooDeep msg => raise RecursionError msg
          | FileMissing | FileInvalid => Ok (PList [])
          end
   end, file).
Proof. destruct fault, file; reflexivity. Qed.

Lemma stored_record_id now (n : Z) (fields : gmap string pyvalue) :
  py_getitem
    (PDict (<["status" := PStr "stored"]>
              (<["created_at" := PStr now]> (<["id" := PInt n]> fields))))
    "id" = Ok (PInt n).
Proof.
  unfold py_getitem.
  rewrite lookup_insert_ne by discriminate.
  rewrite lookup_insert_ne by discriminate.
  rewrite lookup_insert_eq. reflexivity.
Qed.

Ltac run_block :=
  cbn [bind st_bind st_lift st_ret st_catch_all fst snd py_len py_append
       py_unpack isinstance existsb subclass same_class exn_cls exn_msg raise
       orb _save_invoices type_name_of].

(** Every call of [write_invoice_to_db] is one of the three outcomes. *)
Lemma write_invoice_to_db_outcome now fault data file :
  write_outcome now fault data file
    (fst (write_invoice_to_db now fault data file))
    (snd (write_invoice_to_db now fault data file)).
Proof.
  unfold write_invoice_to_db, st_catch_all, st_bind, st_lift, st_ret.
  rewrite _load_invoices_eq.
  destruct fault, file as [| | | |v]; try destruct v; destruct data; run_block.
  all: try (apply WriteRefused).
  all: rewrite ?stored_record_id; run_block.
  all: try (apply WriteRefused).
  all: try (apply WriteCut; left; reflexivity).
  all: match goal with
       | |- context [json_serializable (PList (?l ++ [?r]))] =>
           destruct (json_serializable (PList (l ++ [r]))) eqn:E; run_block;
           [ apply (WriteStored _ _ _ _ l d); reflexivity
           | apply WriteCut; right;
             rewrite json_serializable_snoc in E;
             apply andb_false_iff in E as [E|E];
             [ right; exact E
             | left; exact (stored_record_not_serializable _ _ _ E) ] ]
       end.
Qed.

Lemma stored_records_wf file l :
  store_wf file = true -> stored_records file = Some l ->
  json_serializable (PList l) = true.
Proof.
  destruct file as [| | | |[]]; cbn [stored_records store_wf]; intros Hwf Hl;
    inversion Hl; subst; auto.
Qed.

Lemma stored_records_count file l :
  stored_records file = Some l -> record_count file = Z.of_nat (length l).
Proof. unfold record_count. intros ->. reflexivity. Qed.

(** A write whose rewrite cannot be cut short, on a file that holds encoded
    values: it stores the record or leaves the file as it was. *)
Lemma safe_write_step q file r file' :
  store_wf file = true -> rewrite_safe q = true ->
  write_invoice_to_db (w_now q) (w_fault q) (w_data q) file = (r, file') ->
  step_in_order (file, r, file') /\ store_wf file' = true /\
  match reported_id r with
  | Some z => z = record_count file + 1 /\ record_count file' = z
  | None => file' = file
  end.
Proof.
  intros Hwf Hsafe Hw.
  pose proof (write_invoice_to_db_outcome (w_now q) (w_fault q) (w_data q) file)
    as Hout.
  rewrite Hw in Hout. cbn [fst snd] in Hout.
  apply andb_true_iff in Hsafe as [Hfault Hdata].
  apply negb_true_iff in Hfault.
  inversion Hout as [l d Hl Hd Hr Hf | msg Hr Hf | msg Hcut Hr Hf]; subst.
  - assert (Hser : json_serializable
                     (PList (l ++ [stored_record (w_now q) (length l) d])) = true).
    { rewrite json_serializable_snoc, (stored_records_wf file l Hwf Hl).
      rewrite Hd in Hdata.
      rewrite (json_serializable_stored_record _ _ _ Hdata). reflexivity. }
    split; [|split].
    + cbn. eauto.
    + exact Hser.
    + cbn [reported_id]. rewrite (stored_records_count file l Hl).
      split; [reflexivity|].
      unfold record_count. cbn [stored_records].
      rewrite length_app. cbn [length]. lia.
  - split; [|split]; cbn; auto.
  - destruct Hcut as [H|[H|H]]; congruence.
Qed.

Lemma safe_trace_in_order reqs : forall file,
  store_wf file = true ->
  Forall (fun q => rewrite_safe q = true) reqs ->
  Forall step_in_order (write_trace reqs file) /\
  Forall (fun z => record_count file < z) (successful_ids (write_trace reqs file)) /\
  StronglySorted Z.lt (successful_ids (write_trace reqs file)).
Proof.
  induction reqs as [|q rest IH]; intros file Hwf Hsafe.
  - cbn. repeat split; constructor.
  - inversion Hsafe as [|? ? Hq Hrest]; subst.
    cbn [write_trace].
    destruct (write_invoice_to_db (w_now q) (w_fault q) (w_data q) file)
      as [r file'] eqn:Hw.
    destruct (safe_write_step q file r file' Hwf Hq Hw) as (Hstep & Hwf' & Hid).
    destruct (IH file' Hwf' Hrest) as (IH1 & IH2 & IH3).
    cbn [successful_ids].
    split; [constructor; assumption|].
    destruct (reported_id r) as [z|].
    + destruct Hid as [Hz Hcount]. split.
      * constructor; [lia|].
        eapply Forall_impl; [exact IH2|]. cbn. intros a Ha. lia.
      * constructor; [exact IH3|].
        eapply Forall_impl; [exact IH2|]. cbn. intros a Ha. lia.
    + subst file'. split; assumption.
Qed.

(** C6, as stated, fails: after two stored records a call whose argument
    holds a date object is cut short while the file is rewritten; the file
    is no longer JSON, the next call finds no record and reports the
    identifier 1 again. *)
Lemma ids_restart_after_cut_rewrite :
  successful_ids (write_trace writes_with_date_object (FileJson (PList [])))
    = [1; 2; 1] /\
  ~ StronglySorted Z.lt
      (successful_ids (write_trace writes_with_date_object (FileJson (PList [])))) /\
  (exists before r,
     nth_error (write_trace writes_with_date_object (FileJson (PList []))) 2
       = Some (before, Ok r, FileInvalid) /\
     success r = false /\ record_count before = 2).
Proof.
  assert (Hids : successful_ids
                   (write_trace writes_with_date_object (FileJson (PList [])))
                 = [1; 2; 1]) by (vm_compute; reflexivity).
  split; [exact Hids|]. split.
  - rewrite Hids. intros Hs.
    inversion Hs as [|? ? Htail Hhead]; subst.
    inversion Htail as [|? ? _ Hhead']; subst.
    inversion Hhead' as [|? ? Hlt _]; subst. lia.
  - vm_compute. eexists _, _. split; [reflexivity|]. split; reflexivity.
Qed.

(** C6, amended. For calls made one after the other on one file that holds
    encoded values, none of which can be cut short during the rewrite (no
    refused write, every value of the argument has a JSON encoding): a call
    that reports success found a list of n records, reported n + 1 and left
    the list with one more record; a call that reports a failure reports a
    null identifier and left the file as it was; the identifiers of the
    successful calls are strictly increasing. *)
Theorem sequential_ids_strictly_increase reqs file :
  store_wf file = true ->
  Forall (fun q => rewrite_safe q = true) reqs ->
  Forall step_in_order (write_trace reqs file) /\
  StronglySorted Z.lt (successful_ids (write_trace reqs file)).
Proof.
  intros Hwf Hsafe.
  destruct (safe_trace_in_order reqs file Hwf Hsafe) as (H1 & _ & H3).
  split; assumption.
Qed.

(** An instance: three calls on a file that is not JSON, the second one
    refused when it opens the file for writing. *)
Lemma sequential_ids_strictly_increase_witness :
  store_wf FileInvalid = true /\
  Forall (fun q => rewrite_safe q = true) writes_with_refused_open /\
  Forall step_in_order (write_trace writes_with_refused_open FileInvalid) /\
  StronglySorted Z.lt
    (successful_ids (write_trace writes_with_refused_open FileInvalid)).
Proof.
  assert (Hsafe : Forall (fun q => rewrite_safe q = true)
                    writes_with_refused_open)
    by (repeat (constructor; [vm_compute; reflexivity|]); constructor).
  split; [reflexivity|]. split; [exact Hsafe|].
  exact (sequential_ids_strictly_increase writes_with_refused_open FileInvalid
           eq_refl Hsafe).
Defined.



(** C9, as stated, fails: a file of bytes that are not text in the encoding
    of the file exists and holds invalid JSON, yet [json.load] raises
    [UnicodeDecodeError] on it, which [_load_invoices] does not catch. The
    call for the Acme invoice, which could otherwise succeed, reports a
    failure with a null identifier, and the file is left as it was: the
    store is not reset and no identifier 1 is given. *)
Lemma undecodable_file_is_never_reset :
  json_serializable (PDict acme_fields) = true /\
  read_json NoFault undecodable_file
    = Raise (Exn UnicodeDecodeError
               "'utf-8' codec can't decode byte 0xff in position 0: invalid start byte") /\
  isinstance
    (Exn UnicodeDecodeError
       "'utf-8' codec can't decode byte 0xff in position 0: invalid start byte")
    [JSONDecodeError] = false /\
  write_invoice_to_db sample_now NoFault (PDict acme_fields) undecodable_file
  = (Ok (DbResult false
           "Error writing to database: 'utf-8' codec can't decode byte 0xff in position 0: invalid start byte"
           PNone),
     undecodable_file).
Proof. repeat split; vm_compute; reflexivity. Qed.

(** C9, amended. When the file holds text that [json.load] refuses with
    [JSONDecodeError], a call with a dictionary of encodable values, with
    nothing refused by the operating system, reports success with the
    identifier 1 and leaves a list holding the new record only. When
    [json.load] raises another exception on the file ([UnicodeDecodeError]
    on bytes that are not text, [RecursionError] on a nesting that is too
    deep), the same call reports a failure with the message of that
    exception and a null identifier, and the file stays as it was. *)
Theorem write_after_invalid_json_restarts_at_one now (d : gmap string pyvalue) :
  json_serializable (PDict d) = true ->
  write_invoice_to_db now NoFault (PDict d) FileInvalid
  = (Ok (DbResult true "Invoice successfully written to database" (PInt 1)),
     FileJson (PList [stored_record now 0 d])) /\
  (forall msg,
     write_invoice_to_db now NoFault (PDict d) (FileUndecodable msg)
     = (Ok (DbResult false ("Error writing to database: " ++ msg) PNone),
        FileUndecodable msg)) /\
  (forall msg,
     write_invoice_to_db now NoFault (PDict d) (FileTooDeep msg)
     = (Ok (DbResult false ("Error writing to database: " ++ msg) PNone),
        FileTooDeep msg)).
Proof.
  intros Hd.
  pose proof (json_serializable_stored_record now 0 d Hd) as Hrec.
  split; [|split; intros msg; reflexivity].
  unfold write_invoice_to_db, st_catch_all, st_bind, st_lift, st_ret.
  rewrite _load_invoices_eq. run_block. rewrite stored_record_id. run_block.
  change (PList ([] ++ [PDict (<["status" := PStr "stored"]>
            (<["created_at" := PStr now]>
               (<["id" := PInt (Z.of_nat (length (@nil pyvalue)) + 1)]> d)))]))
    with (PList [stored_record now 0 d]).
  replace (json_serializable (PList [stored_record now 0 d])) with true.
  - reflexivity.
  - cbn [json_serializable forallb]. cbn [json_serializable] in Hrec.
    rewrite Hrec. reflexivity.
Qed.

(** An instance: the Acme invoice written to a file that is not JSON, and
    to a file nested too deep. *)
Lemma write_after_invalid_json_restarts_at_one_witness :
  json_serializable (PDict acme_fields) = true /\
  write_invoice_to_db sample_now NoFault (PDict acme_fields) FileInvalid
  = (Ok (DbResult true "Invoice successfully written to database" (PInt 1)),
     FileJson (PList [stored_record sample_now 0 acme_fields])) /\
  write_invoice_to_db sample_now NoFault (PDict acme_fields)
    (FileTooDeep "maximum recursion depth exceeded while decoding a JSON array from a unicode string")
  = (Ok (DbResult false
           ("Error writing to database: "
              ++ "maximum recursion depth exceeded while decoding a JSON array from a unicode string")
           PNone),
     FileTooDeep "maximum recursion depth exceeded while decoding a JSON array from a unicode string").
Proof.
  assert (Hd : json_serializable (PDict acme_fields) = true)
    by (vm_compute; reflexivity).
  split; [exact Hd|].
  destruct (write_after_invalid_json_restarts_at_one sample_now acme_fields Hd)
    as (Hreset & _ & Hdeep).
  split; [exact Hreset|]. apply Hdeep.
Defined.

(** ** The validator *)

Lemma field_missing_dict d key :
  field_missing (PDict d) key = Ok (is_missing d key).
Proof.
  unfold field_missing, is_missing, py_in, py_getitem.
  destruct (d !! key); reflexivity.
Qed.

Lemma field_given_dict d key :
  field_given (PDict d) key = Ok (negb (is_missing d key)).
Proof.
  unfold field_given, is_missing, py_in, py_getitem.
  destruct (d !! key); reflexivity.
Qed.

Lemma check_required_dict d :
  check_required (PDict d) required_fields [] =
  Ok ((if is_missing d "biller_name"
       then ["Missing required field: biller_name"] else [])
      ++ (if is_missing d "total_amount"
          then ["Missing required field: total_amount"] else []))%list.
Proof.
  unfold required_fields. cbn [check_required].
  rewrite !field_missing_dict. cbn [bind].
  destruct (is_missing d "biller_name"), (is_missing d "total_amount");
    reflexivity.
Qed.

(** Away from NaN, [amount <= 0] is the negation of [0 < amount]. *)
Lemma SFleb_zero_not_nan f :
  is_nan f = false -> SFleb f float_zero = negb (SFltb float_zero f).
Proof. destruct f as [[]|[]| |[] m e]; intros H; try reflexivity; discriminate. Qed.

(** The validator on a dictionary, stage by stage. *)
Lemma validate_dict L d :
  validate L (PDict d) =
  (let* errors := check_required (PDict d) required_fields [] in
   let* errors :=
     (if negb (is_missing d "total_amount")
      then check_amount L (PDict d) errors else Ok errors) in
   let* errors :=
     (if negb (is_missing d "due_date")
      then check_due_date L (PDict d) errors else Ok errors) in
   Ok (if (length errors =? 0)%nat
       then Verdict (Some "valid") (Some [])
       else Verdict (Some "incomplete") (Some errors))).
Proof.
  unfold validate. rewrite !field_given_dict.
  destruct (check_required (PDict d) required_fields []) as [errors|e];
    [|reflexivity].
  cbn [bind].
  destruct (if negb (is_missing d "total_amount")
            then check_amount L (PDict d) errors else Ok errors); reflexivity.
Qed.

Lemma verdict_of_length errors :
  (if (length errors =? 0)%nat
   then Verdict (Some "valid") (Some [])
   else Verdict (Some "incomplete") (Some errors)) = verdict_of errors.
Proof. destruct errors; reflexivity. Qed.

Lemma py_getitem_given d key :
  is_missing d key = false ->
  py_getitem (PDict d) key = Ok (dict_get d key PNone).
Proof.
  unfold is_missing, py_getitem, dict_get.
  destruct (d !! key); [reflexivity | discriminate].
Qed.

Lemma check_amount_ordinary L d errors :
  is_missing d "total_amount" = false ->
  ordinary_amount L d = true ->
  check_amount L (PDict d) errors = Ok (errors ++ total_amount_violation L d)%list.
Proof.
  unfold ordinary_amount, total_amount_violation, check_amount.
  intros Hgiven. rewrite Hgiven, (py_getitem_given d _ Hgiven).
  cbn [orb bind].
  destruct (py_float L (dict_get d "total_amount" PNone)) as [f|e];
    cbn [bind try_except handle]; intros Hord.
  - apply negb_true_iff in Hord. rewrite (SFleb_zero_not_nan f Hord).
    destruct (SFltb float_zero f); cbn [negb]; [rewrite app_nil_r|]; reflexivity.
  - rewrite Hord. reflexivity.
Qed.

Lemma check_due_date_ordinary L d errors :
  is_missing d "due_date" = false ->
  ordinary_date L d = true ->
  check_due_date L (PDict d) errors = Ok (errors ++ due_date_violation L d)%list.
Proof.
  unfold ordinary_date, due_date_violation, check_due_date, _is_valid_date.
  intros Hgiven. rewrite Hgiven, (py_getitem_given d _ Hgiven).
  cbn [orb bind].
  destruct (dateutil_parse L (dict_get d "due_date" PNone)) as [u|e];
    cbn [bind try_except handle]; intros Hord.
  - rewrite app_nil_r. reflexivity.
  - rewrite Hord. reflexivity.
Qed.

Lemma validate_ordinary L d :
  ordinary_amount L d = true -> ordinary_date L d = true ->
  validate L (PDict d) = Ok (verdict_of (violations L d)).
Proof.
  intros Hamount Hdate.
  rewrite validate_dict, check_required_dict. cbn [bind].
  unfold violations, biller_name_violation.
  set (b := if is_missing d "biller_name"
            then ["Missing required field: biller_name"] else []).
  destruct (is_missing d "total_amount") eqn:Ha;
    destruct (is_missing d "due_date") eqn:Hd; cbn [negb].
  all: rewrite ?(check_amount_ordinary L d _ Ha Hamount); cbn [bind].
  all: rewrite ?(check_due_date_ordinary L d _ Hd Hdate); cbn [bind].
  all: rewrite verdict_of_length.
  all: unfold total_amount_violation, due_date_violation; rewrite ?Ha, ?Hd.
  all: rewrite <- ?app_assoc, ?app_nil_r; reflexivity.
Qed.

(** C3, where the code departs from it: a total that is NaN is not strictly
    positive, so rule 2 is violated, yet [validate] answers "valid" with no
    error ([amount <= 0] is false for NaN). *)
Theorem validate_accepts_nan_amount (L : pylib) :
  validate L (PDict nan_amount_fields) = Ok (Verdict (Some "valid") (Some [])) /\
  py_float L (dict_get nan_amount_fields "total_amount" PNone) = Ok S754_nan /\
  SFltb float_zero S754_nan = false /\
  violations L nan_amount_fields = ["total_amount must be a positive number"].
Proof. repeat split; vm_compute; reflexivity. Qed.

(** C3 away from NaN. When [float] of the total returns a number that is not
    NaN or raises [ValueError] or [TypeError], and the date parser returns or
    raises one of these two, [validate] returns the verdict of the rules: one
    message for each violated rule, in the order of the rules, and "valid"
    exactly when no rule is violated. *)
Theorem validate_reports_each_violated_rule L (d : gmap string pyvalue) :
  ordinary_amount L d = true -> ordinary_date L d = true ->
  validate L (PDict d) = Ok (verdict_of (violations L d)) /\
  (verdict_of (violations L d) = Verdict (Some "valid") (Some []) <->
   is_missing d "biller_name" = false /\
   (exists f, is_missing d "total_amount" = false /\
              py_float L (dict_get d "total_amount" PNone) = Ok f /\
              SFltb float_zero f = true) /\
   (is_missing d "due_date" = true \/
    exists u, dateutil_parse L (dict_get d "due_date" PNone) = Ok u)).
Proof.
  intros Hamount Hdate. split; [apply validate_ordinary; assumption|].
  unfold violations, biller_name_violation, total_amount_violation,
    due_date_violation.
  destruct (is_missing d "biller_name");
    destruct (is_missing d "total_amount");
    destruct (py_float L (dict_get d "total_amount" PNone)) as [f|e];
    try destruct (SFltb float_zero f) eqn:Hpos;
    destruct (is_missing d "due_date");
    destruct (dateutil_parse L (dict_get d "due_date" PNone)) as [u|e'];
    cbn.
  all: split;
    [ intros H; try discriminate H
    | intros (Hb & (f' & Ha & Hf & Hp) & Hd); try discriminate;
      try (inversion Hf; subst; congruence);
      try (destruct Hd as [Hd|[u' Hd]]; discriminate) ].
  all: try reflexivity.
  all: repeat split; eauto.
Qed.

(** An instance: the three rules violated at once. *)
Lemma validate_reports_each_violated_rule_witness :
  ordinary_amount sample_lib rejected_fields = true /\
  ordinary_date sample_lib rejected_fields = true /\
  validate sample_lib (PDict rejected_fields)
    = Ok (verdict_of (violations sample_lib rejected_fields)) /\
  violations sample_lib rejected_fields
    = ["Missing required field: biller_name";
       "total_amount must be a positive number";
       "due_date must be a valid date format"].
Proof.
  split; [vm_compute; reflexivity|]. split; [vm_compute; reflexivity|].
  split; [|vm_compute; reflexivity].
  apply (validate_reports_each_violated_rule sample_lib rejected_fields);
    vm_compute; reflexivity.
Defined.

(** C10, where the code departs from it: for a total that is an integer of
    magnitude 2^1024 or more, [float] raises [OverflowError], which the
    clause [except (ValueError, TypeError)] does not catch, so [validate]
    raises and returns no verdict. *)
Theorem validate_raises_on_huge_integer (L : pylib) :
  validate L (PDict huge_amount_fields)
  = Raise (Exn OverflowError "int too large to convert to float").
Proof. vm_compute. reflexivity. Qed.

(** C10, the part on booleans: [True] is coerced to 1.0 and passes the
    positivity rule. *)
Theorem validate_accepts_true_amount (L : pylib) :
  py_float L (PBool true) = Ok (float_of_Z 1) /\
  validate L (PDict true_amount_fields) = Ok (Verdict (Some "valid") (Some [])).
Proof. split; vm_compute; reflexivity. Qed.

(** C10 away from the overflow: [validate] returns a verdict for every
    dictionary whose total and due date are ordinary, whatever the types of
    the values; when [float] refuses the total with [ValueError] or
    [TypeError], that verdict is "incomplete" and its list of errors holds
    the message "total_amount must be a valid number". *)
Theorem validate_total_on_ordinary_fields L (d : gmap string pyvalue) :
  ordinary_amount L d = true -> ordinary_date L d = true ->
  exists v,
    validate L (PDict d) = Ok v /\
    (forall e, is_missing d "total_amount" = false ->
               py_float L (dict_get d "total_amount" PNone) = Raise e ->
               v_status v = Some "incomplete" /\
               exists errors,
                 v_errors v = Some errors /\
                 In "total_amount must be a valid number" errors).
Proof.
  intros Hamount Hdate.
  exists (verdict_of (violations L d)).
  split; [apply validate_ordinary; assumption|].
  intros e Hgiven Hraise.
  assert (Hin : In "total_amount must be a valid number" (violations L d)).
  { unfold violations, total_amount_violation. rewrite Hgiven, Hraise.
    apply in_or_app. right. apply in_or_app. left. left. reflexivity. }
  destruct (violations L d) as [|msg rest]; [contradiction|].
  cbn. split; [reflexivity|]. eauto.
Qed.

(** An instance: a list as total. *)
Lemma validate_total_on_ordinary_fields_witness :
  ordinary_amount sample_lib list_amount_fields = true /\
  ordinary_date sample_lib list_amount_fields = true /\
  is_missing list_amount_fields "total_amount" = false /\
  py_float sample_lib (dict_get list_amount_fields "total_amount" PNone)
    = Raise (Exn TypeError
               "float() argument must be a string or a real number, not 'list'") /\
  validate sample_lib (PDict list_amount_fields)
    = Ok (Verdict (Some "incomplete")
            (Some ["total_amount must be a valid number"])).
Proof.
  assert (Ha : ordinary_amount sample_lib list_amount_fields = true)
    by (vm_compute; reflexivity).
  assert (Hd : ordinary_date sample_lib list_amount_fields = true)
    by (vm_compute; reflexivity).
  split; [exact Ha|]. split; [exact Hd|].
  split; [vm_compute; reflexivity|]. split; [vm_compute; reflexivity|].
  destruct (validate_total_on_ordinary_fields sample_lib list_amount_fields
              Ha Hd) as (v & Hv & _).
  rewrite Hv. vm_compute in Hv. symmetry. exact Hv.
Defined.

(** ** The write decision *)

Lemma decide_fields (v : verdict) (d : pyvalue) :
  data_to_write (decide v d) = (if should_write (decide v d) then d else PNone) /\
  (should_write (decide v d) = verdict_is_valid v).
Proof.
  unfold decide, verdict_is_valid. destruct (v_status v) as [s|]; cbn.
  - destruct (String.eqb s "valid"); split; reflexivity.
  - split; reflexivity.
Qed.

(** C4, as stated, fails on the reason: it is not the concatenation of the
    messages but the messages joined with ", " after "Validation failed: ". *)
Lemma decide_reason_is_not_the_concatenation :
  reason (decide two_errors (PDict rejected_fields))
    = "Validation failed: Missing required field: biller_name, total_amount must be a positive number" /\
  reason (decide two_errors (PDict rejected_fields))
    <> String.concat "" (default [] (v_errors two_errors)).
Proof. split; [vm_compute; reflexivity | vm_compute; discriminate]. Qed.

(** C4, amended. [decide] says to write exactly when the status of the
    verdict is "valid"; then the data to write is the field mapping it was
    given, unchanged, and the reason is "Invoice validation passed";
    otherwise the data to write is null and the reason is
    "Validation failed: " followed by the messages of the verdict joined
    with ", ". *)
Theorem decide_routes_on_status (v : verdict) (d : pyvalue) :
  (should_write (decide v d) = true <-> v_status v = Some "valid") /\
  data_to_write (decide v d) = (if should_write (decide v d) then d else PNone) /\
  reason (decide v d)
    = (if should_write (decide v d) then "Invoice validation passed"
       else "Validation failed: " ++ join ", " (default [] (v_errors v))).
Proof.
  unfold decide. destruct v as [[s|] errs]; cbn.
  - destruct (String.eqb_spec s "valid") as [->|Hne]; cbn.
    + repeat split; reflexivity.
    + repeat split; try reflexivity; try discriminate.
      intros H. injection H as H. contradiction.
  - cbn. repeat split; try reflexivity; discriminate.
Qed.

(** ** The field extractor *)

Lemma _parse_json_from_text_cases L text :
  (exists err, _parse_json_from_text L text = Ok (null_fields err)) \/
  (exists t v, text = Some t /\ json_loads L (brace_slice t) = Ok v /\
               _parse_json_from_text L text = Ok v).
Proof.
  unfold _parse_json_from_text, parse_json_block, brace_slice.
  destruct text as [t|]; cbn [try_except handle bind].
  - destruct (negb (find_char "{" t =? -1)
              && (rfind_char "}" t + 1 >? find_char "{" t)).
    + destruct (json_loads L (slice (find_char "{" t) (rfind_char "}" t + 1) t))
        as [v|e] eqn:Hloads; cbn [try_except handle bind].
      * right. exists t, v. auto.
      * rewrite isinstance_Exception. left. eexists. reflexivity.
    + left. eexists. reflexivity.
  - left. eexists. reflexivity.
Qed.

(** The [try] block around the call of the fallback model. *)
Lemma fallback_block_cases L (notice : result unit)
    (fallback : result (list (option string))) :
  exists v,
    try_except
      (do* notice in
       let* choices := fallback in
       let* result_text := first_content choices in
       loads L result_text)
      [([Exception], fun ex =>
          Ok (null_fields ("Fallback failed: " ++ exn_msg ex)))] = Ok v /\
    ((exists err, v = null_fields err) \/
     (exists t, json_loads L t = Ok v /\ first_text fallback = Some t)).
Proof.
  destruct notice as [u|ex0]; cbn [bind].
  2:{ cbn [try_except handle]. rewrite isinstance_Exception.
      eexists. split; [reflexivity|]. left. eexists. reflexivity. }
  destruct fallback as [[|[t|] choices]|ex];
    cbn [bind first_content loads first_text].
  - eexists. split; [reflexivity|]. left. eexists. reflexivity.
  - destruct (json_loads L t) as [v|ex] eqn:Hloads; cbn [try_except handle].
    + exists v. split; [reflexivity|]. right. exists t. auto.
    + rewrite isinstance_Exception. eexists. split; [reflexivity|].
      left. eexists. reflexivity.
  - eexists. split; [reflexivity|]. left. eexists. reflexivity.
  - cbn [try_except handle]. rewrite isinstance_Exception.
    eexists. split; [reflexivity|]. left. eexists. reflexivity.
Qed.

(** The three ways [extract] ends: with the all-null dictionary, or with
    what [json.loads] made of one of three texts. *)
Lemma extract_cases L Sv self (raw_text : string) :
  let primary :=
    chat_create Sv (model self) primary_system_message
      (prompt_for self raw_text) in
  let fallback :=
    chat_create Sv "openai/gpt-4o-mini" fallback_system_message
      (prompt_for self raw_text) in
  exists v,
    extract L Sv self (PStr raw_text) = Ok v /\
    ((exists err, v = null_fields err) \/
     (exists t, json_loads L t = Ok v /\
                (first_text primary = Some t \/
                 (exists t0, first_text primary = Some t0 /\ t = brace_slice t0) \/
                 first_text fallback = Some t))).
Proof.
  intros primary fallback.
  assert (Hfb : forall e : exn,
    exists v,
      (if contains "402" (exn_msg e) || contains "credits" (lower (exn_msg e))
       then
         try_except
           (do* print_notice L in
            let* choices := fallback in
            let* result_text := first_content choices in
            loads L result_text)
           [([Exception], fun ex =>
               Ok (null_fields ("Fallback failed: " ++ exn_msg ex)))]
       else Ok (null_fields (exn_msg e))) = Ok v /\
      ((exists err, v = null_fields err) \/
       (exists t, json_loads L t = Ok v /\ first_text fallback = Some t))).
  { intros e.
    destruct (contains "402" (exn_msg e)
              || contains "credits" (lower (exn_msg e))).
    - apply fallback_block_cases.
    - eexists. split; [reflexivity|]. left. eexists. reflexivity. }
  unfold extract. cbn [bind]. fold (prompt_for self raw_text).
  fold primary. fold fallback.
  destruct primary as [[|[t|] choices]|e] eqn:Hp;
    cbn [bind first_content loads first_text].
  - (* no choice in the answer *)
    cbn [try_except handle raise].
    destruct (Hfb (Exn OtherError "list index out of range")) as (v & Hv & Hc).
    exists v. split; [exact Hv|].
    destruct Hc as [Hc|(t & Ht & Hf)]; [left; exact Hc|].
    right. exists t. auto.
  - (* a text *)
    destruct (json_loads L t) as [v|e] eqn:Hloads; cbn [try_except handle].
    + exists v. split; [reflexivity|]. right. exists t. auto.
    + destruct (isinstance e [JSONDecodeError]).
      * destruct (_parse_json_from_text_cases L (Some t))
          as [[err Hparse]|(t0 & v & Ht0 & Hv & Hparse)];
          rewrite Hparse; cbn [try_except].
        -- eexists. split; [reflexivity|]. left. eexists. reflexivity.
        -- injection Ht0 as <-. exists v. split; [reflexivity|].
           right. exists (brace_slice t). split; [exact Hv|].
           right. left. exists t. auto.
      * rewrite isinstance_Exception.
        destruct (Hfb e) as (v & Hv & Hc).
        exists v. split; [exact Hv|].
        destruct Hc as [Hc|(t1 & Ht & Hf)]; [left; exact Hc|].
        right. exists t1. auto.
  - (* a choice without text *)
    cbn [try_except handle raise].
    eexists. split; [reflexivity|]. left. eexists. reflexivity.
  - (* the call raised *)
    cbn [try_except handle].
    destruct (isinstance e [JSONDecodeError]).
    + eexists. split; [reflexivity|]. left. eexists. reflexivity.
    + rewrite isinstance_Exception.
      destruct (Hfb e) as (v & Hv & Hc).
      exists v. split; [exact Hv|].
      destruct Hc as [Hc|(t1 & Ht & Hf)]; [left; exact Hc|].
      right. exists t1. auto.
Qed.



(** ** The orchestrator *)

Lemma set_output_set_step name v s r :
  set_output name v (set_step name s r)
  = set_step name
      (Step (s_agent s) (s_status s) (s_input s) v (s_error s) (s_reason s)) r.
Proof.
  unfold set_output, set_step. cbn.
  rewrite alter_insert_eq. reflexivity.
Qed.

Lemma set_status_set_step name status s r :
  set_status name status (set_step name s r)
  = set_step name
      (Step (s_agent s) status (s_input s) (s_output s) (s_error s)
         (s_reason s)) r.
Proof.
  unfold set_status, set_step. cbn.
  rewrite alter_insert_eq. reflexivity.
Qed.

Lemma set_step_error_set_step name msg s r :
  set_step_error name msg (set_step name s r)
  = set_step name
      (Step (s_agent s) (s_status s) (s_input s) (s_output s) (Some msg)
         (s_reason s)) r.
Proof.
  unfold set_step_error, set_step. cbn.
  rewrite alter_insert_eq. reflexivity.
Qed.

Ltac run_pipeline :=
  cbn [st_bind st_lift st_ret st_modify on_results on_db fst snd bind
       strip_receiver verdict_status v_status];
  rewrite ?set_output_set_step, ?set_status_set_step,
    ?set_step_error_set_step;
  cbn [s_agent s_status s_input s_output s_error s_reason].

(** C2, what the code does: when the ingested text is empty or white space,
    the run returned by [process_invoice] holds the ingestion step alone,
    with the status "error", and no [overall_status] entry at all (the
    [return] inside the [try] block comes before any assignment to it). The
    database file is not touched. *)
Theorem blank_text_run_has_no_overall_status
    L Sv self now fault path file ing text :
  document_process Sv path = Ok ing ->
  dict_get ing "raw_text" (PStr "") = PStr text ->
  truthy_str (strip text) = false ->
  process_invoice L Sv self now fault path file
  = (PipelineResults (system_prompt self)
       {[ "document_ingestion" :=
            Step "Document Ingestion Agent" "error"
              (Some (PDict {[ "file_path" := PStr path ]}))
              (PDict ing) (Some "No text extracted from document") None ]}
       None None,
     file).
Proof.
  intros Hdoc Hraw Hblank.
  unfold process_invoice, process_invoice_try.
  run_pipeline. rewrite Hdoc. run_pipeline. rewrite Hraw. run_pipeline.
  rewrite Hblank. cbn [negb]. run_pipeline.
  unfold set_step. cbn. rewrite insert_empty. reflexivity.
Qed.

(** An instance: a scan with three spaces as text. *)
Lemma blank_text_run_has_no_overall_status_witness :
  document_process (answering blank_ingestion "{}") "scan.png"
    = Ok blank_ingestion /\
  dict_get blank_ingestion "raw_text" (PStr "") = PStr "   " /\
  truthy_str (strip "   ") = false /\
  pr_overall_status
    (fst (process_invoice sample_lib (answering blank_ingestion "{}")
            sample_orchestrator sample_now NoFault "scan.png"
            one_record_file)) = None.
Proof.
  split; [reflexivity|]. split; [vm_compute; reflexivity|].
  split; [reflexivity|].
  rewrite (blank_text_run_has_no_overall_status sample_lib
             (answering blank_ingestion "{}") sample_orchestrator sample_now
             NoFault "scan.png" one_record_file blank_ingestion "   "
             eq_refl ltac:(vm_compute; reflexivity) eq_refl).
  reflexivity.
Defined.

Lemma write_invoice_to_db_returns now fault data file :
  exists r file', write_invoice_to_db now fault data file = (Ok r, file').
Proof.
  pose proof (write_invoice_to_db_outcome now fault data file) as Hout.
  destruct (write_invoice_to_db now fault data file) as [r file'].
  cbn [fst snd] in Hout. inversion Hout; subst; eauto.
Qed.

(** A verdict of [validate] always carries a status. *)
Lemma validate_status L x v :
  validate L x = Ok v ->
  v_status v = Some "valid" \/ v_status v = Some "incomplete".
Proof.
  unfold validate.
  destruct (check_required x required_fields []) as [e1|]; [|discriminate].
  cbn [bind].
  destruct (field_given x "total_amount") as [b1|]; [|discriminate].
  cbn [bind].
  destruct (if b1 then check_amount L x e1 else Ok e1) as [e2|];
    [|discriminate].
  cbn [bind].
  destruct (field_given x "due_date") as [b2|]; [|discriminate].
  cbn [bind].
  destruct (if b2 then check_due_date L x e2 else Ok e2) as [e3|];
    [|discriminate].
  cbn [bind]. intros H. injection H as <-.
  destruct (length e3 =? 0)%nat; cbn; auto.
Qed.

(** A run in which no stage raises, for a text that is not blank. *)
Section FullRun.
Context (L : pylib) (Sv : services) (self : Orchestrator).
Context (now : string) (fault : io_fault) (path : string) (file : db_file).
Context (ing : gmap string pyvalue) (text status : string).
Context (extracted : pyvalue) (v : verdict).
Hypothesis Hdoc : document_process Sv path = Ok ing.
Hypothesis Hraw : dict_get ing "raw_text" (PStr "") = PStr text.
Hypothesis Htext : truthy_str (strip text) = true.
Hypothesis Hextract :
  extract L Sv (extraction_agent self) (PStr text) = Ok extracted.
Hypothesis Hvalidate : validate L extracted = Ok v.
Hypothesis Hstatus : v_status v = Some status.

Lemma verdict_status_given : verdict_status v = Ok status.
Proof. unfold verdict_status. rewrite Hstatus. reflexivity. Qed.

Lemma full_run_written r file' :
  should_write (decide v extracted) = true ->
  write_invoice_to_db now fault extracted file = (Ok r, file') ->
  process_invoice L Sv self now fault path file
  = (PipelineResults (system_prompt self)
       (full_run_steps path ing text status extracted v
          (written_step extracted r))
       (Some (if verdict_is_valid v then "success" else "incomplete"))
       None,
     file').
Proof.
  intros Hwrite Hdb.
  assert (Hdata : data_to_write (decide v extracted) = extracted).
  { destruct (decide_fields v extracted) as [Hd _]. rewrite Hd, Hwrite.
    reflexivity. }
  unfold process_invoice, process_invoice_try.
  run_pipeline. rewrite Hdoc. run_pipeline. rewrite Hraw. run_pipeline.
  rewrite Htext. cbn [negb]. run_pipeline.
  rewrite Hextract. run_pipeline. rewrite Hvalidate. run_pipeline.
  rewrite !verdict_status_given. run_pipeline. rewrite Hwrite. run_pipeline.
  rewrite Hdata. unfold st_bind at 1 2 3. unfold on_db. cbn [on_results st_modify fst snd].
  rewrite Hdb. run_pipeline.
  unfold full_run_steps, validation_step, verdict_is_valid. rewrite Hstatus.
  reflexivity.
Qed.

Lemma full_run_skipped :
  should_write (decide v extracted) = false ->
  process_invoice L Sv self now fault path file
  = (PipelineResults (system_prompt self)
       (full_run_steps path ing text status extracted v
          (skipped_step (reason (decide v extracted))))
       (Some (if verdict_is_valid v then "success" else "incomplete"))
       None,
     file).
Proof.
  intros Hwrite.
  unfold process_invoice, process_invoice_try.
  run_pipeline. rewrite Hdoc. run_pipeline. rewrite Hraw. run_pipeline.
  rewrite Htext. cbn [negb]. run_pipeline.
  rewrite Hextract. run_pipeline. rewrite Hvalidate. run_pipeline.
  rewrite !verdict_status_given. run_pipeline. rewrite Hwrite. run_pipeline.
  unfold full_run_steps, validation_step, verdict_is_valid. rewrite Hstatus.
  reflexivity.
Qed.
End FullRun.

Lemma run_with_failing_validation
    L Sv self now fault path file ing text extracted e :
  document_process Sv path = Ok ing ->
  dict_get ing "raw_text" (PStr "") = PStr text ->
  truthy_str (strip text) = true ->
  extract L Sv (extraction_agent self) (PStr text) = Ok extracted ->
  validate L extracted = Raise e ->
  pr_error (fst (process_invoice L Sv self now fault path file))
  = Some (exn_msg e).
Proof.
  intros Hdoc Hraw Htext Hextract Hvalidate.
  unfold process_invoice, process_invoice_try.
  run_pipeline. rewrite Hdoc. run_pipeline. rewrite Hraw. run_pipeline.
  rewrite Htext. cbn [negb]. run_pipeline.
  rewrite Hextract. run_pipeline. rewrite Hvalidate. run_pipeline.
  reflexivity.
Qed.

Lemma full_run_steps_dom path ing text status extracted v db_step :
  dom (full_run_steps path ing text status extracted v db_step) = stage_names.
Proof.
  unfold full_run_steps, stage_names.
  rewrite !dom_insert_L, dom_empty_L. set_solver.
Qed.

(** A run on a text that is not blank, in which no exception reached the
    [except] clause of [process_invoice], went through the five stages. *)
Lemma completed_run_shape L Sv self now fault path file ing text :
  document_process Sv path = Ok ing ->
  dict_get ing "raw_text" (PStr "") = PStr text ->
  truthy_str (strip text) = true ->
  pr_error (fst (process_invoice L Sv self now fault path file)) = None ->
  exists extracted v status db_step file',
    extract L Sv (extraction_agent self) (PStr text) = Ok extracted /\
    validate L extracted = Ok v /\
    v_status v = Some status /\
    process_invoice L Sv self now fault path file
    = (PipelineResults (system_prompt self)
         (full_run_steps path ing text status extracted v db_step)
         (Some (if verdict_is_valid v then "success" else "incomplete"))
         None,
       file') /\
    (if should_write (decide v extracted)
     then exists r,
            write_invoice_to_db now fault extracted file = (Ok r, file') /\
            db_step = written_step extracted r
     else file' = file /\
          db_step = skipped_step (reason (decide v extracted))).
Proof.
  intros Hdoc Hraw Htext Herr.
  destruct (extract_cases L Sv (extraction_agent self) text)
    as (extracted & Hextract & _).
  destruct (validate L extracted) as [v|e] eqn:Hvalidate.
  - assert (Hstatus : exists status, v_status v = Some status).
    { destruct (validate_status L extracted v Hvalidate); eauto. }
    destruct Hstatus as [status Hstatus].
    destruct (should_write (decide v extracted)) eqn:Hwrite.
    + destruct (write_invoice_to_db_returns now fault extracted file)
        as (r & file' & Hdb).
      exists extracted, v, status, (written_step extracted r), file'.
      rewrite Hwrite.
      repeat split; eauto.
      apply (full_run_written L Sv self now fault path file ing text status
               extracted v Hdoc Hraw Htext Hextract Hvalidate Hstatus r file'
               Hwrite Hdb).
    + exists extracted, v, status,
        (skipped_step (reason (decide v extracted))), file.
      rewrite Hwrite.
      repeat split; eauto.
      apply (full_run_skipped L Sv self now fault path file ing text status
               extracted v Hdoc Hraw Htext Hextract Hvalidate Hstatus Hwrite).
  - rewrite (run_with_failing_validation L Sv self now fault path file ing
               text extracted e Hdoc Hraw Htext Hextract Hvalidate) in Herr.
    discriminate.
Qed.

(** C1, as stated, fails: on the Acme invoice one call of [process_invoice]
    goes through the five stages, stores the record and ends with the
    overall status "success"; it does not stop after the extraction. *)
Lemma process_invoice_runs_every_stage :
  dom (pr_steps (fst acme_run)) = stage_names /\
  pr_overall_status (fst acme_run) = Some "success" /\
  s_status <$> pr_steps (fst acme_run) !! "validation" = Some "success" /\
  s_status <$> pr_steps (fst acme_run) !! "database_write" = Some "success" /\
  snd acme_run = FileJson (PList [stored_record sample_now 0 acme_fields]).
Proof. repeat split; vm_compute; reflexivity. Qed.

(** C1, amended. [process_invoice] has no pause and no resume call: for a
    document whose ingested text is not blank, a run in which no stage
    raises holds the five steps (ingestion, extraction, validation,
    decision, database write) and an overall status, and its validation
    step was run on the output of the extractor as it came. (The review by
    a person is made by the two handlers of [main] in app.py, which call
    the agents themselves.) *)
Theorem process_invoice_does_not_pause L Sv self now fault path file ing text :
  document_process Sv path = Ok ing ->
  dict_get ing "raw_text" (PStr "") = PStr text ->
  truthy_str (strip text) = true ->
  pr_error (fst (process_invoice L Sv self now fault path file)) = None ->
  dom (pr_steps (fst (process_invoice L Sv self now fault path file)))
    = stage_names /\
  is_Some (pr_overall_status
             (fst (process_invoice L Sv self now fault path file))) /\
  exists extracted v,
    extract L Sv (extraction_agent self) (PStr text) = Ok extracted /\
    validate L extracted = Ok v /\
    pr_steps (fst (process_invoice L Sv self now fault path file))
      !! "validation" = Some (validation_step extracted v).
Proof.
  intros Hdoc Hraw Htext Herr.
  destruct (completed_run_shape L Sv self now fault path file ing text
              Hdoc Hraw Htext Herr)
    as (extracted & v & status & db_step & file' & Hex & Hval & _ & Hrun & _).
  rewrite Hrun. cbn [fst pr_steps pr_overall_status].
  split; [apply full_run_steps_dom|]. split; [eauto|].
  exists extracted, v. split; [exact Hex|]. split; [exact Hval|].
  unfold full_run_steps.
  rewrite lookup_insert_ne by discriminate.
  rewrite lookup_insert_ne by discriminate.
  apply lookup_insert_eq.
Qed.

(** An instance: the run on the Acme invoice. *)
Lemma process_invoice_does_not_pause_witness :
  document_process (answering acme_ingestion acme_json) "invoice.png"
    = Ok acme_ingestion /\
  dict_get acme_ingestion "raw_text" (PStr "") = PStr acme_text /\
  truthy_str (strip acme_text) = true /\
  pr_error (fst acme_run) = None /\
  dom (pr_steps (fst acme_run)) = stage_names /\
  is_Some (pr_overall_status (fst acme_run)).
Proof.
  assert (H2 : dict_get acme_ingestion "raw_text" (PStr "") = PStr acme_text)
    by (vm_compute; reflexivity).
  assert (H3 : truthy_str (strip acme_text) = true) by (vm_compute; reflexivity).
  assert (H4 : pr_error (fst acme_run) = None) by (vm_compute; reflexivity).
  split; [reflexivity|]. split; [exact H2|]. split; [exact H3|].
  split; [exact H4|].
  destruct (process_invoice_does_not_pause sample_lib
              (answering acme_ingestion acme_json) sample_orchestrator
              sample_now NoFault "invoice.png" (FileJson (PList []))
              acme_ingestion acme_text eq_refl H2 H3 H4)
    as (Hdom & Hstatus & _).
  split; [exact Hdom | exact Hstatus].
Defined.

(** C5. For a run on a text that is not blank, in which no exception reached
    the [except] clause of [process_invoice]: the overall status is
    "success" when the status of the verdict is "valid" and "incomplete"
    otherwise, whatever the database tool reports; the database step is
    there, with the status "skipped" when the verdict is not valid, and
    otherwise with "success" or "error" as the database tool reported. *)
Theorem overall_status_follows_the_verdict
    L Sv self now fault path file ing text :
  document_process Sv path = Ok ing ->
  dict_get ing "raw_text" (PStr "") = PStr text ->
  truthy_str (strip text) = true ->
  pr_error (fst (process_invoice L Sv self now fault path file)) = None ->
  exists extracted v db_step,
    extract L Sv (extraction_agent self) (PStr text) = Ok extracted /\
    validate L extracted = Ok v /\
    should_write (decide v extracted) = verdict_is_valid v /\
    pr_overall_status (fst (process_invoice L Sv self now fault path file))
      = Some (if verdict_is_valid v then "success" else "incomplete") /\
    pr_steps (fst (process_invoice L Sv self now fault path file))
      !! "database_write" = Some db_step /\
    (if verdict_is_valid v
     then exists r,
            fst (write_invoice_to_db now fault extracted file) = Ok r /\
            s_status db_step = (if success r then "success" else "error")
     else s_status db_step = "skipped").
Proof.
  intros Hdoc Hraw Htext Herr.
  destruct (completed_run_shape L Sv self now fault path file ing text
              Hdoc Hraw Htext Herr)
    as (extracted & v & status & db_step & file' & Hex & Hval & _ & Hrun & Hdb).
  destruct (decide_fields v extracted) as [_ Hwrite].
  exists extracted, v, db_step.
  rewrite Hrun. cbn [fst pr_steps pr_overall_status].
  split; [exact Hex|]. split; [exact Hval|]. split; [exact Hwrite|].
  split; [reflexivity|].
  split; [unfold full_run_steps; apply lookup_insert_eq|].
  rewrite Hwrite in Hdb. destruct (verdict_is_valid v).
  - destruct Hdb as (r & Hr & ->). exists r. rewrite Hr. split; reflexivity.
  - destruct Hdb as (_ & ->). reflexivity.
Qed.

(** An instance: the Acme invoice is valid and the disk is full; the
    database step has the status "error" and the overall status is
    "success". *)
Lemma overall_status_follows_the_verdict_witness :
  document_process (answering acme_ingestion acme_json) "invoice.png"
    = Ok acme_ingestion /\
  dict_get acme_ingestion "raw_text" (PStr "") = PStr acme_text /\
  truthy_str (strip acme_text) = true /\
  pr_error (fst acme_run_disk_full) = None /\
  pr_overall_status (fst acme_run_disk_full) = Some "success" /\
  s_status <$> pr_steps (fst acme_run_disk_full) !! "database_write"
    = Some "error" /\
  exists extracted v db_step,
    extract sample_lib (answering acme_ingestion acme_json)
      (extraction_agent sample_orchestrator) (PStr acme_text) = Ok extracted /\
    validate sample_lib extracted = Ok v /\
    should_write (decide v extracted) = verdict_is_valid v /\
    pr_overall_status (fst acme_run_disk_full)
      = Some (if verdict_is_valid v then "success" else "incomplete") /\
    pr_steps (fst acme_run_disk_full) !! "database_write" = Some db_step /\
    (if verdict_is_valid v
     then exists r,
            fst (write_invoice_to_db sample_now
                   (WriteFails "[Errno 28] No space left on device")
                   extracted (FileJson (PList []))) = Ok r /\
            s_status db_step = (if success r then "success" else "error")
     else s_status db_step = "skipped").
Proof.
  assert (H2 : dict_get acme_ingestion "raw_text" (PStr "") = PStr acme_text)
    by (vm_compute; reflexivity).
  assert (H3 : truthy_str (strip acme_text) = true) by (vm_compute; reflexivity).
  assert (H4 : pr_error (fst acme_run_disk_full) = None)
    by (vm_compute; reflexivity).
  split; [reflexivity|]. split; [exact H2|]. split; [exact H3|].
  split; [exact H4|].
  split; [vm_compute; reflexivity|]. split; [vm_compute; reflexivity|].
  exact (overall_status_follows_the_verdict sample_lib
           (answering acme_ingestion acme_json) sample_orchestrator
           sample_now (WriteFails "[Errno 28] No space left on device")
           "invoice.png" (FileJson (PList [])) acme_ingestion acme_text
           eq_refl H2 H3 H4).
Defined.

(** A run with the three rules violated: the verdict lists the three
    messages, the decision is not to write, the database step is skipped,
    the file keeps its record and the overall status is "incomplete". *)
Theorem rejected_invoice_is_not_written :
  s_output <$> pr_steps (fst rejected_run) !! "validation"
    = Some (verdict_value
              (Verdict (Some "incomplete")
                 (Some ["Missing required field: biller_name";
                        "total_amount must be a positive number";
                        "due_date must be a valid date format"]))) /\
  s_status <$> pr_steps (fst rejected_run) !! "database_write"
    = Some "skipped" /\
  pr_overall_status (fst rejected_run) = Some "incomplete" /\
  snd rejected_run = one_record_file.
Proof. repeat split; vm_compute; reflexivity. Qed.

(** ** The review in app.py *)

(** The first handler stops after the extraction: it leaves the database
    file and the final results of the session as they were. *)
Theorem main_analyze_stops_after_extraction
    L Sv self path (ss : session_state) (file : db_file) :
  snd (snd (main_analyze L Sv self path (ss, file))) = file /\
  ss_final_results (fst (snd (main_analyze L Sv self path (ss, file))))
    = ss_final_results ss.
Proof.
  unfold main_analyze, st_bind, st_lift, st_ret, on_session, st_modify.
  destruct (document_process Sv path) as [ing|e]; cbn [fst snd];
    [|split; reflexivity].
  destruct (py_truthy (dict_get ing "raw_text" PNone)); [|split; reflexivity].
  destruct (py_getitem (PDict ing) "raw_text") as [raw|e]; cbn [fst snd];
    [|split; reflexivity].
  destruct (extract L Sv (extraction_agent self) raw) as [x|e];
    split; reflexivity.
Qed.

(** The second handler resumes with the reviewed fields: it validates them,
    decides, and calls the database tool exactly when the verdict is
    valid. *)
Theorem main_approve_validates_then_writes
    L now fault biller amount address date data v
    (ss : session_state) (file : db_file) :
  edited_data L biller amount address date = Ok data ->
  validate L data = Ok v ->
  exists db_res file',
    main_approve L now fault biller amount address date (ss, file)
    = (Ok tt,
       (SessionState (ss_ingestion_result ss) (ss_extraction_result ss) true
          (Some (FinalResults v (decide v data) db_res)),
        file')) /\
    (if verdict_is_valid v
     then exists r, db_res = Some r /\
                    write_invoice_to_db now fault data file = (Ok r, file')
     else db_res = None /\ file' = file).
Proof.
  intros Hdata Hval.
  destruct (decide_fields v data) as [Hd Hwrite].
  unfold main_approve, st_bind, st_lift, st_ret, on_session, on_ui_db,
    st_modify.
  rewrite Hdata, Hval, Hwrite. rewrite Hwrite in Hd.
  destruct (verdict_is_valid v); cbn [fst snd].
  - rewrite Hd.
    destruct (write_invoice_to_db_returns now fault data file)
      as (r & file' & Hdb).
    rewrite Hdb. exists (Some r), file'. split; [reflexivity|]. eauto.
  - exists None, file. split; [reflexivity|]. auto.
Qed.

(** An instance: the Acme fields approved with an empty address. *)
Lemma main_approve_validates_then_writes_witness :
  edited_data sample_lib "Acme Co." "150.00" "" "2025-03-01"
    = Ok (PDict (<["biller_address" := PStr ""]> acme_fields)) /\
  validate sample_lib (PDict (<["biller_address" := PStr ""]> acme_fields))
    = Ok (Verdict (Some "valid") (Some [])) /\
  exists db_res file',
    main_approve sample_lib sample_now NoFault "Acme Co." "150.00" ""
      "2025-03-01" (SessionState None None false None, FileJson (PList []))
    = (Ok tt,
       (SessionState None None true
          (Some (FinalResults (Verdict (Some "valid") (Some []))
                   (decide (Verdict (Some "valid") (Some []))
                      (PDict (<["biller_address" := PStr ""]> acme_fields)))
                   db_res)),
        file')) /\
    (if verdict_is_valid (Verdict (Some "valid") (Some []))
     then exists r,
            db_res = Some r /\
            write_invoice_to_db sample_now NoFault
              (PDict (<["biller_address" := PStr ""]> acme_fields))
              (FileJson (PList [])) = (Ok r, file')
     else db_res = None /\ file' = FileJson (PList [])).
Proof.
  assert (H1 : edited_data sample_lib "Acme Co." "150.00" "" "2025-03-01"
               = Ok (PDict (<["biller_address" := PStr ""]> acme_fields)))
    by (vm_compute; reflexivity).
  assert (H2 : validate sample_lib
                 (PDict (<["biller_address" := PStr ""]> acme_fields))
               = Ok (Verdict (Some "valid") (Some [])))
    by (vm_compute; reflexivity).
  split; [exact H1|]. split; [exact H2|].
  exact (main_approve_validates_then_writes sample_lib sample_now NoFault
           "Acme Co." "150.00" "" "2025-03-01" _ _
           (SessionState None None false None) (FileJson (PList [])) H1 H2).
Defined.

(** * Further properties *)

(** ** The database tool: what a write stores and what it refuses *)

(** A call that reports success appended exactly one record to the list it
    found: reading the file again gives the old records followed by the new
    one. The new record has the [id] one above the number of old records,
    the time of the call and the status "stored", whatever the argument
    held under these three keys, and every other field of the argument
    unchanged. *)
Theorem successful_write_appends_the_record
    now fault (d : gmap string pyvalue) file r file' :
  write_invoice_to_db now fault (PDict d) file = (Ok r, file') ->
  success r = true ->
  exists l rec,
    stored_records file = Some l /\
    _load_invoices NoFault file' = (Ok (PList (l ++ [PDict rec])), file') /\
    invoice_id r = PInt (Z.of_nat (length l) + 1) /\
    rec !! "id" = Some (PInt (Z.of_nat (length l) + 1)) /\
    rec !! "created_at" = Some (PStr now) /\
    rec !! "status" = Some (PStr "stored") /\
    (forall key, key ∉ reserved_keys -> rec !! key = d !! key).
Proof.
  intros Hw Hs.
  pose proof (write_invoice_to_db_outcome now fault (PDict d) file) as Hout.
  rewrite Hw in Hout. cbn [fst snd] in Hout.
  inversion Hout as [l d' Hl Hd Hr Hf | msg Hr Hf | msg Hcut Hr Hf]; subst;
    try discriminate.
  injection Hd as <-.
  exists l, (<["status" := PStr "stored"]>
               (<["created_at" := PStr now]>
                  (<["id" := PInt (Z.of_nat (length l) + 1)]> d))).
  split; [exact Hl|]. split; [reflexivity|]. split; [reflexivity|].
  split; [|split; [|split]].
  - rewrite lookup_insert_ne by discriminate.
    rewrite lookup_insert_ne by discriminate.
    apply lookup_insert_eq.
  - rewrite lookup_insert_ne by discriminate. apply lookup_insert_eq.
  - apply lookup_insert_eq.
  - intros key Hkey. unfold reserved_keys in Hkey.
    rewrite !lookup_insert_ne; [reflexivity|..];
      intros <-; apply Hkey; set_solver.
Qed.

(** An instance: the Acme invoice, passed with an [id] of the caller's own,
    written to the file with one record. *)
Lemma successful_write_appends_the_record_witness :
  exists r file',
    write_invoice_to_db sample_now NoFault
      (PDict (<["id" := PInt 99]> acme_fields)) one_record_file
      = (Ok r, file') /\
    success r = true /\
    exists l rec,
      stored_records one_record_file = Some l /\
      _load_invoices NoFault file' = (Ok (PList (l ++ [PDict rec])), file') /\
      invoice_id r = PInt (Z.of_nat (length l) + 1) /\
      rec !! "id" = Some (PInt (Z.of_nat (length l) + 1)) /\
      rec !! "created_at" = Some (PStr sample_now) /\
      rec !! "status" = Some (PStr "stored") /\
      (forall key, key ∉ reserved_keys ->
                   rec !! key = (<["id" := PInt 99]> acme_fields) !! key).
Proof.
  destruct (write_invoice_to_db sample_now NoFault
              (PDict (<["id" := PInt 99]> acme_fields)) one_record_file)
    as [[r|e] file'] eqn:Hw; [|vm_compute in Hw; discriminate].
  assert (Hs : success r = true).
  { vm_compute in Hw. injection Hw as <- _. reflexivity. }
  exists r, file'. split; [reflexivity|]. split; [exact Hs|].
  exact (successful_write_appends_the_record sample_now NoFault _
           one_record_file r file' Hw Hs).
Defined.

(** When the file holds JSON that is not a list (an object, a string, a
    number, null), every call is refused and the file stays as it is: such
    a file is never repaired, unlike a file that holds no JSON at all. *)
Theorem non_list_store_refuses_every_write now fault data v :
  is_list v = false ->
  exists msg,
    write_invoice_to_db now fault data (FileJson v)
    = (Ok (DbResult false ("Error writing to database: " ++ msg) PNone),
       FileJson v).
Proof.
  intros Hv.
  unfold write_invoice_to_db, st_catch_all, st_bind, st_lift, st_ret.
  rewrite _load_invoices_eq.
  destruct fault; destruct v; try discriminate; destruct data; run_block;
    eexists; reflexivity.
Qed.

(** An instance: a file that holds an empty JSON object. *)
Lemma non_list_store_refuses_every_write_witness :
  is_list (PDict ∅) = false /\
  exists msg,
    write_invoice_to_db sample_now NoFault (PDict acme_fields)
      (FileJson (PDict ∅))
    = (Ok (DbResult false ("Error writing to database: " ++ msg) PNone),
       FileJson (PDict ∅)).
Proof.
  split; [reflexivity|].
  exact (non_list_store_refuses_every_write sample_now NoFault
           (PDict acme_fields) (PDict ∅) eq_refl).
Defined.

(** An argument that is not a dictionary ([None], a list, a string, ...) is
    refused with a null identifier, and the file is not touched. *)
Theorem non_dict_argument_is_refused now fault data file :
  is_dict data = false ->
  exists msg,
    write_invoice_to_db now fault data file
    = (Ok (DbResult false ("Error writing to database: " ++ msg) PNone),
       file).
Proof.
  intros Hd.
  unfold write_invoice_to_db, st_catch_all, st_bind, st_lift, st_ret.
  rewrite _load_invoices_eq.
  destruct fault; destruct file; destruct data; try discriminate; run_block;
    eexists; reflexivity.
Qed.

(** An instance: [None] as argument. *)
Lemma non_dict_argument_is_refused_witness :
  is_dict PNone = false /\
  exists msg,
    write_invoice_to_db sample_now NoFault PNone one_record_file
    = (Ok (DbResult false ("Error writing to database: " ++ msg) PNone),
       one_record_file).
Proof.
  split; [reflexivity|].
  exact (non_dict_argument_is_refused sample_now NoFault PNone
           one_record_file eq_refl).
Defined.

(** A write that cannot be cut short, on a file that holds encoded values,
    either stores the record or leaves the file alone. *)
Lemma safe_write_cases q file r file' :
  store_wf file = true -> rewrite_safe q = true ->
  write_invoice_to_db (w_now q) (w_fault q) (w_data q) file = (r, file') ->
  (exists l d,
     stored_records file = Some l /\ w_data q = PDict d /\
     reported_id r = Some (Z.of_nat (length l) + 1) /\
     file' = FileJson (PList (l ++ [stored_record (w_now q) (length l) d])) /\
     store_wf file' = true) \/
  (reported_id r = None /\ file' = file).
Proof.
  intros Hwf Hsafe Hw.
  pose proof (write_invoice_to_db_outcome (w_now q) (w_fault q) (w_data q) file)
    as Hout.
  rewrite Hw in Hout. cbn [fst snd] in Hout.
  apply andb_true_iff in Hsafe as [Hfault Hdata].
  apply negb_true_iff in Hfault.
  inversion Hout as [l d Hl Hd Hr Hf | msg Hr Hf | msg Hcut Hr Hf]; subst.
  - left. exists l, d. repeat split; auto.
    cbn [store_wf].
    rewrite json_serializable_snoc, (stored_records_wf file l Hwf Hl).
    rewrite Hd in Hdata.
    rewrite (json_serializable_stored_record _ _ _ Hdata). reflexivity.
  - right. split; reflexivity.
  - destruct Hcut as [H|[H|H]]; congruence.
Qed.

Lemma ids_are_positions_snoc l now d :
  ids_are_positions l ->
  ids_are_positions (l ++ [stored_record now (length l) d]).
Proof.
  intros Hl i rec Hrec.
  destruct (Nat.lt_ge_cases i (length l)) as [Hlt|Hge].
  - rewrite lookup_app_l in Hrec by exact Hlt. apply Hl. exact Hrec.
  - rewrite lookup_app_r in Hrec by lia.
    destruct (i - length l)%nat as [|k] eqn:Hk; cbn in Hrec; [|discriminate].
    injection Hrec as <-. unfold stored_record.
    rewrite stored_record_id. do 2 f_equal. lia.
Qed.

(** Numbering is by position. Starting from a file whose records carry
    their positions as identifiers, after any number of calls none of which
    can be cut short, the records still carry their positions, and the
    successful calls reported, in order, the next free positions. In
    particular the identifiers in the file are pairwise distinct. *)
Theorem stored_ids_stay_positions reqs : forall file l,
  store_wf file = true ->
  Forall (fun q => rewrite_safe q = true) reqs ->
  stored_records file = Some l ->
  ids_are_positions l ->
  exists l' m,
    stored_records (write_all reqs file) = Some l' /\
    ids_are_positions l' /\
    length l' = (length l + m)%nat /\
    successful_ids (write_trace reqs file)
      = map (fun k => Z.of_nat (length l) + Z.of_nat k) (seq 1 m).
Proof.
  induction reqs as [|q rest IH]; intros file l Hwf Hsafe Hl Hpos.
  - exists l, 0%nat. cbn. repeat split; auto.
  - inversion Hsafe as [|? ? Hq Hrest]; subst.
    cbn [write_all write_trace successful_ids].
    destruct (write_invoice_to_db (w_now q) (w_fault q) (w_data q) file)
      as [r file'] eqn:Hw.
    cbn [snd successful_ids].
    destruct (safe_write_cases q file r file' Hwf Hq Hw)
      as [(l0 & d & Hl0 & _ & Hid & Hfile & Hwf')|[Hid Hfile]].
    + rewrite Hl in Hl0. injection Hl0 as <-.
      assert (Hl' : stored_records file'
                    = Some (l ++ [stored_record (w_now q) (length l) d])%list)
        by (rewrite Hfile; reflexivity).
      destruct (IH file' _ Hwf' Hrest Hl'
                  (ids_are_positions_snoc l (w_now q) d Hpos))
        as (l' & m & Hfinal & Hpos' & Hlen & Hids).
      exists l', (S m). rewrite Hid, Hids.
      rewrite length_app in Hlen. cbn [length] in Hlen.
      split; [exact Hfinal|]. split; [exact Hpos'|]. split; [lia|].
      cbn [seq map].
      replace (Z.of_nat (length l) + Z.of_nat 1) with (Z.of_nat (length l) + 1)
        by lia.
      apply (f_equal (cons _)).
      rewrite <- (seq_shift m 1), map_map. apply map_ext. intros k.
      rewrite length_app. cbn [length]. lia.
    + subst file'. rewrite Hid.
      exact (IH file l Hwf Hrest Hl Hpos).
Qed.

(** An instance: a new database file ([_ensure_db_exists] on a missing
    file) and the three calls of which the second is refused. *)
Lemma stored_ids_stay_positions_witness :
  store_wf (snd (_ensure_db_exists NoFault FileMissing)) = true /\
  Forall (fun q => rewrite_safe q = true) writes_with_refused_open /\
  stored_records (snd (_ensure_db_exists NoFault FileMissing)) = Some [] /\
  ids_are_positions [] /\
  exists l' m,
    stored_records
      (write_all writes_with_refused_open
         (snd (_ensure_db_exists NoFault FileMissing))) = Some l' /\
    ids_are_positions l' /\
    length l' = (length (@nil pyvalue) + m)%nat /\
    successful_ids
      (write_trace writes_with_refused_open
         (snd (_ensure_db_exists NoFault FileMissing)))
      = map (fun k => Z.of_nat (length (@nil pyvalue)) + Z.of_nat k) (seq 1 m).
Proof.
  assert (Hsafe : Forall (fun q => rewrite_safe q = true)
                    writes_with_refused_open)
    by (repeat (constructor; [vm_compute; reflexivity|]); constructor).
  assert (Hpos : ids_are_positions []) by (intros i rec H; discriminate H).
  split; [reflexivity|]. split; [exact Hsafe|]. split; [reflexivity|].
  split; [exact Hpos|].
  exact (stored_ids_stay_positions writes_with_refused_open
           (snd (_ensure_db_exists NoFault FileMissing)) [] eq_refl Hsafe
           eq_refl Hpos).
Defined.

(** ** The validator: what it reads and what it returns *)

Lemma validate_agree L (d1 d2 : gmap string pyvalue) :
  d1 !! "biller_name" = d2 !! "biller_name" ->
  d1 !! "total_amount" = d2 !! "total_amount" ->
  d1 !! "due_date" = d2 !! "due_date" ->
  validate L (PDict d1) = validate L (PDict d2).
Proof.
  intros Hb Ha Hd.
  rewrite !validate_dict, !check_required_dict.
  unfold check_amount, check_due_date, py_getitem, is_missing.
  rewrite Hb, Ha, Hd. reflexivity.
Qed.

(** [validate] reads three keys only: adding, changing or removing any other
    entry of the dictionary (the address, an [error] marker, a field added
    by a person) changes nothing in what it returns. *)
Theorem validate_reads_three_fields L (d : gmap string pyvalue) key v :
  key ∉ validated_keys ->
  validate L (PDict (<[key := v]> d)) = validate L (PDict d) /\
  validate L (PDict (delete key d)) = validate L (PDict d).
Proof.
  intros Hkey. unfold validated_keys in Hkey.
  split; apply validate_agree.
  all: try (rewrite lookup_insert_ne; [reflexivity|]).
  all: try (rewrite lookup_delete_ne; [reflexivity|]).
  all: intros ->; apply Hkey; set_solver.
Qed.

(** An instance: the [error] marker of a failed extraction. *)
Lemma validate_reads_three_fields_witness :
  ("error" ∉ validated_keys) /\
  validate sample_lib (PDict (<["error" := PStr "timeout"]> acme_fields))
    = validate sample_lib (PDict acme_fields) /\
  validate sample_lib (PDict (delete "error" acme_fields))
    = validate sample_lib (PDict acme_fields).
Proof.
  assert (H : "error" ∉ validated_keys).
  { unfold validated_keys. intros Hin.
    repeat (apply elem_of_cons in Hin as [Hin|Hin]; [discriminate|]).
    inversion Hin. }
  split; [exact H|].
  exact (validate_reads_three_fields sample_lib acme_fields "error"
           (PStr "timeout") H).
Defined.

(** Status and errors of a verdict go together, for any input on which
    [validate] returns: either the status is "valid" and the list of errors
    is empty, or the status is "incomplete" and the list is not empty. So
    [decide] says to write exactly when [validate] found no error. *)
Theorem verdict_status_matches_errors L x v :
  validate L x = Ok v ->
  (v = Verdict (Some "valid") (Some []) \/
   exists e errs, v = Verdict (Some "incomplete") (Some (e :: errs))) /\
  (should_write (decide v x) = true <-> v_errors v = Some []).
Proof.
  unfold validate.
  destruct (check_required x required_fields []) as [e1|]; [|discriminate].
  cbn [bind].
  destruct (field_given x "total_amount") as [b1|]; [|discriminate].
  cbn [bind].
  destruct (if b1 then check_amount L x e1 else Ok e1) as [e2|];
    [|discriminate].
  cbn [bind].
  destruct (field_given x "due_date") as [b2|]; [|discriminate].
  cbn [bind].
  destruct (if b2 then check_due_date L x e2 else Ok e2) as [e3|];
    [|discriminate].
  cbn [bind]. intros H. injection H as <-.
  destruct e3 as [|e errs]; cbn.
  - split; [left; reflexivity|]. split; reflexivity.
  - split; [right; eauto|]. split; discriminate.
Qed.

(** An instance: the rejected fields. *)
Lemma verdict_status_matches_errors_witness :
  exists v,
    validate sample_lib (PDict rejected_fields) = Ok v /\
    (v = Verdict (Some "valid") (Some []) \/
     exists e errs, v = Verdict (Some "incomplete") (Some (e :: errs))) /\
    (should_write (decide v (PDict rejected_fields)) = true
     <-> v_errors v = Some []).
Proof.
  destruct (validate sample_lib (PDict rejected_fields)) as [v|e] eqn:Hv;
    [|vm_compute in Hv; discriminate].
  exists v. split; [reflexivity|].
  exact (verdict_status_matches_errors sample_lib (PDict rejected_fields) v Hv).
Defined.

(** [validate] needs a container: on [None], a boolean, a number or any
    other object the first test [field not in extracted_data] raises
    [TypeError], and no verdict is returned. *)
Theorem validate_raises_on_non_container L x :
  is_container x = false ->
  validate L x
  = Raise (Exn TypeError
             ("argument of type '" ++ type_name_of x ++ "' is not iterable")).
Proof. destruct x; intros H; try discriminate H; reflexivity. Qed.

(** An instance: the JSON value null. *)
Lemma validate_raises_on_non_container_witness :
  is_container PNone = false /\
  validate sample_lib PNone
  = Raise (Exn TypeError "argument of type 'NoneType' is not iterable").
Proof.
  split; [reflexivity|].
  exact (validate_raises_on_non_container sample_lib PNone eq_refl).
Defined.

(** A list is taken for a dictionary without the fields: when none of its
    elements is one of the three names, [validate] returns "incomplete"
    with the two missing-field messages (on a list that holds one of the
    names, indexing the list by that name raises instead). *)
Theorem validate_takes_a_list_as_empty L (l : list pyvalue) :
  names_no_field l = true ->
  validate L (PList l)
  = Ok (Verdict (Some "incomplete")
          (Some ["Missing required field: biller_name";
                 "Missing required field: total_amount"])).
Proof.
  intros Hl.
  assert (Hin : forall key, key ∈ validated_keys ->
                 py_in key (PList l) = Ok false).
  { intros key Hkey. cbn [py_in]. f_equal.
    apply not_true_is_false. intros Hex.
    apply existsb_exists in Hex as (x & Hx & Heq).
    unfold names_no_field in Hl.
    rewrite forallb_forall in Hl. specialize (Hl x Hx).
    destruct x; try discriminate.
    apply String.eqb_eq in Heq. subst s.
    apply negb_true_iff in Hl.
    assert (Hex : existsb (String.eqb key) validated_keys = true).
    { apply existsb_exists. exists key. split.
      - apply list_elem_of_In. exact Hkey.
      - apply String.eqb_refl. }
    congruence. }
  unfold validate, required_fields, field_given, field_missing.
  cbn [check_required]. unfold field_missing.
  rewrite !Hin by (unfold validated_keys; set_solver).
  reflexivity.
Qed.

(** An instance: the empty JSON array. *)
Lemma validate_takes_a_list_as_empty_witness :
  names_no_field [] = true /\
  validate sample_lib (PList [])
  = Ok (Verdict (Some "incomplete")
          (Some ["Missing required field: biller_name";
                 "Missing required field: total_amount"])).
Proof.
  split; [reflexivity|].
  exact (validate_takes_a_list_as_empty sample_lib [] eq_refl).
Defined.

(** A boolean total is a number for [validate]: [True] counts as 1.0 and
    passes, [False] counts as 0.0 and gets the message on the positive
    number; neither gets the message on the valid number. The other two
    rules are judged as usual. *)
Theorem validate_coerces_booleans L (d : gmap string pyvalue) (b : bool) :
  d !! "total_amount" = Some (PBool b) ->
  ordinary_date L d = true ->
  validate L (PDict d)
  = Ok (verdict_of
          (biller_name_violation d
             ++ (if b then [] else ["total_amount must be a positive number"])
             ++ due_date_violation L d)%list).
Proof.
  intros Hb Hdate.
  rewrite validate_ordinary; [|unfold ordinary_amount, is_missing, dict_get;
                               rewrite Hb; destruct b; reflexivity|exact Hdate].
  unfold violations, total_amount_violation, is_missing, dict_get.
  rewrite Hb. destruct b; reflexivity.
Qed.

(** An instance: a biller and the total [True]. *)
Lemma validate_coerces_booleans_witness :
  true_amount_fields !! "total_amount" = Some (PBool true) /\
  validate sample_lib (PDict true_amount_fields)
  = Ok (Verdict (Some "valid") (Some [])).
Proof.
  assert (H : true_amount_fields !! "total_amount" = Some (PBool true))
    by (vm_compute; reflexivity).
  split; [exact H|].
  rewrite (validate_coerces_booleans sample_lib true_amount_fields true H
             ltac:(vm_compute; reflexivity)).
  vm_compute. reflexivity.
Defined.

(** ** The field extractor: the paths through [extract] *)

Lemma append_nil_l (s : string) : "" ++ s = s.
Proof. reflexivity. Qed.

Lemma append_cons a (s t : string) : String a s ++ t = String a (s ++ t).
Proof. reflexivity. Qed.

Lemma find_char_ge c s : -1 <= find_char c s.
Proof.
  induction s as [|b s IH]; cbn [find_char]; [lia|].
  destruct (Ascii.eqb b c); [lia|].
  destruct (find_char c s <? 0); lia.
Qed.

Lemma rfind_char_ge c s : -1 <= rfind_char c s.
Proof.
  induction s as [|b s IH]; cbn [rfind_char]; [lia|].
  destruct (0 <=? rfind_char c s); [lia|].
  destruct (Ascii.eqb b c); lia.
Qed.

Lemma find_char_app c pre rest :
  find_char c pre = -1 ->
  find_char c (pre ++ String c rest) = Z.of_nat (String.length pre).
Proof.
  induction pre as [|a pre IH].
  - intros _. rewrite append_nil_l. cbn [find_char String.length].
    rewrite Ascii.eqb_refl. reflexivity.
  - rewrite append_cons. cbn [find_char String.length].
    destruct (Ascii.eqb a c); [discriminate|].
    pose proof (find_char_ge c pre) as Hge.
    destruct (find_char c pre <? 0) eqn:Hneg; [|lia].
    apply Z.ltb_lt in Hneg. intros _.
    rewrite IH by lia.
    destruct (Z.of_nat (String.length pre) <? 0) eqn:Hneg'; [|lia].
    apply Z.ltb_lt in Hneg'. lia.
Qed.

Lemma rfind_char_app c s post :
  rfind_char c post = -1 ->
  rfind_char c (s ++ String c post) = Z.of_nat (String.length s).
Proof.
  intros Hpost. induction s as [|a s IH].
  - rewrite append_nil_l. cbn [rfind_char String.length].
    rewrite Hpost. cbn. rewrite Ascii.eqb_refl. reflexivity.
  - rewrite append_cons. cbn [rfind_char String.length]. rewrite IH.
    destruct (0 <=? Z.of_nat (String.length s)) eqn:Hle; [lia|].
    apply Z.leb_gt in Hle. lia.
Qed.

Lemma substring_0_app_l (a b : string) n :
  String.substring 0 (String.length a + n) (a ++ b)
  = a ++ String.substring 0 n b.
Proof.
  induction a as [|c a IH]; [reflexivity|].
  rewrite !append_cons. cbn [String.length Nat.add String.substring].
  rewrite IH. reflexivity.
Qed.

Lemma substring_0_all (b : string) :
  String.substring 0 (String.length b) b = b.
Proof.
  induction b as [|c b IH]; [reflexivity|].
  cbn [String.length String.substring]. rewrite IH. reflexivity.
Qed.

Lemma substring_skip (a b : string) n :
  String.substring (String.length a) n (a ++ b) = String.substring 0 n b.
Proof.
  induction a as [|c a IH]; [reflexivity|].
  rewrite append_cons. cbn [String.length String.substring]. exact IH.
Qed.

Lemma substring_0_prefix (b post : string) :
  String.substring 0 (String.length b) (b ++ post) = b.
Proof.
  induction b as [|c b IH].
  - rewrite append_nil_l. destruct post; reflexivity.
  - rewrite append_cons. cbn [String.length String.substring].
    rewrite IH. reflexivity.
Qed.

(** The slice that covers the middle one of three pieces. *)
Lemma slice_middle (pre body post : string) :
  slice (Z.of_nat (String.length pre))
    (Z.of_nat (String.length pre) + Z.of_nat (String.length body))
    (pre ++ body ++ post) = body.
Proof.
  unfold slice.
  replace (Z.to_nat (Z.of_nat (String.length pre)
                     + Z.of_nat (String.length body)))
    with (String.length pre + String.length body)%nat by lia.
  replace (Z.to_nat (Z.of_nat (String.length pre)
                     + Z.of_nat (String.length body)
                     - Z.of_nat (String.length pre)))
    with (String.length body) by lia.
  rewrite Nat2Z.id, substring_0_app_l, substring_0_prefix, substring_skip.
  apply substring_0_all.
Qed.

Lemma length_append (a b : string) :
  String.length (a ++ b) = (String.length a + String.length b)%nat.
Proof.
  induction a as [|c a IH]; [reflexivity|].
  rewrite append_cons. cbn [String.length]. rewrite IH. reflexivity.
Qed.

Lemma append_assoc (a b c : string) : (a ++ b) ++ c = a ++ b ++ c.
Proof.
  induction a as [|x a IH]; [reflexivity|].
  rewrite !append_cons, IH. reflexivity.
Qed.

(** In a text made of a lead without opening brace, an object in braces and
    a tail without closing brace, the slice from the first opening brace to
    the last closing brace is the object. *)
Lemma brace_slice_of_wrapped (pre inner post t : string) :
  find_char "{" pre = -1 ->
  rfind_char "}" post = -1 ->
  t = pre ++ ("{" ++ inner ++ "}") ++ post ->
  (find_char "{" t = Z.of_nat (String.length pre)) /\
  (rfind_char "}" t + 1
   = Z.of_nat (String.length pre)
     + Z.of_nat (String.length ("{" ++ inner ++ "}"))) /\
  (brace_slice t = "{" ++ inner ++ "}").
Proof.
  intros Hpre Hpost Ht.
  assert (Hfind : find_char "{" t = Z.of_nat (String.length pre)).
  { rewrite Ht, append_cons, append_nil_l, append_cons.
    apply find_char_app. exact Hpre. }
  assert (Hrfind : rfind_char "}" t
                   = Z.of_nat (String.length (pre ++ "{" ++ inner))).
  { rewrite Ht.
    replace (pre ++ ("{" ++ inner ++ "}") ++ post)
      with ((pre ++ "{" ++ inner) ++ String "}" post).
    - apply rfind_char_app. exact Hpost.
    - rewrite !append_assoc. reflexivity. }
  assert (Hlen : rfind_char "}" t + 1
                 = Z.of_nat (String.length pre)
                   + Z.of_nat (String.length ("{" ++ inner ++ "}"))).
  { rewrite Hrfind, !length_append. cbn [String.length]. lia. }
  split; [exact Hfind|]. split; [exact Hlen|].
  unfold brace_slice. rewrite Hlen, Hfind, Ht. apply slice_middle.
Qed.

Lemma _parse_json_from_text_returns L text :
  exists v, _parse_json_from_text L text = Ok v.
Proof.
  destruct (_parse_json_from_text_cases L text)
    as [[err H]|(t & v & _ & _ & H)]; eauto.
Qed.

(** When the answer of the model is a text that [json.loads] refuses,
    [extract] returns what [_parse_json_from_text] makes of it. *)
Lemma extract_on_refused_text L Sv self (raw t : string) choices e :
  chat_create Sv (model self) primary_system_message (prompt_for self raw)
    = Ok (Some t :: choices) ->
  json_loads L t = Raise e ->
  isinstance e [JSONDecodeError] = true ->
  extract L Sv self (PStr raw) = _parse_json_from_text L (Some t).
Proof.
  intros Hp Hloads Hinst.
  unfold extract. cbn [bind]. fold (prompt_for self raw).
  rewrite Hp. cbn [bind first_content loads]. rewrite Hloads.
  cbn [try_except handle]. rewrite Hinst.
  destruct (_parse_json_from_text_returns L (Some t)) as [v Hv].
  rewrite Hv. reflexivity.
Qed.

(** An answer that wraps one JSON object in prose is still read: when the
    text before the object has no opening brace and the text after it no
    closing brace, [extract] returns what [json.loads] makes of the object
    alone. *)
Theorem extract_reads_json_wrapped_in_prose
    L Sv self (raw pre inner post : string) choices e v :
  chat_create Sv (model self) primary_system_message (prompt_for self raw)
    = Ok (Some (pre ++ ("{" ++ inner ++ "}") ++ post) :: choices) ->
  json_loads L (pre ++ ("{" ++ inner ++ "}") ++ post) = Raise e ->
  isinstance e [JSONDecodeError] = true ->
  find_char "{" pre = -1 ->
  rfind_char "}" post = -1 ->
  json_loads L ("{" ++ inner ++ "}") = Ok v ->
  extract L Sv self (PStr raw) = Ok v.
Proof.
  intros Hp Hloads Hinst Hpre Hpost Hv.
  rewrite (extract_on_refused_text L Sv self raw _ choices e Hp Hloads Hinst).
  destruct (brace_slice_of_wrapped pre inner post _ Hpre Hpost eq_refl)
    as (Hfind & Hend & Hslice).
  unfold brace_slice in Hslice.
  unfold _parse_json_from_text, parse_json_block.
  rewrite Hslice, Hfind, Hend, Hv.
  replace (negb (Z.of_nat (String.length pre) =? -1)) with true
    by (symmetry; apply negb_true_iff, Z.eqb_neq; lia).
  replace (Z.of_nat (String.length pre)
           + Z.of_nat (String.length ("{" ++ inner ++ "}"))
           >? Z.of_nat (String.length pre)) with true.
  - reflexivity.
  - symmetry. rewrite Z.gtb_ltb. apply Z.ltb_lt.
    rewrite append_cons. cbn [String.length]. lia.
Qed.

(** An instance: the empty object between two pieces of prose. *)
Lemma extract_reads_json_wrapped_in_prose_witness :
  chat_create (answering acme_ingestion ("Here it is: " ++ ("{" ++ "" ++ "}") ++ " Done."))
    (model sample_agent) primary_system_message
    (prompt_for sample_agent acme_text)
    = Ok [Some ("Here it is: " ++ ("{" ++ "" ++ "}") ++ " Done.")] /\
  json_loads sample_lib ("Here it is: " ++ ("{" ++ "" ++ "}") ++ " Done.")
    = Raise (Exn JSONDecodeError "Expecting value") /\
  isinstance (Exn JSONDecodeError "Expecting value") [JSONDecodeError] = true /\
  find_char "{" "Here it is: " = -1 /\
  rfind_char "}" " Done." = -1 /\
  json_loads sample_lib ("{" ++ "" ++ "}") = Ok (PDict ∅) /\
  extract sample_lib
    (answering acme_ingestion ("Here it is: " ++ ("{" ++ "" ++ "}") ++ " Done."))
    sample_agent (PStr acme_text) = Ok (PDict ∅).
Proof.
  assert (H2 : json_loads sample_lib
                 ("Here it is: " ++ ("{" ++ "" ++ "}") ++ " Done.")
               = Raise (Exn JSONDecodeError "Expecting value"))
    by (vm_compute; reflexivity).
  assert (H6 : json_loads sample_lib ("{" ++ "" ++ "}") = Ok (PDict ∅))
    by (vm_compute; reflexivity).
  split; [reflexivity|]. split; [exact H2|]. split; [reflexivity|].
  split; [reflexivity|]. split; [reflexivity|]. split; [exact H6|].
  exact (extract_reads_json_wrapped_in_prose sample_lib
           (answering acme_ingestion
              ("Here it is: " ++ ("{" ++ "" ++ "}") ++ " Done."))
           sample_agent acme_text "Here it is: " "" " Done." [] _ (PDict ∅)
           eq_refl H2 eq_refl eq_refl eq_refl H6).
Defined.

(** An answer that [json.loads] refuses and that holds no object to fall
    back on (no opening brace, no closing brace after it, or a slice that
    [json.loads] refuses as well) gives the all-null dictionary with the
    error "Failed to parse JSON". *)
Theorem extract_gives_null_fields_without_object
    L Sv self (raw t : string) choices e :
  chat_create Sv (model self) primary_system_message (prompt_for self raw)
    = Ok (Some t :: choices) ->
  json_loads L t = Raise e ->
  isinstance e [JSONDecodeError] = true ->
  find_char "{" t = -1 \/ rfind_char "}" t < find_char "{" t \/
    (exists e', json_loads L (brace_slice t) = Raise e') ->
  extract L Sv self (PStr raw) = Ok (null_fields "Failed to parse JSON").
Proof.
  intros Hp Hloads Hinst Hnone.
  rewrite (extract_on_refused_text L Sv self raw t choices e Hp Hloads Hinst).
  unfold _parse_json_from_text, parse_json_block.
  destruct (negb (find_char "{" t =? -1)
            && (rfind_char "}" t + 1 >? find_char "{" t)) eqn:Hcond.
  - apply andb_true_iff in Hcond as [Hstart Hend].
    apply negb_true_iff, Z.eqb_neq in Hstart.
    rewrite Z.gtb_ltb in Hend. apply Z.ltb_lt in Hend.
    destruct Hnone as [H|[H|[e' H]]]; [lia|lia|].
    unfold brace_slice in H. rewrite H.
    cbn [bind try_except handle]. rewrite isinstance_Exception. reflexivity.
  - reflexivity.
Qed.

(** An instance: an answer in plain words. *)
Lemma extract_gives_null_fields_without_object_witness :
  chat_create (answering acme_ingestion "I cannot read this invoice.")
    (model sample_agent) primary_system_message
    (prompt_for sample_agent acme_text)
    = Ok [Some "I cannot read this invoice."] /\
  json_loads sample_lib "I cannot read this invoice."
    = Raise (Exn JSONDecodeError "Expecting value") /\
  find_char "{" "I cannot read this invoice." = -1 /\
  extract sample_lib (answering acme_ingestion "I cannot read this invoice.")
    sample_agent (PStr acme_text) = Ok (null_fields "Failed to parse JSON").
Proof.
  assert (H2 : json_loads sample_lib "I cannot read this invoice."
               = Raise (Exn JSONDecodeError "Expecting value"))
    by (vm_compute; reflexivity).
  split; [reflexivity|]. split; [exact H2|]. split; [reflexivity|].
  exact (extract_gives_null_fields_without_object sample_lib
           (answering acme_ingestion "I cannot read this invoice.")
           sample_agent acme_text _ [] _ eq_refl H2 eq_refl
           (or_introl eq_refl)).
Defined.

(** A failed call to the model is not raised to the caller: unless the
    message speaks of error 402 or of credits, [extract] returns the all-null
    dictionary with the message of the exception under "error". *)
Theorem extract_reports_a_failed_call L Sv self (raw : string) e :
  chat_create Sv (model self) primary_system_message (prompt_for self raw)
    = Raise e ->
  isinstance e [JSONDecodeError] = false ->
  contains "402" (exn_msg e) = false ->
  contains "credits" (lower (exn_msg e)) = false ->
  extract L Sv self (PStr raw) = Ok (null_fields (exn_msg e)).
Proof.
  intros Hp Hinst H402 Hcredits.
  unfold extract. cbn [bind]. fold (prompt_for self raw).
  rewrite Hp. cbn [bind try_except handle].
  rewrite Hinst, isinstance_Exception, H402, Hcredits. reflexivity.
Qed.

(** An instance: the service cannot be reached. *)
Lemma extract_reports_a_failed_call_witness :
  chat_create
    (Services (fun _ => Ok acme_ingestion)
       (fun _ _ _ => raise OtherError "Connection error."))
    (model sample_agent) primary_system_message
    (prompt_for sample_agent acme_text)
    = Raise (Exn OtherError "Connection error.") /\
  extract sample_lib
    (Services (fun _ => Ok acme_ingestion)
       (fun _ _ _ => raise OtherError "Connection error."))
    sample_agent (PStr acme_text) = Ok (null_fields "Connection error.").
Proof.
  split; [reflexivity|].
  exact (extract_reports_a_failed_call sample_lib
           (Services (fun _ => Ok acme_ingestion)
              (fun _ _ _ => raise OtherError "Connection error."))
           sample_agent acme_text (Exn OtherError "Connection error.")
           eq_refl eq_refl eq_refl eq_refl).
Defined.

(** When the call fails with a message that speaks of error 402 or of
    credits (in any case of the letters), [extract] prints a notice and
    then asks the model "openai/gpt-4o-mini" with the same prompt. When the
    notice cannot be printed (the output stream cannot encode its warning
    sign), the second model is not asked: the result is the all-null
    dictionary whose error is "Fallback failed: " and the message of
    [print]. When the notice is printed, what the second model answers
    decides the result: the value that [json.loads] reads from its first
    choice, or else the all-null dictionary whose error starts with
    "Fallback failed: ". *)
Theorem extract_retries_on_credit_errors L Sv self (raw : string) e :
  chat_create Sv (model self) primary_system_message (prompt_for self raw)
    = Raise e ->
  isinstance e [JSONDecodeError] = false ->
  contains "402" (exn_msg e) || contains "credits" (lower (exn_msg e)) = true ->
  (forall ex,
     print_notice L = Raise ex ->
     extract L Sv self (PStr raw)
       = Ok (null_fields ("Fallback failed: " ++ exn_msg ex))) /\
  (forall u,
     print_notice L = Ok u ->
     (forall t choices v,
        chat_create Sv "openai/gpt-4o-mini" fallback_system_message
          (prompt_for self raw) = Ok (Some t :: choices) ->
        json_loads L t = Ok v ->
        extract L Sv self (PStr raw) = Ok v) /\
     (forall t choices ex,
        chat_create Sv "openai/gpt-4o-mini" fallback_system_message
          (prompt_for self raw) = Ok (Some t :: choices) ->
        json_loads L t = Raise ex ->
        extract L Sv self (PStr raw)
          = Ok (null_fields ("Fallback failed: " ++ exn_msg ex))) /\
     (forall ex,
        chat_create Sv "openai/gpt-4o-mini" fallback_system_message
          (prompt_for self raw) = Raise ex ->
        extract L Sv self (PStr raw)
          = Ok (null_fields ("Fallback failed: " ++ exn_msg ex)))).
Proof.
  intros Hp Hinst Hcredits.
  assert (Hx : extract L Sv self (PStr raw)
    = try_except
        (do* print_notice L in
         let* choices :=
           chat_create Sv "openai/gpt-4o-mini" fallback_system_message
             (prompt_for self raw) in
         let* result_text := first_content choices in
         loads L result_text)
        [([Exception], fun ex =>
            Ok (null_fields ("Fallback failed: " ++ exn_msg ex)))]).
  { unfold extract. cbn [bind]. fold (prompt_for self raw).
    rewrite Hp. cbn [bind try_except handle].
    rewrite Hinst, isinstance_Exception, Hcredits. reflexivity. }
  rewrite Hx. split.
  - intros ex ->. cbn [bind try_except handle]. rewrite isinstance_Exception.
    reflexivity.
  - intros u ->. cbn [bind]. repeat split.
    + intros t choices v -> Hv. cbn [bind first_content loads].
      rewrite Hv. reflexivity.
    + intros t choices ex -> Hex. cbn [bind first_content loads].
      rewrite Hex. cbn [try_except handle]. rewrite isinstance_Exception.
      reflexivity.
    + intros ex ->. cbn [bind try_except handle].
      rewrite isinstance_Exception. reflexivity.
Qed.

(** An instance: the main model is out of credits. Where the notice can be
    printed, the other model answers with the Acme fields; on an output
    stream in the encoding cp1252 the notice cannot be printed, and the
    other model is not asked. *)
Lemma extract_retries_on_credit_errors_witness :
  chat_create out_of_credits (model sample_agent) primary_system_message
    (prompt_for sample_agent acme_text)
    = Raise (Exn OtherError "Error code: 402 - Insufficient credits") /\
  extract sample_lib out_of_credits sample_agent (PStr acme_text)
    = Ok (PDict acme_fields) /\
  extract cp1252_lib out_of_credits sample_agent (PStr acme_text)
    = Ok (null_fields
            "Fallback failed: 'charmap' codec can't encode characters in position 0-1: character maps to <undefined>").
Proof.
  assert (Hv : json_loads sample_lib acme_json = Ok (PDict acme_fields))
    by (vm_compute; reflexivity).
  split; [reflexivity|]. split.
  - exact (proj1 (proj2 (extract_retries_on_credit_errors sample_lib
                           out_of_credits sample_agent acme_text
                           (Exn OtherError
                              "Error code: 402 - Insufficient credits")
                           eq_refl eq_refl eq_refl) tt eq_refl)
             acme_json [] (PDict acme_fields) eq_refl Hv).
  - exact (proj1 (extract_retries_on_credit_errors cp1252_lib
                    out_of_credits sample_agent acme_text
                    (Exn OtherError "Error code: 402 - Insufficient credits")
                    eq_refl eq_refl eq_refl)
             (Exn UnicodeEncodeError
                "'charmap' codec can't encode characters in position 0-1: character maps to <undefined>")
             eq_refl).
Defined.

(** ** The orchestrator: the ways a run ends *)

(** The five ways through [process_invoice]: the document agent raised, the
    ingested text is not a string, the text is blank, the validator raised,
    or the five stages ran. *)
Lemma process_invoice_cases L Sv self now fault path file :
  (exists e,
     document_process Sv path = Raise e /\
     process_invoice L Sv self now fault path file
     = (PipelineResults (system_prompt self) (steps_ingestion_raised path)
          (Some "error") (Some (exn_msg e)), file)) \/
  (exists ing e,
     document_process Sv path = Ok ing /\
     strip_receiver (dict_get ing "raw_text" (PStr "")) = Raise e /\
     process_invoice L Sv self now fault path file
     = (PipelineResults (system_prompt self) (steps_text_unusable path ing)
          (Some "error") (Some (exn_msg e)), file)) \/
  (exists ing text,
     document_process Sv path = Ok ing /\
     dict_get ing "raw_text" (PStr "") = PStr text /\
     truthy_str (strip text) = false /\
     process_invoice L Sv self now fault path file
     = (PipelineResults (system_prompt self) (steps_text_blank path ing)
          None None, file)) \/
  (exists ing text extracted e,
     document_process Sv path = Ok ing /\
     dict_get ing "raw_text" (PStr "") = PStr text /\
     truthy_str (strip text) = true /\
     extract L Sv (extraction_agent self) (PStr text) = Ok extracted /\
     validate L extracted = Raise e /\
     process_invoice L Sv self now fault path file
     = (PipelineResults (system_prompt self)
          (steps_validation_raised path ing text extracted)
          (Some "error") (Some (exn_msg e)), file)) \/
  (exists ing text extracted v status db_step file',
     document_process Sv path = Ok ing /\
     dict_get ing "raw_text" (PStr "") = PStr text /\
     truthy_str (strip text) = true /\
     extract L Sv (extraction_agent self) (PStr text) = Ok extracted /\
     validate L extracted = Ok v /\
     v_status v = Some status /\
     process_invoice L Sv self now fault path file
     = (PipelineResults (system_prompt self)
          (full_run_steps path ing text status extracted v db_step)
          (Some (if verdict_is_valid v then "success" else "incomplete"))
          None, file') /\
     (if verdict_is_valid v
      then exists r,
             write_invoice_to_db now fault extracted file = (Ok r, file') /\
             db_step = written_step extracted r
      else file' = file /\
           db_step = skipped_step (reason (decide v extracted)))).
Proof.
  destruct (document_process Sv path) as [ing|e] eqn:Hdoc.
  2:{ left. exists e. split; [reflexivity|].
      unfold process_invoice, process_invoice_try.
      run_pipeline. rewrite Hdoc. run_pipeline.
      unfold set_step, set_error, set_overall_status. cbn.
      rewrite insert_empty. reflexivity. }
  right.
  destruct (dict_get ing "raw_text" (PStr "")) as [| | | |text| | |] eqn:Hraw.
  5:{ right.
      destruct (truthy_str (strip text)) eqn:Htext.
      - right.
        destruct (extract_cases L Sv (extraction_agent self) text)
          as (extracted & Hextract & _).
        destruct (validate L extracted) as [v|e] eqn:Hvalidate.
        + right.
          assert (Hstatus : exists status, v_status v = Some status).
          { destruct (validate_status L extracted v Hvalidate); eauto. }
          destruct Hstatus as [status Hstatus].
          destruct (decide_fields v extracted) as [_ Hwrite].
          destruct (verdict_is_valid v) eqn:Hvalid.
          * destruct (write_invoice_to_db_returns now fault extracted file)
              as (r & file' & Hdb).
            pose proof (full_run_written L Sv self now fault path file ing
                          text status extracted v Hdoc Hraw Htext Hextract
                          Hvalidate Hstatus r file' Hwrite Hdb) as Hrun.
            exists ing, text, extracted, v, status,
              (written_step extracted r), file'.
            rewrite Hvalid in *.
            repeat split; eauto.
          * pose proof (full_run_skipped L Sv self now fault path file ing
                          text status extracted v Hdoc Hraw Htext Hextract
                          Hvalidate Hstatus Hwrite) as Hrun.
            exists ing, text, extracted, v, status,
              (skipped_step (reason (decide v extracted))), file.
            rewrite Hvalid in *.
            repeat split; eauto.
        + left. exists ing, text, extracted, e.
          repeat split; auto.
          unfold process_invoice, process_invoice_try.
          run_pipeline. rewrite Hdoc. run_pipeline. rewrite Hraw.
          run_pipeline. rewrite Htext. cbn [negb]. run_pipeline.
          rewrite Hextract. run_pipeline. rewrite Hvalidate. run_pipeline.
          reflexivity.
      - left. exists ing, text. repeat split; auto.
        unfold process_invoice, process_invoice_try.
        run_pipeline. rewrite Hdoc. run_pipeline. rewrite Hraw.
        run_pipeline. rewrite Htext. cbn [negb]. run_pipeline.
        unfold set_step, steps_text_blank. cbn. rewrite insert_empty.
        reflexivity. }
  all: left; exists ing; eexists; split; [reflexivity|];
    split; [rewrite Hraw; reflexivity|].
  all: unfold process_invoice, process_invoice_try;
    run_pipeline; rewrite Hdoc; run_pipeline; rewrite Hraw; run_pipeline.
  all: unfold set_step, set_error, set_overall_status; cbn;
    rewrite insert_empty; reflexivity.
Qed.

Lemma validate_verdict_shape L x v :
  validate L x = Ok v ->
  (verdict_is_valid v = true /\ v = Verdict (Some "valid") (Some [])) \/
  (verdict_is_valid v = false /\
   exists e errs, v = Verdict (Some "incomplete") (Some (e :: errs))).
Proof.
  unfold validate.
  destruct (check_required x required_fields []) as [e1|]; [|discriminate].
  cbn [bind].
  destruct (field_given x "total_amount") as [b1|]; [|discriminate].
  cbn [bind].
  destruct (if b1 then check_amount L x e1 else Ok e1) as [e2|];
    [|discriminate].
  cbn [bind].
  destruct (field_given x "due_date") as [b2|]; [|discriminate].
  cbn [bind].
  destruct (if b2 then check_due_date L x e2 else Ok e2) as [e3|];
    [|discriminate].
  cbn [bind]. intros H. injection H as <-.
  destruct e3 as [|e errs]; cbn.
  - left. split; reflexivity.
  - right. split; [reflexivity|]. eauto.
Qed.

Lemma validate_non_container L x :
  is_container x = false ->
  validate L x
  = Raise (Exn TypeError
             ("argument of type '" ++ type_name_of x ++ "' is not iterable")).
Proof. destruct x; intros H; try discriminate H; reflexivity. Qed.

(** A call of [process_invoice] returns in one of three ways, whatever the
    document, the model and the state of the disk. (1) No overall status and
    no error: the text was blank, the only step is the ingestion, marked
    "error". (2) Overall status "error" with the message of an exception:
    the history stops at the stage that raised, and a stage that raised
    keeps the status "processing". (3) Overall status "success" or
    "incomplete" with the five steps: "incomplete" comes with a failed
    validation and a skipped write, "success" with a passed validation and a
    write that was made or refused by the disk. The database file changes
    in the third way only. *)
Theorem process_invoice_ends_in_one_of_three_ways
    L Sv self now fault path file :
  (pr_overall_status (fst (process_invoice L Sv self now fault path file))
     = None /\
   pr_error (fst (process_invoice L Sv self now fault path file)) = None /\
   step_statuses (fst (process_invoice L Sv self now fault path file))
     = {[ "document_ingestion" := "error" ]} /\
   snd (process_invoice L Sv self now fault path file) = file) \/
  (pr_overall_status (fst (process_invoice L Sv self now fault path file))
     = Some "error" /\
   (exists msg,
      pr_error (fst (process_invoice L Sv self now fault path file))
        = Some msg) /\
   (step_statuses (fst (process_invoice L Sv self now fault path file))
      = {[ "document_ingestion" := "processing" ]} \/
    step_statuses (fst (process_invoice L Sv self now fault path file))
      = {[ "document_ingestion" := "success" ]} \/
    step_statuses (fst (process_invoice L Sv self now fault path file))
      = <["validation" := "processing"]>
          (<["extraction" := "success"]>
             {[ "document_ingestion" := "success" ]})) /\
   snd (process_invoice L Sv self now fault path file) = file) \/
  (exists validation_status write_status,
     pr_error (fst (process_invoice L Sv self now fault path file)) = None /\
     step_statuses (fst (process_invoice L Sv self now fault path file))
       = <["database_write" := write_status]>
           (<["tool_decision" := "success"]>
              (<["validation" := validation_status]>
                 (<["extraction" := "success"]>
                    {[ "document_ingestion" := "success" ]}))) /\
     ((pr_overall_status (fst (process_invoice L Sv self now fault path file))
         = Some "success" /\
       validation_status = "success" /\
       (write_status = "success" \/ write_status = "error")) \/
      (pr_overall_status (fst (process_invoice L Sv self now fault path file))
         = Some "incomplete" /\
       validation_status = "failed" /\
       write_status = "skipped" /\
       snd (process_invoice L Sv self now fault path file) = file))).
Proof.
  destruct (process_invoice_cases L Sv self now fault path file)
    as [(e & _ & Hrun)
       |[(ing & e & _ & _ & Hrun)
        |[(ing & text & _ & _ & _ & Hrun)
         |[(ing & text & extracted & e & _ & _ & _ & _ & _ & Hrun)
          |(ing & text & extracted & v & status & db_step & file' & _ & _ & _
            & _ & _ & _ & Hrun & Hdb)]]]];
    rewrite Hrun; cbn [fst snd pr_overall_status pr_error];
    unfold step_statuses; cbn [pr_steps].
  - right. left. split; [reflexivity|]. split; [eauto|].
    split; [|reflexivity]. left.
    unfold steps_ingestion_raised. rewrite map_fmap_singleton. reflexivity.
  - right. left. split; [reflexivity|]. split; [eauto|].
    split; [|reflexivity]. right. left.
    unfold steps_text_unusable. rewrite map_fmap_singleton. reflexivity.
  - left. split; [reflexivity|]. split; [reflexivity|].
    split; [|reflexivity].
    unfold steps_text_blank. rewrite map_fmap_singleton. reflexivity.
  - right. left. split; [reflexivity|]. split; [eauto|].
    split; [|reflexivity]. right. right.
    unfold steps_validation_raised. rewrite !fmap_insert, fmap_empty.
    reflexivity.
  - right. right.
    exists (if verdict_is_valid v then "success" else "failed"),
      (s_status db_step).
    split; [reflexivity|].
    split.
    { unfold full_run_steps. rewrite !fmap_insert, fmap_empty. reflexivity. }
    destruct (verdict_is_valid v).
    + left. destruct Hdb as (r & _ & ->).
      split; [reflexivity|]. split; [reflexivity|].
      cbn. destruct (success r); auto.
    + right. destruct Hdb as (-> & ->). repeat split.
Qed.

(** The database file changes only after a valid verdict: when the file
    after a run differs from the file before, the document agent returned a
    text, the extractor returned fields on which [validate] answered "valid"
    with no error, and the file is the one that [write_invoice_to_db] left
    on these fields. *)
Theorem database_changes_only_after_a_valid_verdict
    L Sv self now fault path file :
  snd (process_invoice L Sv self now fault path file) <> file ->
  exists ing text extracted,
    document_process Sv path = Ok ing /\
    dict_get ing "raw_text" (PStr "") = PStr text /\
    extract L Sv (extraction_agent self) (PStr text) = Ok extracted /\
    validate L extracted = Ok (Verdict (Some "valid") (Some [])) /\
    snd (process_invoice L Sv self now fault path file)
    = snd (write_invoice_to_db now fault extracted file).
Proof.
  destruct (process_invoice_cases L Sv self now fault path file)
    as [(e & _ & Hrun)
       |[(ing & e & _ & _ & Hrun)
        |[(ing & text & _ & _ & _ & Hrun)
         |[(ing & text & extracted & e & _ & _ & _ & _ & _ & Hrun)
          |(ing & text & extracted & v & status & db_step & file' & Hdoc
            & Hraw & _ & Hextract & Hvalidate & _ & Hrun & Hdb)]]]];
    rewrite Hrun; cbn [snd]; intros Hchange; try contradiction.
  destruct (validate_verdict_shape L extracted v Hvalidate)
    as [[Hvalid ->]|[Hvalid _]]; rewrite Hvalid in Hdb.
  - destruct Hdb as (r & Hwrite & _).
    exists ing, text, extracted. rewrite Hwrite. auto.
  - destruct Hdb as [-> _]. contradiction.
Qed.

(** An instance: the run on the Acme invoice, which stores one record in an
    empty database. *)
Lemma database_changes_only_after_a_valid_verdict_witness :
  snd acme_run <> FileJson (PList []) /\
  exists ing text extracted,
    document_process (answering acme_ingestion acme_json) "invoice.png"
      = Ok ing /\
    dict_get ing "raw_text" (PStr "") = PStr text /\
    extract sample_lib (answering acme_ingestion acme_json)
      (extraction_agent sample_orchestrator) (PStr text) = Ok extracted /\
    validate sample_lib extracted = Ok (Verdict (Some "valid") (Some [])) /\
    snd acme_run
    = snd (write_invoice_to_db sample_now NoFault extracted
             (FileJson (PList []))).
Proof.
  assert (H : snd acme_run <> FileJson (PList [])).
  { vm_compute. intros Heq. discriminate Heq. }
  split; [exact H|].
  exact (database_changes_only_after_a_valid_verdict sample_lib
           (answering acme_ingestion acme_json) sample_orchestrator
           sample_now NoFault "invoice.png" (FileJson (PList [])) H).
Defined.

(** An answer of the model that is JSON but no object or array (null, a
    number, true) is returned by the extractor as it is, and stops the run
    in the validator: the overall status is "error", the error says that
    the value is not iterable, the validation step stays "processing", and
    nothing is written. *)
Theorem non_object_answer_ends_the_run_in_error
    L Sv self now fault path file ing text x :
  document_process Sv path = Ok ing ->
  dict_get ing "raw_text" (PStr "") = PStr text ->
  truthy_str (strip text) = true ->
  extract L Sv (extraction_agent self) (PStr text) = Ok x ->
  is_container x = false ->
  process_invoice L Sv self now fault path file
  = (PipelineResults (system_prompt self)
       (steps_validation_raised path ing text x)
       (Some "error")
       (Some ("argument of type '" ++ type_name_of x ++ "' is not iterable")),
     file).
Proof.
  intros Hdoc Hraw Htext Hextract Hx.
  unfold process_invoice, process_invoice_try.
  run_pipeline. rewrite Hdoc. run_pipeline. rewrite Hraw.
  run_pipeline. rewrite Htext. cbn [negb]. run_pipeline.
  rewrite Hextract. run_pipeline.
  rewrite (validate_non_container L x Hx). run_pipeline.
  reflexivity.
Qed.

(** An instance: the model answers null. *)
Lemma non_object_answer_ends_the_run_in_error_witness :
  extract null_answer_lib (answering acme_ingestion "null")
    (extraction_agent sample_orchestrator) (PStr acme_text) = Ok PNone /\
  process_invoice null_answer_lib (answering acme_ingestion "null")
    sample_orchestrator sample_now NoFault "invoice.png" one_record_file
  = (PipelineResults (system_prompt sample_orchestrator)
       (steps_validation_raised "invoice.png" acme_ingestion acme_text PNone)
       (Some "error")
       (Some "argument of type 'NoneType' is not iterable"),
     one_record_file).
Proof.
  assert (Hx : extract null_answer_lib (answering acme_ingestion "null")
                 (extraction_agent sample_orchestrator) (PStr acme_text)
               = Ok PNone) by (vm_compute; reflexivity).
  split; [exact Hx|].
  exact (non_object_answer_ends_the_run_in_error null_answer_lib
           (answering acme_ingestion "null") sample_orchestrator sample_now
           NoFault "invoice.png" one_record_file acme_ingestion acme_text
           PNone eq_refl ltac:(vm_compute; reflexivity) eq_refl Hx eq_refl).
Defined.

(** ** The review in app.py: what the form lets through *)

Lemma form_fields_lookup biller address total date :
  form_fields biller address total date !! "biller_name" = Some (PStr biller) /\
  form_fields biller address total date !! "total_amount" = Some total /\
  form_fields biller address total date !! "due_date" = Some (PStr date).
Proof.
  unfold form_fields. split; [|split].
  - apply lookup_insert_eq.
  - rewrite !lookup_insert_ne by discriminate. apply lookup_insert_eq.
  - rewrite !lookup_insert_ne by discriminate. apply lookup_insert_eq.
Qed.

(** The verdict on the fields of the form, for a total that is a float or
    an integer and a date on which the parser is ordinary. *)
Lemma validate_form_fields L biller address total date :
  is_none total = false ->
  match py_float L total with
  | Ok f => negb (is_nan f)
  | Raise e => isinstance e [ValueError; TypeError]
  end = true ->
  (forall e, dateutil_parse L (PStr date) = Raise e ->
             isinstance e [ValueError; TypeError] = true) ->
  validate L (PDict (form_fields biller address total date))
  = Ok (verdict_of
          (match py_float L total with
           | Ok f => if SFltb float_zero f then []
                     else ["total_amount must be a positive number"]
           | Raise _ => ["total_amount must be a valid number"]
           end ++ form_date_violation L date)%list).
Proof.
  intros Htotal Hamount Hdate.
  destruct (form_fields_lookup biller address total date) as (Hb & Ha & Hd).
  rewrite validate_ordinary.
  - unfold violations, biller_name_violation, total_amount_violation,
      due_date_violation, form_date_violation, is_missing, dict_get.
    rewrite Hb, Ha, Hd, Htotal. reflexivity.
  - unfold ordinary_amount, is_missing, dict_get. rewrite Ha, Htotal.
    exact Hamount.
  - unfold ordinary_date, is_missing, dict_get. rewrite Hd. cbn [is_none orb].
    destruct (dateutil_parse L (PStr date)) as [u|e] eqn:Hp; [reflexivity|].
    apply Hdate. reflexivity.
Qed.

(** With the total 0, an exception of the date parser that [_is_valid_date]
    does not catch leaves [validate]. *)
Lemma validate_form_fields_date_raises L biller address date e :
  dateutil_parse L (PStr date) = Raise e ->
  isinstance e [ValueError; TypeError] = false ->
  validate L (PDict (form_fields biller address (PInt 0) date)) = Raise e.
Proof.
  intros Hparse Hinst.
  destruct (form_fields_lookup biller address (PInt 0) date) as (Hb & Ha & Hd).
  rewrite validate_dict, check_required_dict.
  unfold is_missing. rewrite Hb, Ha, Hd. cbn [is_none negb bind app].
  unfold check_amount, check_due_date, _is_valid_date, py_getitem.
  rewrite Ha, Hd. cbn [bind].
  replace (py_float L (PInt 0)) with (@Ok spec_float float_zero)
    by reflexivity.
  cbn [bind try_except]. rewrite Hparse. cbn [bind try_except handle].
  rewrite Hinst. reflexivity.
Qed.

(** An approval with the total left empty (or showing the text None) is
    never stored, whatever the other three fields hold: the database file
    stays as it was. The total counts as 0. When the date parser returns,
    or raises [ValueError] or [TypeError], the verdict is "incomplete" with
    the message on the positive number first, the database tool is not
    called and the approval is marked complete. When the date parser
    raises another exception (an [OverflowError]), [validate] does not
    catch it and the handler raises it, with the session as it was. *)
Theorem approval_without_total_is_never_stored
    L now fault biller amount address date (ss : session_state)
    (file : db_file) :
  amount = "" \/ amount = "None" ->
  snd (snd (main_approve L now fault biller amount address date (ss, file)))
    = file /\
  ((forall e, dateutil_parse L (PStr date) = Raise e ->
              isinstance e [ValueError; TypeError] = true) ->
   main_approve L now fault biller amount address date (ss, file)
   = (Ok tt,
      (SessionState (ss_ingestion_result ss) (ss_extraction_result ss) true
         (Some (FinalResults
                  (Verdict (Some "incomplete")
                     (Some ("total_amount must be a positive number"
                              :: form_date_violation L date)))
                  (Decision false
                     ("Validation failed: "
                        ++ join ", "
                             ("total_amount must be a positive number"
                                :: form_date_violation L date))
                     PNone)
                  None)),
       file))) /\
  (forall e,
     dateutil_parse L (PStr date) = Raise e ->
     isinstance e [ValueError; TypeError] = false ->
     main_approve L now fault biller amount address date (ss, file)
     = (Raise e, (ss, file))).
Proof.
  intros Hamount.
  assert (Hdata : edited_data L biller amount address date
                  = Ok (PDict (form_fields biller address (PInt 0) date))).
  { destruct Hamount as [-> | ->]; reflexivity. }
  assert (Hcaught :
    (forall e, dateutil_parse L (PStr date) = Raise e ->
               isinstance e [ValueError; TypeError] = true) ->
    main_approve L now fault biller amount address date (ss, file)
    = (Ok tt,
       (SessionState (ss_ingestion_result ss) (ss_extraction_result ss) true
          (Some (FinalResults
                   (Verdict (Some "incomplete")
                      (Some ("total_amount must be a positive number"
                               :: form_date_violation L date)))
                   (Decision false
                      ("Validation failed: "
                         ++ join ", "
                              ("total_amount must be a positive number"
                                 :: form_date_violation L date))
                      PNone)
                   None)),
        file))).
  { intros Hdate.
    assert (Hval : validate L
                     (PDict (form_fields biller address (PInt 0) date))
                   = Ok (Verdict (Some "incomplete")
                           (Some ("total_amount must be a positive number"
                                    :: form_date_violation L date)))).
    { rewrite validate_form_fields; [reflexivity|reflexivity|reflexivity|].
      exact Hdate. }
    unfold main_approve, st_bind, st_lift, st_ret, on_session, on_ui_db,
      st_modify.
    rewrite Hdata, Hval. reflexivity. }
  assert (Hescapes :
    forall e,
      dateutil_parse L (PStr date) = Raise e ->
      isinstance e [ValueError; TypeError] = false ->
      main_approve L now fault biller amount address date (ss, file)
      = (Raise e, (ss, file))).
  { intros e Hparse Hinst.
    unfold main_approve, st_bind, st_lift.
    rewrite Hdata,
      (validate_form_fields_date_raises L biller address date e Hparse Hinst).
    reflexivity. }
  split; [|split; assumption].
  destruct (dateutil_parse L (PStr date)) as [u|e] eqn:Hparse.
  - rewrite Hcaught; [reflexivity|]. intros e He. discriminate He.
  - destruct (isinstance e [ValueError; TypeError]) eqn:Hinst.
    + rewrite Hcaught; [reflexivity|].
      intros e' He'. injection He' as <-. exact Hinst.
    + rewrite (Hescapes e eq_refl Hinst). reflexivity.
Qed.

(** An instance: the Acme fields with the total left empty. *)
Lemma approval_without_total_is_never_stored_witness :
  snd (snd (main_approve sample_lib sample_now NoFault "Acme Co." "" ""
              "2025-03-01"
              (SessionState None None false None, one_record_file)))
    = one_record_file /\
  main_approve sample_lib sample_now NoFault "Acme Co." "" "" "2025-03-01"
    (SessionState None None false None, one_record_file)
  = (Ok tt,
     (SessionState None None true
        (Some (FinalResults
                 (Verdict (Some "incomplete")
                    (Some ["total_amount must be a positive number"]))
                 (Decision false
                    "Validation failed: total_amount must be a positive number"
                    PNone)
                 None)),
      one_record_file)).
Proof.
  assert (Hdate : forall e,
            dateutil_parse sample_lib (PStr "2025-03-01") = Raise e ->
            isinstance e [ValueError; TypeError] = true).
  { intros e He. vm_compute in He. discriminate He. }
  destruct (approval_without_total_is_never_stored sample_lib sample_now
              NoFault "Acme Co." "" "" "2025-03-01"
              (SessionState None None false None) one_record_file
              (or_introl eq_refl)) as (Hfile & Hcaught & _).
  split; [exact Hfile|]. exact (Hcaught Hdate).
Defined.

(** A total that [float] cannot read makes the second handler raise
    [ValueError] before anything is validated: the session and the database
    file are left as they were. *)
Theorem approval_with_unreadable_total_raises
    L now fault biller amount address date (ss : session_state)
    (file : db_file) :
  truthy_str amount = true ->
  amount <> "None" ->
  float_of_str L amount = None ->
  exists e,
    exn_cls e = ValueError /\
    main_approve L now fault biller amount address date (ss, file)
    = (Raise e, (ss, file)).
Proof.
  intros Hgiven Hnone Hfloat.
  unfold main_approve, st_bind, st_lift, edited_data.
  rewrite Hgiven.
  destruct (String.eqb_spec amount "None") as [Heq|_]; [contradiction|].
  cbn [negb andb py_float bind]. rewrite Hfloat.
  eexists. split; [|reflexivity]. reflexivity.
Qed.

(** An instance: the total "12,50". *)
Lemma approval_with_unreadable_total_raises_witness :
  exists e,
    exn_cls e = ValueError /\
    main_approve sample_lib sample_now NoFault "Acme Co." "12,50" ""
      "2025-03-01" (SessionState None None false None, one_record_file)
    = (Raise e, (SessionState None None false None, one_record_file)).
Proof.
  assert (Hnone : "12,50" <> "None") by (intros H; discriminate H).
  exact (approval_with_unreadable_total_raises sample_lib sample_now NoFault
           "Acme Co." "12,50" "" "2025-03-01"
           (SessionState None None false None) one_record_file
           eq_refl Hnone eq_refl).
Defined.

(** The form takes any biller name, the empty one included: the texts of
    the form are never [None], so the rule on missing fields cannot fire,
    and an approval whose total reads as a positive number and whose date
    parses is handed to the database tool with the biller as typed. *)
Theorem approval_accepts_any_biller
    L now fault biller amount address date f u (ss : session_state)
    (file : db_file) :
  truthy_str amount = true ->
  amount <> "None" ->
  float_of_str L amount = Some f ->
  SFltb float_zero f = true ->
  dateutil_parse L (PStr date) = Ok u ->
  exists r file',
    write_invoice_to_db now fault
      (PDict (form_fields biller address (PFloat f) date)) file
    = (Ok r, file') /\
    main_approve L now fault biller amount address date (ss, file)
    = (Ok tt,
       (SessionState (ss_ingestion_result ss) (ss_extraction_result ss) true
          (Some (FinalResults
                   (Verdict (Some "valid") (Some []))
                   (Decision true "Invoice validation passed"
                      (PDict (form_fields biller address (PFloat f) date)))
                   (Some r))),
        file')).
Proof.
  intros Hgiven Hnone Hfloat Hpos Hdate.
  assert (Hnan : is_nan f = false) by (destruct f; try reflexivity; discriminate).
  assert (Hdata : edited_data L biller amount address date
                  = Ok (PDict (form_fields biller address (PFloat f) date))).
  { unfold edited_data. rewrite Hgiven.
    destruct (String.eqb_spec amount "None") as [Heq|_]; [contradiction|].
    cbn [negb andb py_float bind]. rewrite Hfloat. reflexivity. }
  assert (Hval : validate L
                   (PDict (form_fields biller address (PFloat f) date))
                 = Ok (Verdict (Some "valid") (Some []))).
  { rewrite validate_form_fields.
    - cbn [py_float]. rewrite Hpos. unfold form_date_violation.
      rewrite Hdate. reflexivity.
    - reflexivity.
    - cbn [py_float]. rewrite Hnan. reflexivity.
    - intros e He. rewrite Hdate in He. discriminate He. }
  destruct (write_invoice_to_db_returns now fault
              (PDict (form_fields biller address (PFloat f) date)) file)
    as (r & file' & Hdb).
  exists r, file'. split; [exact Hdb|].
  unfold main_approve, st_bind, st_lift, st_ret, on_session, on_ui_db,
    st_modify.
  rewrite Hdata, Hval. cbn [decide v_status default should_write
                            data_to_write fst snd].
  cbn. rewrite Hdb. reflexivity.
Qed.

(** An instance: an approval with the biller left empty. *)
Lemma approval_accepts_any_biller_witness :
  exists r file',
    write_invoice_to_db sample_now NoFault
      (PDict (form_fields "" "" (PFloat (float_of_Z 150)) "2025-03-01"))
      (FileJson (PList []))
    = (Ok r, file') /\
    main_approve sample_lib sample_now NoFault "" "150.00" "" "2025-03-01"
      (SessionState None None false None, FileJson (PList []))
    = (Ok tt,
       (SessionState None None true
          (Some (FinalResults
                   (Verdict (Some "valid") (Some []))
                   (Decision true "Invoice validation passed"
                      (PDict (form_fields "" ""
                                (PFloat (float_of_Z 150)) "2025-03-01")))
                   (Some r))),
        file')).
Proof.
  assert (Hnone : "150.00" <> "None") by (intros H; discriminate H).
  exact (approval_accepts_any_biller sample_lib sample_now NoFault
           "" "150.00" "" "2025-03-01" (float_of_Z 150) tt
           (SessionState None None false None) (FileJson (PList []))
           eq_refl Hnone eq_refl eq_refl eq_refl).
Defined.

(** The first handler calls the extractor on every text that is not empty,
    also on one made of white space only, and keeps both results in the
    session; on such a blank text [process_invoice] stops after the
    ingestion and never calls the extractor. *)
Theorem main_analyze_extracts_from_any_nonempty_text
    L Sv self now fault path ing text (ss : session_state) (file : db_file) :
  document_process Sv path = Ok ing ->
  ing !! "raw_text" = Some (PStr text) ->
  text <> "" ->
  (exists x,
     extract L Sv (extraction_agent self) (PStr text) = Ok x /\
     main_analyze L Sv self path (ss, file)
     = (Ok tt,
        (SessionState (Some ing) (Some x) false (ss_final_results ss), file))) /\
  (truthy_str (strip text) = false ->
   process_invoice L Sv self now fault path file
   = (PipelineResults (system_prompt self) (steps_text_blank path ing)
        None None, file)).
Proof.
  intros Hdoc Hraw Htext.
  assert (Htruthy : truthy_str text = true).
  { destruct text; [contradiction|reflexivity]. }
  split.
  - destruct (extract_cases L Sv (extraction_agent self) text)
      as (x & Hx & _).
    exists x. split; [exact Hx|].
    unfold main_analyze, st_bind, st_lift, st_ret, on_session, st_modify,
      dict_get, py_getitem.
    rewrite Hdoc, Hraw. cbn [py_truthy fst snd]. rewrite Htruthy, Hx.
    reflexivity.
  - intros Hblank.
    unfold process_invoice, process_invoice_try.
    run_pipeline. rewrite Hdoc. run_pipeline.
    unfold dict_get. rewrite Hraw. run_pipeline.
    rewrite Hblank. cbn [negb]. run_pipeline.
    unfold set_step, steps_text_blank. cbn. rewrite insert_empty.
    reflexivity.
Qed.

(** An instance: a scan on which the OCR engine finds three spaces. *)
Lemma main_analyze_extracts_from_any_nonempty_text_witness :
  main_analyze sample_lib (answering blank_ingestion "{}")
    sample_orchestrator "scan.png"
    (SessionState None None true None, one_record_file)
  = (Ok tt,
     (SessionState (Some blank_ingestion) (Some (PDict ∅)) false None,
      one_record_file)) /\
  pr_steps (fst (process_invoice sample_lib (answering blank_ingestion "{}")
                   sample_orchestrator sample_now NoFault "scan.png"
                   one_record_file))
  = steps_text_blank "scan.png" blank_ingestion.
Proof.
  assert (Hraw : blank_ingestion !! "raw_text" = Some (PStr "   "))
    by (vm_compute; reflexivity).
  assert (Htext : "   " <> "") by (intros H; discriminate H).
  destruct (main_analyze_extracts_from_any_nonempty_text sample_lib
              (answering blank_ingestion "{}") sample_orchestrator sample_now
              NoFault "scan.png" blank_ingestion "   "
              (SessionState None None true None) one_record_file
              eq_refl Hraw Htext) as [(x & Hx & Hrun) Hblank].
  split.
  - rewrite Hrun. vm_compute in Hx. injection Hx as <-. reflexivity.
  - rewrite (Hblank eq_refl). reflexivity.
Defined.

(** ** The document agent *)

Lemma all_space_lstrip s : all_space (lstrip s) = all_space s.
Proof.
  induction s as [|c s IH]; [reflexivity|].
  cbn [lstrip all_space].
  destruct (py_isspace c) eqn:Hc; cbn [andb].
  - exact IH.
  - cbn [all_space]. rewrite Hc. reflexivity.
Qed.

Lemma truthy_rstrip s : truthy_str (rstrip s) = negb (all_space s).
Proof.
  induction s as [|c s IH]; [reflexivity|].
  cbn [rstrip all_space].
  destruct (rstrip s) as [|c' r] eqn:Hr; cbn [truthy_str] in IH.
  - apply (f_equal negb) in IH. rewrite negb_involutive in IH. cbn in IH.
    rewrite <- IH, andb_true_r.
    destruct (py_isspace c); reflexivity.
  - apply (f_equal negb) in IH. rewrite negb_involutive in IH. cbn in IH.
    rewrite <- IH, andb_false_r. reflexivity.
Qed.

(** A text passes the test [text.strip()] when one of its characters is not
    white space. *)
Lemma truthy_strip s : truthy_str (strip s) = negb (all_space s).
Proof. unfold strip. rewrite truthy_rstrip. f_equal. apply all_space_lstrip. Qed.

Lemma all_space_app (a b : string) :
  all_space (a ++ b) = all_space a && all_space b.
Proof.
  induction a as [|c a IH]; [rewrite append_nil_l; reflexivity|].
  rewrite append_cons. cbn [all_space]. rewrite IH, andb_assoc. reflexivity.
Qed.

Lemma has_text_app_l (a b : string) :
  all_space a = false -> truthy_str (strip (a ++ b)) = true.
Proof.
  intros Ha. rewrite truthy_strip, all_space_app, Ha. reflexivity.
Qed.

Lemma has_text_app_r (a b : string) :
  truthy_str (strip b) = true -> truthy_str (strip (a ++ b)) = true.
Proof.
  rewrite !truthy_strip, all_space_app. intros Hb.
  apply negb_true_iff in Hb. rewrite Hb, andb_false_r. reflexivity.
Qed.

Lemma tesseract_missing_message_has_text W self what :
  truthy_str (strip (tesseract_missing_message W self what)) = true.
Proof.
  unfold tesseract_missing_message.
  apply has_text_app_r, has_text_app_l. reflexivity.
Qed.

Lemma no_engine_message_has_text W self :
  truthy_str (strip (no_engine_message W self)) = true.
Proof.
  unfold no_engine_message.
  apply has_text_app_r, has_text_app_l. reflexivity.
Qed.

Lemma tesseract_image_block_has_text W self img text :
  tesseract_image_block W self img = Some text ->
  truthy_str (strip text) = true.
Proof.
  unfold tesseract_image_block.
  destruct (image_to_string W img "ara+eng") as [t|msg|e].
  - destruct (truthy_str (strip t)) eqn:Ht; [|discriminate].
    intros H. injection H as <-. exact Ht.
  - intros H. injection H as <-. apply tesseract_missing_message_has_text.
  - destruct (contains "ara" (lower (exn_msg e))
              || contains "language" (lower (exn_msg e))).
    + destruct (image_to_string W img "eng") as [t|msg2|e2];
        intros H; injection H as <-.
      * apply has_text_app_r, has_text_app_r, has_text_app_r. reflexivity.
      * apply has_text_app_l. reflexivity.
      * apply has_text_app_l. reflexivity.
    + intros H. injection H as <-. apply has_text_app_l. reflexivity.
Qed.

(** [_extract_from_image] returns, and with a text that is not blank. *)
Lemma _extract_from_image_has_text W self file_path :
  exists text,
    _extract_from_image W self file_path = Ok text /\
    truthy_str (strip text) = true.
Proof.
  unfold _extract_from_image.
  destruct (image_open W file_path) as [img|e]; cbn [bind try_except handle].
  2:{ rewrite isinstance_Exception. eexists. split; [reflexivity|].
      destruct (negb (tesseract_available self)
                && negb (use_easyocr self && easyocr_reader self)).
      - rewrite append_assoc. apply has_text_app_l. reflexivity.
      - apply has_text_app_l. reflexivity. }
  assert (Htess : exists text,
    (if negb (tesseract_available self)
     then Ok (tesseract_missing_message W self "images")
     else match tesseract_image_block W self img with
          | Some text => Ok text
          | None => Ok "[No text extracted from image]"
          end) = Ok text /\ truthy_str (strip text) = true).
  { destruct (negb (tesseract_available self)).
    - eexists. split; [reflexivity|].
      apply tesseract_missing_message_has_text.
    - destruct (tesseract_image_block W self img) as [text|] eqn:Hblock.
      + exists text. split; [reflexivity|].
        apply (tesseract_image_block_has_text W self img text Hblock).
      + eexists. split; [reflexivity|]. reflexivity. }
  destruct Htess as (tess_text & Htess & Htess_text).
  unfold easyocr_image_block.
  destruct (use_easyocr self && easyocr_reader self); cbn [bind].
  - destruct (readtext_file W file_path) as [text_parts|e];
      cbn [bind try_except handle].
    + destruct (truthy_str (strip (join nl text_parts))) eqn:Hjoin;
        cbn [try_except].
      * eexists. split; [reflexivity|]. exact Hjoin.
      * eexists. split; [reflexivity|]. reflexivity.
    + rewrite isinstance_Exception.
      destruct (negb (tesseract_available self)) eqn:Havail; cbn [bind].
      * cbn [try_except]. eexists. split; [reflexivity|].
        apply has_text_app_l. reflexivity.
      * rewrite Htess. cbn [try_except]. eauto.
  - rewrite Htess. cbn [try_except]. eauto.
Qed.

Lemma ocr_page_returns W self page_num page :
  exists ended, ocr_page W self page_num page = Ok ended.
Proof.
  unfold ocr_page.
  destruct (page_image page) as [img|e]; cbn [bind try_except handle].
  2:{ rewrite isinstance_Exception. eauto. }
  assert (Htess : exists ended,
    (if negb (tesseract_available self) then Ok Continue
     else match image_to_string W img "ara+eng" with
          | TessText text => Ok (Append text)
          | TessNotFound _ =>
              Ok (Return (tesseract_missing_message W self "PDFs"))
          | TessError e =>
              match image_to_string W img "eng" with
              | TessText text => Ok (Append text)
              | _ => Ok (Append ("[Page " ++ str_of_nat page_num
                                   ++ " OCR Error: " ++ exn_msg e ++ "]"))
              end
          end) = Ok ended).
  { destruct (negb (tesseract_available self)); [eauto|].
    destruct (image_to_string W img "ara+eng") as [t|msg|e]; eauto.
    destruct (image_to_string W img "eng"); eauto. }
  destruct Htess as (ended & Htess).
  destruct (use_easyocr self && easyocr_reader self); cbn [bind].
  - destruct (readtext_image W img) as [results|e];
      cbn [bind try_except handle].
    + eauto.
    + rewrite isinstance_Exception.
      destruct (negb (tesseract_available self)) eqn:Havail; cbn [bind].
      * cbn [try_except]. eauto.
      * rewrite Htess. cbn [try_except]. eauto.
  - rewrite Htess. cbn [try_except]. eauto.
Qed.

Lemma ocr_pages_returns W self pages : forall page_num text_parts,
  exists looped, ocr_pages W self page_num pages text_parts = Ok looped.
Proof.
  induction pages as [|page rest IH]; intros page_num text_parts;
    cbn [ocr_pages].
  - eauto.
  - destruct (ocr_page_returns W self page_num page) as (ended & ->).
    cbn [bind]. destruct ended; eauto.
Qed.

Lemma _ocr_pdf_returns W self file_path :
  exists text, _ocr_pdf W self file_path = Ok text.
Proof.
  unfold _ocr_pdf.
  destruct (fitz_open W file_path) as [doc|e]; cbn [bind try_except handle].
  - destruct (ocr_pages_returns W self doc 0%nat []) as (looped & ->).
    cbn [bind]. destruct looped as [text|text_parts].
    + eauto.
    + destruct (negb (length text_parts =? 0)%nat); cbn [try_except]; eauto.
  - rewrite isinstance_Exception. eauto.
Qed.

Lemma _extract_from_pdf_returns W self file_path :
  exists text, _extract_from_pdf W self file_path = Ok text.
Proof.
  destruct (_ocr_pdf_returns W self file_path) as (ocr_text & Hocr).
  assert (Hfallback : exists text,
    (let* returned :=
       try_except
         (let* pages := pypdf2_pages W file_path in
          let* text_parts := nonblank_texts pages [] in
          let extracted_text := join nl text_parts in
          if truthy_str (strip extracted_text)
          then Ok (Some extracted_text)
          else Ok None)
         [([Exception], fun _ => Ok None)] in
     match returned with
     | Some text => Ok text
     | None => _ocr_pdf W self file_path
     end) = Ok text).
  { destruct (pypdf2_pages W file_path) as [pages|e];
      cbn [bind try_except handle].
    - destruct (nonblank_texts pages []) as [text_parts|e];
        cbn [bind try_except handle].
      + destruct (truthy_str (strip (join nl text_parts)));
          cbn [try_except bind]; eauto.
      + rewrite isinstance_Exception. cbn [bind]. eauto.
    - rewrite isinstance_Exception. cbn [bind]. eauto. }
  destruct Hfallback as (fallback_text & Hfallback).
  unfold _extract_from_pdf.
  destruct (fitz_open W file_path) as [doc|e]; cbn [bind try_except handle].
  - destruct (nonblank_texts (map get_text doc) []) as [text_parts|e];
      cbn [bind try_except handle].
    + destruct (negb (truthy_str (strip (join nl text_parts)))).
      * rewrite Hocr. cbn [try_except]. eauto.
      * cbn [try_except]. eauto.
    + rewrite isinstance_Exception. eauto.
  - rewrite isinstance_Exception. eauto.
Qed.

(** [process] always returns, whatever the file and the libraries do: every
    exception of a reader or of an OCR engine is turned into a text. The
    result holds the three keys, the source type is "pdf" exactly when the
    suffix of the path is [.pdf] in some case of the letters, and for any
    other suffix the text is not blank: where no text could be read, the
    text is a message on what went wrong. *)
Theorem process_returns_a_text_for_every_file
    W self (document_id file_path : string) :
  exists raw_text,
    process W self document_id file_path
    = Ok (ingestion_of document_id raw_text
            (if String.eqb (lower (path_suffix W file_path)) ".pdf"
             then "pdf" else "image")) /\
    (String.eqb (lower (path_suffix W file_path)) ".pdf" = false ->
     truthy_str (strip raw_text) = true).
Proof.
  unfold process.
  destruct (String.eqb (lower (path_suffix W file_path)) ".pdf").
  - destruct (_extract_from_pdf_returns W self file_path) as (text & ->).
    exists text. split; [reflexivity|]. discriminate.
  - destruct (_extract_from_image_has_text W self file_path)
      as (text & -> & Htext).
    exists text. split; [reflexivity|]. intros _. exact Htext.
Qed.

Lemma process_image W self document_id file_path :
  String.eqb (lower (path_suffix W file_path)) ".pdf" = false ->
  exists raw_text,
    process W self document_id file_path
    = Ok (ingestion_of document_id raw_text "image") /\
    truthy_str (strip raw_text) = true.
Proof.
  intros Hsuffix. unfold process. rewrite Hsuffix.
  destruct (_extract_from_image_has_text W self file_path)
    as (text & -> & Htext).
  exists text. split; [reflexivity|]. exact Htext.
Qed.

(** A run on an image never ends at the test for a blank text: whatever the
    OCR engines do, the ingestion step is marked "success", the extractor
    is called on the text of the document agent (a message of that agent,
    when no text could be read), and the run carries an overall status. *)
Theorem image_run_always_reaches_the_extractor
    L W agent document_id chat self now fault path file :
  String.eqb (lower (path_suffix W path)) ".pdf" = false ->
  (s_status
     <$> pr_steps (fst (process_invoice L
                          (services_of W agent document_id chat)
                          self now fault path file)) !! "document_ingestion")
    = Some "success" /\
  (exists s,
     pr_steps (fst (process_invoice L (services_of W agent document_id chat)
                      self now fault path file)) !! "extraction" = Some s) /\
  pr_overall_status (fst (process_invoice L
                            (services_of W agent document_id chat)
                            self now fault path file)) <> None.
Proof.
  intros Hsuffix.
  destruct (process_image W agent document_id path Hsuffix)
    as (raw_text & Hprocess & Htext).
  assert (Hraw : dict_get (ingestion_of document_id raw_text "image")
                   "raw_text" (PStr "") = PStr raw_text).
  { unfold dict_get, ingestion_of.
    rewrite lookup_insert_ne by discriminate.
    rewrite lookup_insert_eq. reflexivity. }
  destruct (process_invoice_cases L (services_of W agent document_id chat)
              self now fault path file)
    as [(e & Hdoc & _)
       |[(ing & e & Hdoc & Hstrip & _)
        |[(ing & text & Hdoc & Hing & Hblank & _)
         |[(ing & text & extracted & e & Hdoc & _ & _ & _ & _ & Hrun)
          |(ing & text & extracted & v & status & db_step & file' & Hdoc & _
            & _ & _ & _ & _ & Hrun & _)]]]];
    cbn [services_of document_process] in Hdoc; rewrite Hprocess in Hdoc;
    try discriminate Hdoc; injection Hdoc as <-.
  - rewrite Hraw in Hstrip. discriminate Hstrip.
  - rewrite Hraw in Hing. injection Hing as <-. congruence.
  - rewrite Hrun. cbn [fst pr_steps pr_overall_status].
    unfold steps_validation_raised.
    split; [|split; [|discriminate]].
    + rewrite !lookup_insert_ne by discriminate.
      rewrite lookup_insert_eq. reflexivity.
    + rewrite lookup_insert_ne by discriminate.
      rewrite lookup_insert_eq. eauto.
  - rewrite Hrun. cbn [fst pr_steps pr_overall_status].
    unfold full_run_steps.
    split; [|split; [|discriminate]].
    + rewrite !lookup_insert_ne by discriminate.
      rewrite lookup_insert_eq. reflexivity.
    + rewrite !lookup_insert_ne by discriminate.
      rewrite lookup_insert_eq. eauto.
Qed.

(** An instance: an image on a machine without OCR engine; the text handed
    to the extractor is the message on the missing Tesseract. *)
Lemma image_run_always_reaches_the_extractor_witness :
  process sample_doclib (DocumentIngestionAgent_init bare_host false)
    "doc-3" "scan.png"
  = Ok (ingestion_of "doc-3"
          (tesseract_missing_message sample_doclib
             (DocumentIngestionAgent_init bare_host false) "images")
          "image") /\
  (s_status
     <$> pr_steps (fst (process_invoice sample_lib
                          (services_of sample_doclib
                             (DocumentIngestionAgent_init bare_host false)
                             "doc-3" (fun _ _ _ => Ok [Some "{}"]))
                          sample_orchestrator sample_now NoFault "scan.png"
                          one_record_file)) !! "document_ingestion")
    = Some "success" /\
  (exists s,
     pr_steps (fst (process_invoice sample_lib
                      (services_of sample_doclib
                         (DocumentIngestionAgent_init bare_host false)
                         "doc-3" (fun _ _ _ => Ok [Some "{}"]))
                      sample_orchestrator sample_now NoFault "scan.png"
                      one_record_file)) !! "extraction" = Some s) /\
  pr_overall_status (fst (process_invoice sample_lib
                            (services_of sample_doclib
                               (DocumentIngestionAgent_init bare_host false)
                               "doc-3" (fun _ _ _ => Ok [Some "{}"]))
                            sample_orchestrator sample_now NoFault "scan.png"
                            one_record_file)) <> None.
Proof.
  split; [vm_compute; reflexivity|].
  exact (image_run_always_reaches_the_extractor sample_lib sample_doclib
           (DocumentIngestionAgent_init bare_host false) "doc-3"
           (fun _ _ _ => Ok [Some "{}"]) sample_orchestrator sample_now
           NoFault "scan.png" one_record_file eq_refl).
Defined.

Lemma nonblank_texts_of_texts texts : forall text_parts,
  nonblank_texts (map Ok texts) text_parts
  = Ok (text_parts ++ nonblank texts)%list.
Proof.
  unfold nonblank.
  induction texts as [|text rest IH]; intros text_parts;
    cbn [map nonblank_texts bind].
  - rewrite app_nil_r. reflexivity.
  - rewrite IH, filter_cons.
    destruct (base.decide (truthy_str (strip text) = true)) as [Ht|Ht].
    + rewrite Ht, <- app_assoc. reflexivity.
    + apply not_true_is_false in Ht. rewrite Ht. reflexivity.
Qed.

Lemma nonblank_head text rest texts :
  nonblank texts = text :: rest -> all_space text = false.
Proof.
  intros Heq.
  assert (Hin : text ∈ nonblank texts) by (rewrite Heq; left).
  unfold nonblank in Hin. apply list_elem_of_filter in Hin as [Ht _].
  rewrite truthy_strip in Ht. apply negb_true_iff in Ht. exact Ht.
Qed.

Lemma join_cons_has_text sep text rest :
  all_space text = false -> truthy_str (strip (join sep (text :: rest))) = true.
Proof.
  intros Ht. unfold join. destruct rest as [|text' rest]; cbn [String.concat].
  - rewrite truthy_strip, Ht. reflexivity.
  - apply has_text_app_l. exact Ht.
Qed.

(** A PDF with a text layer is not sent to an OCR engine: when PyMuPDF
    opens the file and gives the text of every page, and one of these texts
    is not blank, [_extract_from_pdf] returns the texts that are not blank,
    joined by line feeds, whatever the OCR engines and PyPDF2 would do; this
    text is not blank. *)
Theorem pdf_with_a_text_layer_is_not_sent_to_ocr W self file_path doc texts :
  fitz_open W file_path = Ok doc ->
  map get_text doc = map Ok texts ->
  nonblank texts <> [] ->
  _extract_from_pdf W self file_path = Ok (join nl (nonblank texts)) /\
  truthy_str (strip (join nl (nonblank texts))) = true.
Proof.
  intros Hopen Htexts Hsome.
  destruct (nonblank texts) as [|text rest] eqn:Hparts; [contradiction|].
  assert (Hjoin : truthy_str (strip (join nl (text :: rest))) = true).
  { apply join_cons_has_text.
    apply (nonblank_head text rest texts Hparts). }
  split; [|exact Hjoin].
  unfold _extract_from_pdf.
  rewrite Hopen. cbn [bind]. rewrite Htexts, nonblank_texts_of_texts.
  cbn [bind app]. rewrite Hparts, Hjoin. reflexivity.
Qed.

(** An instance: a two-page invoice whose second page is blank. *)
Lemma pdf_with_a_text_layer_is_not_sent_to_ocr_witness :
  nonblank [acme_text; "  "] = [acme_text] /\
  _extract_from_pdf sample_doclib (DocumentIngestionAgent_init bare_host false)
    "invoice.pdf" = Ok acme_text.
Proof.
  assert (Hparts : nonblank [acme_text; "  "] = [acme_text])
    by (vm_compute; reflexivity).
  split; [exact Hparts|].
  assert (Hsome : nonblank [acme_text; "  "] <> []).
  { rewrite Hparts. intros H. discriminate H. }
  destruct (pdf_with_a_text_layer_is_not_sent_to_ocr sample_doclib
              (DocumentIngestionAgent_init bare_host false) "invoice.pdf"
              [FitzPage (Ok acme_text) (Ok (Image "invoice.pdf#0"));
               FitzPage (Ok "  ") (Ok (Image "invoice.pdf#1"))]
              [acme_text; "  "] eq_refl eq_refl Hsome) as [Hrun _].
  rewrite Hrun, Hparts. reflexivity.
Defined.

Lemma no_text_layer_texts doc :
  no_text_layer doc ->
  nonblank_texts (map get_text doc) [] = Ok [].
Proof.
  unfold no_text_layer.
  induction 1 as [|page rest (text & Htext & Hblank) _ IH];
    cbn [map nonblank_texts]; [reflexivity|].
  rewrite Htext. cbn [bind]. rewrite Hblank. exact IH.
Qed.

(** Without a text layer, [_extract_from_pdf] is [_ocr_pdf]. *)
Lemma _extract_from_pdf_scan W self file_path doc :
  fitz_open W file_path = Ok doc ->
  no_text_layer doc ->
  _extract_from_pdf W self file_path = _ocr_pdf W self file_path.
Proof.
  intros Hopen Hlayer.
  destruct (_ocr_pdf_returns W self file_path) as (text & Hocr).
  unfold _extract_from_pdf.
  rewrite Hopen. cbn [bind]. rewrite (no_text_layer_texts doc Hlayer).
  cbn [bind]. rewrite Hocr. reflexivity.
Qed.

Lemma ocr_pages_tesseract W self doc texts :
  tesseract_available self = true ->
  use_easyocr self && easyocr_reader self = false ->
  Forall2 (page_read_as W) doc texts ->
  forall page_num text_parts,
    ocr_pages W self page_num doc text_parts
    = Ok (inr (text_parts ++ texts)%list).
Proof.
  intros Havail Heasy.
  induction 1 as [|page text doc texts (img & Himg & Htext) _ IH];
    intros page_num text_parts; cbn [ocr_pages].
  - rewrite app_nil_r. reflexivity.
  - unfold ocr_page. rewrite Himg, Heasy, Havail. cbn [bind negb].
    rewrite Htext. cbn [try_except bind].
    rewrite IH, <- app_assoc. reflexivity.
Qed.

(** A scanned PDF on a machine with Tesseract, EasyOCR being off: the pages
    are read one by one and their texts joined by line feeds, blank ones
    included, so that a scan of empty pages gives a blank text; a document
    without pages gets the message that no OCR engine is available. *)
Theorem scanned_pdf_is_read_page_by_page W self file_path doc texts :
  fitz_open W file_path = Ok doc ->
  no_text_layer doc ->
  tesseract_available self = true ->
  use_easyocr self && easyocr_reader self = false ->
  Forall2 (page_read_as W) doc texts ->
  _extract_from_pdf W self file_path
  = Ok (match texts with
        | [] => no_engine_message W self
        | _ => join nl texts
        end).
Proof.
  intros Hopen Hlayer Havail Heasy Hread.
  rewrite (_extract_from_pdf_scan W self file_path doc Hopen Hlayer).
  unfold _ocr_pdf. rewrite Hopen. cbn [bind].
  rewrite (ocr_pages_tesseract W self doc texts Havail Heasy Hread).
  cbn [bind app]. rewrite Havail. cbn [negb andb].
  destruct texts; reflexivity.
Qed.

(** An instance: a scan of two pages, the second one empty. *)
Lemma scanned_pdf_is_read_page_by_page_witness :
  _extract_from_pdf sample_doclib
    (DocumentIngestionAgent_init tesseract_host false) "scan.pdf"
  = Ok (acme_text ++ nl ++ "").
Proof.
  assert (Hlayer : no_text_layer
            [FitzPage (Ok "") (Ok (Image "scan.pdf#0"));
             FitzPage (Ok "") (Ok (Image "scan.pdf#1"))]).
  { repeat constructor; exists ""; split; reflexivity. }
  assert (Hread : Forall2 (page_read_as sample_doclib)
            [FitzPage (Ok "") (Ok (Image "scan.pdf#0"));
             FitzPage (Ok "") (Ok (Image "scan.pdf#1"))]
            [acme_text; ""]).
  { repeat constructor.
    - exists (Image "scan.pdf#0"). split; reflexivity.
    - exists (Image "scan.pdf#1"). split; reflexivity. }
  exact (scanned_pdf_is_read_page_by_page sample_doclib
           (DocumentIngestionAgent_init tesseract_host false) "scan.pdf"
           _ [acme_text; ""] eq_refl Hlayer eq_refl eq_refl Hread).
Defined.

Lemma ocr_pages_without_engine W self doc :
  tesseract_available self = false ->
  use_easyocr self && easyocr_reader self = false ->
  pages_render doc ->
  forall page_num text_parts,
    ocr_pages W self page_num doc text_parts = Ok (inr text_parts).
Proof.
  intros Havail Heasy.
  induction 1 as [|page doc (img & Himg) _ IH];
    intros page_num text_parts; cbn [ocr_pages]; [reflexivity|].
  unfold ocr_page. rewrite Himg, Heasy, Havail. cbn [bind negb try_except].
  apply IH.
Qed.

(** A scanned PDF on a machine without OCR engine: every page is skipped,
    and the text returned is the message that no OCR engine is available,
    with the installation notes; this text is not blank, so a run goes on
    to the extractor with it. *)
Theorem scanned_pdf_without_engine_gets_a_message W self file_path doc :
  fitz_open W file_path = Ok doc ->
  no_text_layer doc ->
  pages_render doc ->
  tesseract_available self = false ->
  use_easyocr self && easyocr_reader self = false ->
  _extract_from_pdf W self file_path = Ok (no_engine_message W self) /\
  truthy_str (strip (no_engine_message W self)) = true.
Proof.
  intros Hopen Hlayer Hrender Havail Heasy.
  split; [|apply no_engine_message_has_text].
  rewrite (_extract_from_pdf_scan W self file_path doc Hopen Hlayer).
  unfold _ocr_pdf. rewrite Hopen. cbn [bind].
  rewrite (ocr_pages_without_engine W self doc Havail Heasy Hrender).
  reflexivity.
Qed.

(** An instance: the two-page scan on the machine without engines. *)
Lemma scanned_pdf_without_engine_gets_a_message_witness :
  _extract_from_pdf sample_doclib
    (DocumentIngestionAgent_init bare_host false) "scan.pdf"
  = Ok (no_engine_message sample_doclib
          (DocumentIngestionAgent_init bare_host false)).
Proof.
  assert (Hlayer : no_text_layer
            [FitzPage (Ok "") (Ok (Image "scan.pdf#0"));
             FitzPage (Ok "") (Ok (Image "scan.pdf#1"))]).
  { repeat constructor; exists ""; split; reflexivity. }
  assert (Hrender : pages_render
            [FitzPage (Ok "") (Ok (Image "scan.pdf#0"));
             FitzPage (Ok "") (Ok (Image "scan.pdf#1"))]).
  { repeat constructor; eexists; reflexivity. }
  exact (proj1 (scanned_pdf_without_engine_gets_a_message sample_doclib
                  (DocumentIngestionAgent_init bare_host false) "scan.pdf"
                  _ eq_refl Hlayer Hrender eq_refl eq_refl)).
Defined.

